(** * setup-ffmpeg.js: the FFmpeg set-up script

    A shallow embedding of [setup-ffmpeg.js] and the properties of its
    stages: the availability probe, the local-cache probe, the download,
    the extraction with its executable search, the path guidance and the
    top-level orchestration.

    Conventions of the model.
    - A path is the list of its components below [__dirname], the directory
      of the script, which is the root of the modelled file system; the empty
      path is [__dirname] itself.  [path.join] appends components.
    - The file system is a finite tree of directories and regular files; a
      directory lists its entries in the order [fs.readdirSync] reports
      them.  Links and entries that cannot be read are not modelled, so
      [fs.statSync] succeeds on every entry a directory lists; nor is the
      place a new entry takes in the listing of its directory.
    - Everything the script cannot decide by itself (the child process, the
      network, the archive decoder, the keyboard, refusals of the operating
      system) is read from an environment record [Env].
    - An asynchronous function is a computation over the world that returns a
      value, throws (a rejected promise), stays pending for ever, or sees
      the process end under it (an ['error'] event nobody listens for, or
      the end of stdin with nothing left to wait for). *)

From Stdlib Require Import List String Ascii Bool Arith Lia DecimalString.
Import ListNotations.
Open Scope string_scope.
Open Scope list_scope.

Set Warnings "-register-all".

(* ------------------------------------------------------------------ *)
(** ** Paths *)

Module Path.

Definition path := list string.

(** [path.join(p, s1, ..., sn)] for plain component names. *)
Definition join (p : path) (segments : list string) : path := p ++ segments.

(** [path.dirname(p)]. *)
Definition dirname (p : path) : path := removelast p.

(** The last component of a path (the empty string for the root). *)
Definition basename (p : path) : string := last p "".

Definition sep : string := "\".

(** The text of a path below the directory whose text is [root]. *)
Definition render (root : string) (p : path) : string :=
  String.concat sep (root :: p).

End Path.
Import Path.

(* ------------------------------------------------------------------ *)
(** ** JavaScript errors and completions *)

Record Error := mkError { message : string }.

(** How a synchronous call ends: with a value or with a thrown error. *)
Inductive completion (A : Type) : Type :=
| Normal (a : A)
| Thrown (e : Error).
Arguments Normal {A} a.
Arguments Thrown {A} e.

(* ------------------------------------------------------------------ *)
(** ** The file system below [__dirname] *)

Module FS.

(** A regular file with its contents, or a directory with its entries. *)
Inductive node : Type :=
| File (data : string)
| Dir (entries : list (string * node)).

Definition dir := list (string * node).

(** The entry a name designates in a directory (the first one listed). *)
Fixpoint assoc (name : string) (es : dir) : option node :=
  match es with
  | [] => None
  | (k, n) :: es' => if String.eqb k name then Some n else assoc name es'
  end.

Fixpoint lookup (n : node) (p : path) : option node :=
  match p with
  | [] => Some n
  | c :: p' =>
      match n with
      | File _ => None
      | Dir es =>
          match assoc c es with
          | Some n' => lookup n' p'
          | None => None
          end
      end
  end.

(** What [fs.statSync] is asked for in the script. *)
Record Stats := mkStats { isDirectory : bool }.

Definition stats_of (n : node) : Stats :=
  match n with
  | File _ => mkStats false
  | Dir _ => mkStats true
  end.

Definition ENOENT (syscall : string) (p : path) : Error :=
  mkError ("ENOENT: no such file or directory, " ++ syscall ++ " " ++ render "." p).

Definition ENOTDIR (syscall : string) (p : path) : Error :=
  mkError ("ENOTDIR: not a directory, " ++ syscall ++ " " ++ render "." p).

Definition EISDIR (syscall : string) (p : path) : Error :=
  mkError ("EISDIR: illegal operation on a directory, " ++ syscall ++ " " ++ render "." p).

Definition EEXIST (syscall : string) (p : path) : Error :=
  mkError ("EEXIST: file already exists, " ++ syscall ++ " " ++ render "." p).

Section Queries.
Variable fs : dir.

(** [fs.existsSync(p)]: never throws. *)
Definition existsSync (p : path) : bool :=
  match lookup (Dir fs) p with
  | Some _ => true
  | None => false
  end.

(** [fs.statSync(p)]. *)
Definition statSync (p : path) : completion Stats :=
  match lookup (Dir fs) p with
  | Some n => Normal (stats_of n)
  | None => Thrown (ENOENT "stat" p)
  end.

(** [fs.readdirSync(p)]: the names of the entries, in listing order. *)
Definition readdirSync (p : path) : completion (list string) :=
  match lookup (Dir fs) p with
  | Some (Dir es) => Normal (map fst es)
  | Some (File _) => Thrown (ENOTDIR "scandir" p)
  | None => Thrown (ENOENT "scandir" p)
  end.
End Queries.

(** *** Updates *)

Definition remove_entry (name : string) (es : dir) : dir :=
  filter (fun e => negb (String.eqb (fst e) name)) es.

(** Replace the entry a name designates, or list a new one last.  Where the
    operating system lists a new name is not modelled. *)
Fixpoint set_entry (name : string) (n : node) (es : dir) : dir :=
  match es with
  | [] => [(name, n)]
  | (k, m) :: es' =>
      if String.eqb k name then (k, n) :: es'
      else (k, m) :: set_entry name n es'
  end.

(** Putting a node at a path whose parent is a directory. *)
Fixpoint place (p : path) (n : node) (es : dir) : option dir :=
  match p with
  | [] =>
      match n with
      | Dir es' => Some es'
      | File _ => None
      end
  | [c] => Some (set_entry c n es)
  | c :: p' =>
      match assoc c es with
      | Some (Dir sub) =>
          match place p' n sub with
          | Some sub' => Some (set_entry c (Dir sub') es)
          | None => None
          end
      | _ => None
      end
  end.

(** Unlinking a file: [None] when there is no file at the path. *)
Fixpoint unlink (p : path) (es : dir) : option dir :=
  match p with
  | [] => None
  | [c] =>
      match assoc c es with
      | Some (File _) => Some (remove_entry c es)
      | _ => None
      end
  | c :: p' =>
      match assoc c es with
      | Some (Dir sub) =>
          match unlink p' sub with
          | Some sub' => Some (set_entry c (Dir sub') es)
          | None => None
          end
      | _ => None
      end
  end.

(** Writing a file (created or truncated): [None] when the parent is not a
    directory or the path is a directory. *)
Fixpoint write (p : path) (data : string) (es : dir) : option dir :=
  match p with
  | [] => None
  | [c] =>
      match assoc c es with
      | Some (Dir _) => None
      | _ => Some (set_entry c (File data) es)
      end
  | c :: p' =>
      match assoc c es with
      | Some (Dir sub) =>
          match write p' data sub with
          | Some sub' => Some (set_entry c (Dir sub') es)
          | None => None
          end
      | _ => None
      end
  end.

(** [mkdir -p]: [None] when a file is in the way. *)
Fixpoint mkdir_p (p : path) (es : dir) : option dir :=
  match p with
  | [] => Some es
  | c :: p' =>
      match assoc c es with
      | Some (Dir sub) =>
          match mkdir_p p' sub with
          | Some sub' => Some (set_entry c (Dir sub') es)
          | None => None
          end
      | Some (File _) => None
      | None =>
          match mkdir_p p' [] with
          | Some sub' => Some (set_entry c (Dir sub') es)
          | None => None
          end
      end
  end.

(** Laying a tree at the path [here] over what is already there: a file
    replaces a file, directories are merged, entries the new tree does not
    name stay.  A file cannot be opened where a directory is, nor a
    directory made where a file is. *)
Fixpoint overlay (here : path) (new : node) (old : option node)
    : completion node :=
  match new with
  | File data =>
      match old with
      | Some (Dir _) => Thrown (EISDIR "open" here)
      | _ => Normal (File data)
      end
  | Dir es =>
      match old with
      | Some (File _) => Thrown (EEXIST "mkdir" here)
      | _ =>
          match
            (fix go (es : list (string * node)) (acc : dir) : completion dir :=
               match es with
               | [] => Normal acc
               | (k, n) :: es' =>
                   match overlay (join here [k]) n (assoc k acc) with
                   | Normal m => go es' (set_entry k m acc)
                   | Thrown e => Thrown e
                   end
               end) es
              match old with
              | Some (Dir os) => os
              | _ => []
              end
          with
          | Normal merged => Normal (Dir merged)
          | Thrown e => Thrown e
          end
      end
  end.

(** The height of a tree: the fuel a traversal needs. *)
Fixpoint height (n : node) : nat :=
  match n with
  | File _ => 0
  | Dir es =>
      S ((fix go (es : list (string * node)) : nat :=
            match es with
            | [] => 0
            | (_, m) :: es' => Nat.max (height m) (go es')
            end) es)
  end.

End FS.
Import FS.

(* ------------------------------------------------------------------ *)
(** ** The executable search: [findFfmpegExePath] *)

Definition ffmpeg_exe : string := "ffmpeg.exe".
Definition bin : string := "bin".

Section Search.
Variable fs : dir.

(** The body of [for (const item of items)] in the directory [d];
    [recur] is the recursive call of the function.  [None] stands for a
    call that did not return within its fuel. *)
Fixpoint search_items (recur : path -> option (completion (option path)))
    (d : path) (items : list string) : option (completion (option path)) :=
  match items with
  | [] => Some (Normal None)
  | item :: rest =>
      let itemPath := join d [item] in
      match statSync fs itemPath with
      | Thrown e => Some (Thrown e)
      | Normal stats =>
          if isDirectory stats then
            if String.eqb item bin && existsSync fs (join itemPath [ffmpeg_exe])
            then Some (Normal (Some (join itemPath [ffmpeg_exe])))
            else
              match recur itemPath with
              | None => None
              | Some (Thrown e) => Some (Thrown e)
              | Some (Normal (Some exePath)) => Some (Normal (Some exePath))
              | Some (Normal None) => search_items recur d rest
              end
          else if String.eqb item ffmpeg_exe then Some (Normal (Some itemPath))
          else search_items recur d rest
      end
  end.

Fixpoint findFfmpegExePath (fuel : nat) (d : path)
    : option (completion (option path)) :=
  match fuel with
  | 0 => None
  | S fuel' =>
      match readdirSync fs d with
      | Thrown e => Some (Thrown e)
      | Normal items => search_items (findFfmpegExePath fuel') d items
      end
  end.

(** The same traversal, which also records the directories it lists (its
    [fs.readdirSync] calls), in the order it lists them. *)
Fixpoint search_items_log
    (recur : path -> option (list path * completion (option path)))
    (d : path) (items : list string)
    : option (list path * completion (option path)) :=
  match items with
  | [] => Some ([], Normal None)
  | item :: rest =>
      let itemPath := join d [item] in
      match statSync fs itemPath with
      | Thrown e => Some ([], Thrown e)
      | Normal stats =>
          if isDirectory stats then
            if String.eqb item bin && existsSync fs (join itemPath [ffmpeg_exe])
            then Some ([], Normal (Some (join itemPath [ffmpeg_exe])))
            else
              match recur itemPath with
              | None => None
              | Some (seen, Thrown e) => Some (seen, Thrown e)
              | Some (seen, Normal (Some exePath)) =>
                  Some (seen, Normal (Some exePath))
              | Some (seen, Normal None) =>
                  match search_items_log recur d rest with
                  | Some (seen', r) => Some (seen ++ seen', r)
                  | None => None
                  end
              end
          else if String.eqb item ffmpeg_exe then Some ([], Normal (Some itemPath))
          else search_items_log recur d rest
      end
  end.

Fixpoint findFfmpegExePath_log (fuel : nat) (d : path)
    : option (list path * completion (option path)) :=
  match fuel with
  | 0 => None
  | S fuel' =>
      match readdirSync fs d with
      | Thrown e => Some ([], Thrown e)
      | Normal items =>
          match search_items_log (findFfmpegExePath_log fuel') d items with
          | Some (seen, r) => Some (d :: seen, r)
          | None => None
          end
      end
  end.

End Search.

(** The fuel that suffices for a search below [d]: more than the height of
    the tree that hangs there. *)
Definition search_fuel (fs : dir) (d : path) : nat :=
  match lookup (Dir fs) d with
  | Some n => S (height n)
  | None => 1
  end.

(* ------------------------------------------------------------------ *)
(** ** The world of the script *)

(** The lines the script prints, one constructor per [console.log] or
    [console.error] of the source. *)
Inductive Line : Type :=
| L_Title | L_Rule | L_Intro
| L_NotInPath | L_AlreadyInstalled
| L_Downloading | L_DownloadComplete
| L_Extracting | L_ExtractionComplete | L_CleanedUp
| L_ErrorExtracting (msg : string)
| L_InstalledAt (exe : path) | L_ToUse | L_BinDir (d : path)
| L_YouCanDo | L_Setx (d : path)
| L_NoNeed | L_FullQuality
| L_LocalFound
| L_WouldYouLike | L_PressEnter
| L_SetupComplete
| L_ErrorSettingUp (msg : string) | L_StillUsable
| L_Rejected (e : Error)
| L_PressAnyKey.

Definition nl : string := String "010"%char EmptyString.
Definition dquote : string := String "034"%char EmptyString.

(** The text of a line; [root] is the text of [__dirname]. *)
Definition text (root : string) (l : Line) : string :=
  match l with
  | L_Title => "YouTube Downloader FFmpeg Setup"
  | L_Rule => "=============================="
  | L_Intro =>
      "This script will download and set up FFmpeg for better video quality." ++ nl
  | L_NotInPath => "FFmpeg is not found in your system PATH."
  | L_AlreadyInstalled => "FFmpeg is already installed in your system!"
  | L_Downloading => "Downloading FFmpeg..."
  | L_DownloadComplete => "Download complete!"
  | L_Extracting => "Extracting FFmpeg..."
  | L_ExtractionComplete => "Extraction complete!"
  | L_CleanedUp => "Cleaned up temporary files."
  | L_ErrorExtracting msg => "Error extracting FFmpeg: " ++ msg
  | L_InstalledAt exe => nl ++ "FFmpeg installed at: " ++ render root exe
  | L_ToUse => nl ++ "To use FFmpeg system-wide, add this directory to your PATH:"
  | L_BinDir d => render root d
  | L_YouCanDo =>
      nl ++ "You can do this by running the following command in Command Prompt (as Administrator):"
  | L_Setx d => "setx PATH " ++ dquote ++ "%PATH%;" ++ render root d ++ dquote
  | L_NoNeed =>
      nl ++ "FFmpeg is already installed on your system. No need to download."
  | L_FullQuality =>
      "You can use the YouTube Downloader with full video quality features."
  | L_LocalFound => nl ++ "Local FFmpeg installation found."
  | L_WouldYouLike =>
      nl ++ "Would you like to download and install FFmpeg for better video quality?"
  | L_PressEnter => "Press Enter to continue or Ctrl+C to cancel..."
  | L_SetupComplete =>
      nl ++ "Setup complete! You can now use the YouTube Downloader with full video quality features."
  | L_ErrorSettingUp msg => nl ++ "Error setting up FFmpeg: " ++ msg
  | L_StillUsable =>
      "You can still use the YouTube Downloader, but video quality may be limited."
  | L_Rejected e => message e
  | L_PressAnyKey => nl ++ "Press any key to exit..."
  end.

(** [console.error] lines; the others are [console.log] lines. *)
Definition on_stderr (l : Line) : bool :=
  match l with
  | L_ErrorExtracting _ | L_ErrorSettingUp _ | L_Rejected _ => true
  | _ => false
  end.

(** The user-facing warning: the application stays usable, quality limited. *)
Definition is_warning (l : Line) : bool :=
  match l with
  | L_StillUsable => true
  | _ => false
  end.

(** The calls the script makes, recorded in order (ghost state). *)
Inductive Call : Type :=
| C_checkFfmpeg
| C_localCacheProbe
| C_awaitConfirmation
| C_downloadFfmpeg
| C_extractFfmpeg
| C_findFfmpegExePath (d : path)
| C_addToPath (exe : path)
| C_unlink (p : path)
| C_unlinkSync (p : path)
| C_awaitExitKey.

(** The stages of the orchestrator among the calls. *)
Definition is_stage (c : Call) : bool :=
  match c with
  | C_checkFfmpeg | C_localCacheProbe | C_awaitConfirmation
  | C_downloadFfmpeg | C_extractFfmpeg | C_addToPath _ => true
  | _ => false
  end.

Record World := mkWorld {
  files : dir;
  console : list Line;
  calls : list Call
}.

(** *** The environment *)

(** How the child process of [exec('ffmpeg -version')] ends. *)
Inductive ExecResult : Type :=
| Exited (code : nat)
| Killed
| SpawnFailed.

(** What becomes of the request of [https.get] and of the transfer of the
    body to the file.
    - [RequestError]: the request emits ['error'] and no response comes.
    - [Response]: a response comes, and its whole body arrives and is
      written to the file.
    - [ResponseCut]: a response comes and its body stops arriving after a
      part of it: the connection closes without an error, the response
      never emits ['end'].
    - [ResponseUnwritten]: a response comes, and a write to the file fails
      (a full disk) after a part of the body has been written: the file
      emits ['error']. *)
Inductive HttpResult : Type :=
| RequestError (err : Error)
| Response (statusCode : nat) (body : string)
| ResponseCut (statusCode : nat) (received : string)
| ResponseUnwritten (statusCode : nat) (written : string).

(** What the archive decoder makes of the bytes of an archive. *)
Inductive UnzipResult : Type :=
| Unzipped (tree : dir)
| UnzipError (err : Error).

Record Env := mkEnv {
  exec_ffmpeg_version : ExecResult;
  https_get : HttpResult;
  unzip : string -> UnzipResult;
  (** refusals of the operating system (permissions, locks) *)
  mkdirSync_refused : option Error;
  unlinkSync_refused : option Error;
  unlink_refused : option Error;
  (** does a ['data'] event of stdin come at the confirmation prompt *)
  stdin_confirm : bool;
  (** does the wait at the exit prompt come to an end: by a ['data'] event,
      on which the script calls [process.exit(0)], or by the end of stdin,
      on which the process ends by itself, with code 0 as well *)
  stdin_exit : bool;
  (** when the script waits for an event that never comes: does stdin end
      meanwhile *)
  stdin_eof : bool
}.

(** *** Asynchronous computations *)

(** [Halt]: no continuation of the script runs, the awaited event never
    comes.  [Quit code]: the process ends here with the exit code [code] and
    no continuation of the script runs; no [catch] sees it. *)
Inductive outcome (A : Type) : Type :=
| Return (a : A)
| Throw (e : Error)
| Halt
| Quit (code : nat).
Arguments Return {A} a.
Arguments Throw {A} e.
Arguments Halt {A}.
Arguments Quit {A} code.

Definition M (A : Type) : Type := World -> outcome A * World.

Definition ret {A} (a : A) : M A := fun w => (Return a, w).

Definition throw {A} (e : Error) : M A := fun w => (Throw e, w).

Definition halt {A} : M A := fun w => (Halt, w).

Definition quit {A} (code : nat) : M A := fun w => (Quit code, w).

(** An ['error'] event of an emitter without a listener for it: Node throws
    the error, nothing catches it, and the process dies with exit code 1. *)
Definition unhandled_error_event {A} : M A := quit 1.

Definition bind {A B} (c : M A) (k : A -> M B) : M B :=
  fun w =>
    match c w with
    | (Return a, w') => k a w'
    | (Throw e, w') => (Throw e, w')
    | (Halt, w') => (Halt, w')
    | (Quit code, w') => (Quit code, w')
    end.

(** [try { body } catch (err) { handler }]. *)
Definition try_catch {A} (body : M A) (handler : Error -> M A) : M A :=
  fun w =>
    match body w with
    | (Throw e, w') => handler e w'
    | r => r
    end.

Notation "x <- c ;; k" := (bind c (fun x => k))
  (at level 61, c at next level, right associativity).
Notation "c ;; k" := (bind c (fun _ => k))
  (at level 61, right associativity).

Definition log (l : Line) : M unit :=
  fun w => (Return tt, mkWorld (files w) (console w ++ [l]) (calls w)).

Definition called (c : Call) : M unit :=
  fun w => (Return tt, mkWorld (files w) (console w) (calls w ++ [c])).

Definition get_files : M dir := fun w => (Return (files w), w).

Definition set_files (fs : dir) : M unit :=
  fun w => (Return tt, mkWorld fs (console w) (calls w)).

Definition of_completion {A} (c : completion A) : M A :=
  match c with
  | Normal a => ret a
  | Thrown e => throw e
  end.

(* ------------------------------------------------------------------ *)
(** ** The script *)

(** Configuration.  [downloadPath] and [ffmpegDir] are
    [path.join(__dirname, ...)]. *)
Definition ffmpegUrl : string :=
  "https://github.com/BtbN/FFmpeg-Builds/releases/download/latest/ffmpeg-master-latest-win64-gpl.zip".
Definition __dirname : path := [].
Definition downloadPath : path := join __dirname ["ffmpeg-download.zip"].
Definition ffmpegDir : path := join __dirname ["ffmpeg"].

(** The decimal text of a number, as a template literal prints it. *)
Definition show_number (n : nat) : string :=
  NilZero.string_of_uint (Nat.to_uint n).

Section Script.
Variable env : Env.

(** *** Node's API over the world *)

Definition fs_existsSync (p : path) : M bool :=
  fs <- get_files ;; ret (existsSync fs p).

(** [fs.mkdirSync(p, { recursive: true })]. *)
Definition fs_mkdirSync (p : path) : M unit :=
  match mkdirSync_refused env with
  | Some e => throw e
  | None =>
      fs <- get_files ;;
      match mkdir_p p fs with
      | Some fs' => set_files fs'
      | None => throw (ENOTDIR "mkdir" p)
      end
  end.

(** [fs.unlinkSync(p)]. *)
Definition fs_unlinkSync (p : path) : M unit :=
  called (C_unlinkSync p) ;;
  match unlinkSync_refused env with
  | Some e => throw e
  | None =>
      fs <- get_files ;;
      match unlink p fs with
      | Some fs' => set_files fs'
      | None => throw (ENOENT "unlink" p)
      end
  end.

(** [fs.unlink(p, callback)]: the callback receives the error, if any. *)
Definition fs_unlink (p : path) (callback : option Error -> M unit) : M unit :=
  called (C_unlink p) ;;
  match unlink_refused env with
  | Some e => callback (Some e)
  | None =>
      fs <- get_files ;;
      match unlink p fs with
      | Some fs' => set_files fs' ;; callback None
      | None => callback (Some (ENOENT "unlink" p))
      end
  end.

(** [fs.createWriteStream(p)]: the file is created empty, or emptied.  A
    stream that cannot open emits an ['error'] event, and the script has no
    listener for it. *)
Definition fs_createWriteStream (p : path) : M unit :=
  fs <- get_files ;;
  match write p "" fs with
  | Some fs' => set_files fs'
  | None => unhandled_error_event
  end.

(** [response.pipe(file)]: what is received is written to the file; a write
    that fails is an ['error'] event of the file as well. *)
Definition pipe (received : string) (p : path) : M unit :=
  fs <- get_files ;;
  match write p received fs with
  | Some fs' => set_files fs'
  | None => unhandled_error_event
  end.

(** [decompress(archive, target, { plugins: [decompressUnzip()] })].  When an
    entry of the archive cannot be written over what is there (a file meets
    a directory, or a directory a file), the promise rejects; what was
    written before that entry is not modelled. *)
Definition decompress (archive target : path) : M unit :=
  fs <- get_files ;;
  match lookup (Dir fs) archive with
  | None => throw (ENOENT "open" archive)
  | Some (Dir _) => throw (EISDIR "read" archive)
  | Some (File data) =>
      match unzip env data with
      | UnzipError e => throw e
      | Unzipped tree =>
          match lookup (Dir fs) target with
          | Some (File _) => throw (ENOTDIR "mkdir" target)
          | old =>
              match mkdir_p target fs with
              | None => throw (ENOTDIR "mkdir" target)
              | Some fs' =>
                  match overlay target (Dir tree) old with
                  | Thrown e => throw e
                  | Normal merged =>
                      match place target merged fs' with
                      | Some fs'' => set_files fs''
                      | None => throw (ENOTDIR "mkdir" target)
                      end
                  end
              end
          end
      end
  end.

(** The wait for [process.stdin.once('data', ...)] at the exit prompt:
    [arrives] tells whether the wait comes to an end (see [stdin_exit]). *)
Definition await_data (arrives : bool) : M unit :=
  if arrives then ret tt else halt.

(** A promise that never settles.  The process goes on waiting as long as
    stdin is open; when stdin ends, nothing is left to wait for and the
    process ends by itself, with code 0. *)
Definition never_settles {A} : M A :=
  if stdin_eof env then quit 0 else halt.

(** *** Availability probe *)

(** The [error] argument of the callback of [exec]: [null] exactly when the
    child process exits with code 0. *)
Definition exec_error (r : ExecResult) : option Error :=
  match r with
  | Exited 0 => None
  | Exited (S _) => Some (mkError "Command failed: ffmpeg -version")
  | Killed => Some (mkError "Command failed: ffmpeg -version")
  | SpawnFailed => Some (mkError "spawn ENOENT")
  end.

Definition checkFfmpeg : M bool :=
  called C_checkFfmpeg ;;
  match exec_error (exec_ffmpeg_version env) with
  | Some _ => log L_NotInPath ;; ret false
  | None => log L_AlreadyInstalled ;; ret true
  end.

(** *** Download *)

Definition downloadFfmpeg : M unit :=
  called C_downloadFfmpeg ;;
  log L_Downloading ;;
  fs_createWriteStream downloadPath ;;
  match https_get env with
  | Response statusCode body =>
      if negb (Nat.eqb statusCode 200) then
        throw (mkError ("Failed to download FFmpeg: " ++ show_number statusCode))
      else
        pipe body downloadPath ;;
        log L_DownloadComplete ;;
        ret tt
  | ResponseCut statusCode received =>
      if negb (Nat.eqb statusCode 200) then
        throw (mkError ("Failed to download FFmpeg: " ++ show_number statusCode))
      else
        (* the file never emits 'finish' *)
        pipe received downloadPath ;;
        never_settles
  | ResponseUnwritten statusCode written =>
      if negb (Nat.eqb statusCode 200) then
        throw (mkError ("Failed to download FFmpeg: " ++ show_number statusCode))
      else
        pipe written downloadPath ;;
        unhandled_error_event
  | RequestError err =>
      fs_unlink downloadPath (fun _ => ret tt) ;;
      throw err
  end.

(** *** Extraction and search *)

Definition find_exe (d : path) : M (option path) :=
  called (C_findFfmpegExePath d) ;;
  fs <- get_files ;;
  match findFfmpegExePath fs (search_fuel fs d) d with
  | Some c => of_completion c
  | None => halt
  end.

Definition not_found_error : Error :=
  mkError "Could not find ffmpeg.exe in the extracted files".

(** Lines 65 to 75: the install root is made if it is missing, and the
    archive is decompressed into it. *)
Definition prepare_and_extract : M unit :=
  (present <- fs_existsSync ffmpegDir ;;
   if negb present then fs_mkdirSync ffmpegDir else ret tt) ;;
  decompress downloadPath ffmpegDir ;;
  log L_ExtractionComplete.

(** Lines 77 to 79: the downloaded archive is deleted. *)
Definition clean_up : M unit :=
  fs_unlinkSync downloadPath ;;
  log L_CleanedUp.

(** Lines 81 to 87: the executable is searched, and missed with an error. *)
Definition locate : M path :=
  ffmpegExePath <- find_exe ffmpegDir ;;
  match ffmpegExePath with
  | Some exe => ret exe
  | None => throw not_found_error
  end.

Definition extractFfmpeg : M path :=
  called C_extractFfmpeg ;;
  log L_Extracting ;;
  try_catch
    (prepare_and_extract ;;
     clean_up ;;
     locate)
    (fun err => log (L_ErrorExtracting (message err)) ;; throw err).

(** *** Path guidance *)

Definition addToPath (ffmpegExePath : path) : M path :=
  called (C_addToPath ffmpegExePath) ;;
  let ffmpegBinDir := dirname ffmpegExePath in
  log (L_InstalledAt ffmpegExePath) ;;
  log L_ToUse ;;
  log (L_BinDir ffmpegBinDir) ;;
  log L_YouCanDo ;;
  log (L_Setx ffmpegBinDir) ;;
  ret ffmpegBinDir.

(** *** Orchestration *)

(** The local-cache probe of [main]: the existence test of
    [<ffmpegDir>/bin/ffmpeg.exe] and the path it yields. *)
Definition localCacheProbe : M (option path) :=
  called C_localCacheProbe ;;
  found <- fs_existsSync (join ffmpegDir [bin; ffmpeg_exe]) ;;
  if found then ret (Some (join ffmpegDir [bin; ffmpeg_exe])) else ret None.

(** The confirmation gate. *)
Definition awaitConfirmation : M unit :=
  called C_awaitConfirmation ;;
  log L_WouldYouLike ;;
  log L_PressEnter ;;
  if stdin_confirm env then ret tt else never_settles.

(** Lines 161 to 168: download, extraction, guidance. *)
Definition install : M unit :=
  downloadFfmpeg ;;
  ffmpegExePath <- extractFfmpeg ;;
  addToPath ffmpegExePath ;;
  log L_SetupComplete.

(** The [try] block of [main]. *)
Definition main_body : M unit :=
  isInstalled <- checkFfmpeg ;;
  if isInstalled then
    log L_NoNeed ;;
    log L_FullQuality
  else
    cached <- localCacheProbe ;;
    match cached with
    | Some ffmpegExePath =>
        log L_LocalFound ;;
        addToPath ffmpegExePath ;;
        ret tt
    | None =>
        awaitConfirmation ;;
        install
    end.

Definition main : M unit :=
  try_catch main_body
    (fun error =>
       log (L_ErrorSettingUp (message error)) ;;
       log L_StillUsable).

(** How the process ends: it has ended, with an exit code; a rejection was
    left unhandled; or it is alive and waits. *)
Inductive Status : Type :=
| Exit (code : nat)
| UnhandledRejection (e : Error)
| Waiting.

(** [main().catch(console.error).finally(...)], after the three lines the
    module prints when it loads. *)
Definition script (w : World) : Status * World :=
  match (log L_Title ;; log L_Rule ;; log L_Intro ;;
         try_catch main (fun e => log (L_Rejected e))) w with
  | (Halt, w') => (Waiting, w')
  | (Quit code, w') => (Exit code, w')
  | (settled, w') =>
      match (log L_PressAnyKey ;; called C_awaitExitKey ;;
             await_data (stdin_exit env)) w' with
      | (Halt, w'') => (Waiting, w'')
      | (Quit code, w'') => (Exit code, w'')
      | (_, w'') =>
          match settled with
          | Throw e => (UnhandledRejection e, w'')
          | _ => (Exit 0, w'')
          end
      end
  end.

End Script.

(* ------------------------------------------------------------------ *)
(** ** Vocabulary of the statements *)

(** Worlds along a run that starts in [w]. *)

(** After the three lines the module prints when it loads. *)
Definition loaded (w : World) : World :=
  mkWorld (files w) (console w ++ [L_Title; L_Rule; L_Intro]) (calls w).

(** When [main] starts the download: both probes were negative and the
    confirmation came. *)
Definition at_download (w : World) : World :=
  mkWorld (files w)
    (console w ++ [L_NotInPath; L_WouldYouLike; L_PressEnter])
    (calls w ++ [C_checkFfmpeg; C_localCacheProbe; C_awaitConfirmation]).

(** When [extractFfmpeg] enters its [try] block. *)
Definition entered (w : World) : World :=
  mkWorld (files w) (console w ++ [L_Extracting]) (calls w ++ [C_extractFfmpeg]).

(** The calls made between two worlds of a run, and the stages among them. *)
Definition calls_since (w w' : World) : list Call :=
  skipn (List.length (calls w)) (calls w').

Definition stages_since (w w' : World) : list Call :=
  filter is_stage (calls_since w w').

(** The lines printed between two worlds of a run, and how many of them
    are the warning. *)
Definition lines_since (w w' : World) : list Line :=
  skipn (List.length (console w)) (console w').

Definition warnings_since (w w' : World) : nat :=
  List.length (filter is_warning (lines_since w w')).

(** The lines the download and the extraction stages print. *)
Definition stage_line (l : Line) : bool :=
  match l with
  | L_Downloading | L_DownloadComplete
  | L_Extracting | L_ExtractionComplete | L_CleanedUp
  | L_ErrorExtracting _ => true
  | _ => false
  end.

(** The lines the [try] block of [main] prints: all but the three lines of
    the module, the two lines of the [catch] block, the line of
    [.catch(console.error)] and the exit prompt. *)
Definition body_line (l : Line) : bool :=
  match l with
  | L_Title | L_Rule | L_Intro
  | L_ErrorSettingUp _ | L_StillUsable | L_Rejected _ | L_PressAnyKey => false
  | _ => true
  end.

(** The lines of the path guidance for an executable. *)
Definition guidance_lines (exe : path) : list Line :=
  [L_InstalledAt exe; L_ToUse; L_BinDir (dirname exe); L_YouCanDo;
   L_Setx (dirname exe)].

(** The path the local-cache probe tests. *)
Definition cachedExePath : path := join ffmpegDir [bin; ffmpeg_exe].

(** The write stream of the archive emits ['error']: the file cannot be
    opened, because a directory bears its name, or a write fails while the
    body of a response of status 200 arrives. *)
Definition write_stream_fails (env : Env) (fs : dir) : Prop :=
  (exists sub, lookup (Dir fs) downloadPath = Some (Dir sub)) \/
  (exists written, https_get env = ResponseUnwritten 200 written).


(** The path [p] is what the search picks up while it lists the directory
    [v]: the entry [ffmpeg.exe] of [v], not a directory, or the path
    [v/bin/ffmpeg.exe] that exists below the directory [v/bin]. *)
Definition found_at (fs : dir) (v p : path) : Prop :=
  exists es, lookup (Dir fs) v = Some (Dir es) /\
    ((p = join v [ffmpeg_exe] /\ In ffmpeg_exe (map fst es) /\
      exists data, lookup (Dir fs) p = Some (File data))
     \/
     (p = join (join v [bin]) [ffmpeg_exe] /\
      (exists sub, lookup (Dir fs) (join v [bin]) = Some (Dir sub)) /\
      existsSync fs p = true)).

(* ------------------------------------------------------------------ *)
(** ** Scenarios *)

Module Scenario.

(** The layout of the archive the script downloads: the executable is three
    levels below the install root. *)
Definition build : dir :=
  [("ffmpeg-master-latest-win64-gpl",
    Dir [("LICENSE.txt", File "GPL");
         ("bin", Dir [("ffmpeg.exe", File "MZ"); ("ffprobe.exe", File "MZ")]);
         ("doc", Dir [("ffmpeg.html", File "")])])].

(** A tree where the executable is not in a directory named [bin]. *)
Definition plain : dir :=
  [("notes.txt", File "");
   ("tools", Dir [("win64", Dir [("ffmpeg.exe", File "MZ")])])].

(** A tree without the executable. *)
Definition docs_only : dir :=
  [("doc", Dir [("ffmpeg.html", File "")]); ("LICENSE.txt", File "GPL")].

(** A tree where a directory bears the name of the executable. *)
Definition odd : dir := [("bin", Dir [("ffmpeg.exe", Dir [])])].

(** A tree where a directory [bin] holds a directory that bears the name of
    the executable, and the executable is elsewhere. *)
Definition decoy : dir :=
  [("bin", Dir [("ffmpeg.exe", Dir [])]);
   ("tools", Dir [("win64", Dir [("ffmpeg.exe", File "MZ")])])].

(** A tree whose only entry that bears the name of the executable is a
    directory, and not in a directory [bin]. *)
Definition folder : dir :=
  [("tools", Dir [("win64", Dir [("ffmpeg.exe", Dir [])])])].

(** A tree where a file bears the name of the top directory of the
    archive. *)
Definition clash : dir := [("ffmpeg-master-latest-win64-gpl", File "")].

(** The directory of the script before the first run. *)
Definition fresh : dir := [("setup-ffmpeg.js", File "// FFmpeg Setup Script")].

(** The directory of the script when a directory bears the name of the
    archive. *)
Definition blocked : dir := fresh ++ [("ffmpeg-download.zip", Dir [])].

(** The directory of the script with an executable where the local-cache
    probe looks. *)
Definition installed : dir := fresh ++ [("ffmpeg", Dir [("bin", Dir [("ffmpeg.exe", File "MZ")])])].

Definition extracted (tree : dir) : dir := fresh ++ [("ffmpeg", Dir tree)].

Definition start (fs : dir) : World := mkWorld fs [] [].

(** The world when the archive has just been downloaded. *)
Definition downloaded : World :=
  start (fresh ++ [("ffmpeg-download.zip", File "PK")]).

(** No FFmpeg on the PATH, the network and the disk work, the user presses
    a key at both prompts. *)
Definition online : Env :=
  mkEnv SpawnFailed (Response 200 "PK") (fun _ => Unzipped build)
    None None None true true false.

(** FFmpeg answers [ffmpeg -version]. *)
Definition on_path : Env :=
  mkEnv (Exited 0) (Response 200 "PK") (fun _ => Unzipped build)
    None None None true true false.

(** The server answers 404. *)
Definition missing : Env :=
  mkEnv (Exited 1) (Response 404 "Not Found") (fun _ => Unzipped build)
    None None None true true false.

(** The request fails. *)
Definition offline : Env :=
  mkEnv (Exited 1) (RequestError (mkError "getaddrinfo ENOTFOUND github.com"))
    (fun _ => Unzipped build) None None None true true false.

(** The archive cannot be deleted after the extraction. *)
Definition locked : Env :=
  mkEnv (Exited 1) (Response 200 "PK") (fun _ => Unzipped build)
    None (Some (mkError "EPERM: operation not permitted, unlink")) None
    true true false.

(** The archive cannot be decoded. *)
Definition corrupt : Env :=
  mkEnv (Exited 1) (Response 200 "PK")
    (fun _ => UnzipError (mkError "End of central directory not found"))
    None None None true true false.

(** The request fails and the file it left cannot be deleted. *)
Definition offline_locked : Env :=
  mkEnv (Exited 1) (RequestError (mkError "getaddrinfo ENOTFOUND github.com"))
    (fun _ => Unzipped build) None None
    (Some (mkError "EBUSY: resource busy or locked, unlink")) true true false.

(** The user never presses a key. *)
Definition unattended : Env :=
  mkEnv (Exited 1) (Response 200 "PK") (fun _ => Unzipped build)
    None None None false false false.

(** The archive holds no executable. *)
Definition incomplete : Env :=
  mkEnv (Exited 1) (Response 200 "PK") (fun _ => Unzipped docs_only)
    None None None true true false.

(** No terminal: stdin is at its end, no key comes. *)
Definition detached : Env :=
  mkEnv (Exited 1) (Response 200 "PK") (fun _ => Unzipped build)
    None None None false true true.

(** The connection is lost while the body arrives. *)
Definition cut : Env :=
  mkEnv (Exited 1) (ResponseCut 200 "P") (fun _ => Unzipped build)
    None None None true true false.

(** The disk is full while the body arrives. *)
Definition disk_full : Env :=
  mkEnv (Exited 1) (ResponseUnwritten 200 "P") (fun _ => Unzipped build)
    None None None true true false.

End Scenario.

(* ------------------------------------------------------------------ *)
(** ** Tactics *)

(** Reduce the projections of a world that is known. *)
Ltac red_world := cbv beta iota; cbn [files console calls fst snd].

(** Unfold the script down to the oracles of the environment and the
    operations of the file system. *)
Ltac run :=
  cbv beta iota delta
    [bind ret throw halt quit unhandled_error_event try_catch log called
     get_files set_files of_completion
     await_data never_settles fs_existsSync fs_mkdirSync fs_unlinkSync fs_unlink
     fs_createWriteStream pipe decompress
     checkFfmpeg downloadFfmpeg find_exe prepare_and_extract clean_up locate
     extractFfmpeg addToPath localCacheProbe awaitConfirmation install
     main_body main script loaded at_download entered];
  red_world.

(** Split on the innermost thing a run still depends on. *)
Ltac case_step :=
  match goal with
  | |- context [match ?x with _ => _ end] =>
      lazymatch x with
      | context [match _ with _ => _ end] => fail
      | _ => destruct x eqn:?
      end
  end.

(** Follow every path of a run. *)
Ltac crunch := red_world; repeat (case_step; red_world).

(** Close a path of a run: what it added to the calls and to the console. *)
Ltac frame_done :=
  intros [= <- <-]; red_world;
  eexists _, _; rewrite <- ?app_assoc;
  split; [reflexivity |]; split; [reflexivity |];
  split; [reflexivity |]; reflexivity.

(** Substitute what the case analysis has learnt about the directory. *)
Ltac tidy :=
  repeat match goal with
    | H : ?x = _ |- _ => is_var x; subst x
    | H : _ = ?x |- _ => is_var x; subst x
    | H : Some _ = Some _ |- _ => injection H as H
    | H : assoc ?k ?fs = _, H' : context [assoc ?k ?fs] |- _ =>
        rewrite H in H'
    | H : assoc ?k ?fs = _ |- context [assoc ?k ?fs] => rewrite H
    end.

(** Case analysis on the paths of a concrete tree. *)
Ltac walk H :=
  cbv delta [Scenario.build Scenario.plain Scenario.docs_only Scenario.odd
             Scenario.decoy Scenario.folder] in H;
  repeat match type of H with
    | lookup _ ?q = _ => is_var q; destruct q; cbn [lookup assoc] in H
    | context [String.eqb ?k ?c] =>
        destruct (String.eqb_spec k c); [subst |]; cbn [lookup assoc] in H
    | context [match ?q with [] => _ | _ :: _ => _ end] =>
        is_var q; destruct q; cbn [lookup assoc] in H
    end.

(* ================================================================== *)
(** * Properties *)

(** ** Paths and the file system *)

Lemma basename_join_one (p : path) (s : string) : basename (join p [s]) = s.
Proof. unfold basename, join. apply last_last. Qed.

Lemma basename_join_two (p : path) (s t : string) :
  basename (join p [s; t]) = t.
Proof.
  unfold basename, join.
  change [s; t] with ([s] ++ [t]). rewrite app_assoc. apply last_last.
Qed.

Lemma basename_cons (c : string) (q : path) :
  q <> [] -> basename (c :: q) = basename q.
Proof. unfold basename. destruct q; [congruence | reflexivity]. Qed.

Lemma assoc_In_names (c : string) (es : dir) (n : node) :
  assoc c es = Some n -> In c (map fst es).
Proof.
  induction es as [| [k m] es IH]; simpl; [discriminate |].
  destruct (String.eqb_spec k c); auto.
Qed.

Lemma In_names_assoc (c : string) (es : dir) :
  In c (map fst es) -> exists n, assoc c es = Some n.
Proof.
  induction es as [| [k m] es IH]; simpl; [tauto |].
  intros [-> | H].
  - rewrite String.eqb_refl. eauto.
  - destruct (String.eqb k c); eauto.
Qed.

Lemma lookup_app (n : node) (p q : path) :
  lookup n (p ++ q) =
  match lookup n p with
  | Some m => lookup m q
  | None => None
  end.
Proof.
  revert n. induction p as [| c p IH]; intros n; simpl; [reflexivity |].
  destruct n as [data | es]; [reflexivity |].
  destruct (assoc c es); [apply IH | reflexivity].
Qed.

Lemma lookup_below (fs : dir) (d q : path) (n : node) :
  lookup (Dir fs) d = Some n -> lookup (Dir fs) (d ++ q) = lookup n q.
Proof. intros H. rewrite lookup_app, H. reflexivity. Qed.

Lemma lookup_child (fs : dir) (d : path) (es : dir) (item : string) :
  lookup (Dir fs) d = Some (Dir es) ->
  lookup (Dir fs) (join d [item]) = assoc item es.
Proof.
  intros H. unfold join. rewrite (lookup_below _ _ [item] _ H). simpl.
  destruct (assoc item es); reflexivity.
Qed.

Lemma lookup_file_nil (data : string) (q : path) (n : node) :
  lookup (File data) q = Some n -> q = [].
Proof. destruct q; simpl; [reflexivity | discriminate]. Qed.

Lemma height_assoc (c : string) (es : dir) (n : node) :
  assoc c es = Some n -> height n < height (Dir es).
Proof.
  induction es as [| [k m] es IH]; simpl; [discriminate |].
  destruct (String.eqb k c).
  - intros [= ->]. lia.
  - intros H. specialize (IH H). simpl in IH. lia.
Qed.

(** ** The executable search *)

Section SearchFacts.
Variable fs : dir.

(** The recorded traversal returns what the traversal returns. *)
Lemma search_items_log_result
    (recur : path -> option (completion (option path)))
    (recur_log : path -> option (list path * completion (option path)))
    (d : path) (items : list string) :
  (forall p, recur p = option_map snd (recur_log p)) ->
  search_items fs recur d items =
  option_map snd (search_items_log fs recur_log d items).
Proof.
  intros Hrec. induction items as [| item rest IH]; simpl; [reflexivity |].
  destruct (statSync fs (join d [item])) as [stats | e]; [| reflexivity].
  destruct (isDirectory stats).
  - destruct (String.eqb item bin && existsSync fs (join (join d [item]) [ffmpeg_exe]));
      [reflexivity |].
    rewrite Hrec.
    destruct (recur_log (join d [item])) as [[seen [[p |] | e]] |]; simpl;
      try reflexivity.
    rewrite IH.
    destruct (search_items_log fs recur_log d rest) as [[seen' r] |]; reflexivity.
  - destruct (String.eqb item ffmpeg_exe); [reflexivity | apply IH].
Qed.

Lemma findFfmpegExePath_log_result (fuel : nat) (d : path) :
  findFfmpegExePath fs fuel d =
  option_map snd (findFfmpegExePath_log fs fuel d).
Proof.
  revert d. induction fuel as [| fuel IH]; intros d; simpl; [reflexivity |].
  destruct (readdirSync fs d) as [items | e]; [| reflexivity].
  rewrite (search_items_log_result _ (findFfmpegExePath_log fs fuel) d items IH).
  destruct (search_items_log fs (findFfmpegExePath_log fs fuel) d items)
    as [[seen r] |]; reflexivity.
Qed.

Lemma readdirSync_dir (d : path) (es : dir) :
  lookup (Dir fs) d = Some (Dir es) ->
  readdirSync fs d = Normal (map fst es).
Proof. intros H. unfold readdirSync. rewrite H. reflexivity. Qed.

Lemma readdirSync_Normal (d : path) (items : list string) :
  readdirSync fs d = Normal items ->
  exists es, lookup (Dir fs) d = Some (Dir es) /\ items = map fst es.
Proof.
  unfold readdirSync.
  destruct (lookup (Dir fs) d) as [[data | es] |]; try discriminate.
  intros [= <-]. eauto.
Qed.

(** One turn of the loop over the items of the directory [d], by the kind
    of the entry the item designates. *)
Lemma search_items_log_file
    (recur : path -> option (list path * completion (option path)))
    (d : path) (es : dir) (item : string) (rest : list string) (data : string) :
  lookup (Dir fs) d = Some (Dir es) ->
  assoc item es = Some (File data) ->
  search_items_log fs recur d (item :: rest) =
  if String.eqb item ffmpeg_exe then Some ([], Normal (Some (join d [item])))
  else search_items_log fs recur d rest.
Proof.
  intros Hd Hi. simpl. unfold statSync.
  rewrite (lookup_child _ _ _ item Hd), Hi. reflexivity.
Qed.

Lemma search_items_log_dir
    (recur : path -> option (list path * completion (option path)))
    (d : path) (es : dir) (item : string) (rest : list string) (sub : dir) :
  lookup (Dir fs) d = Some (Dir es) ->
  assoc item es = Some (Dir sub) ->
  search_items_log fs recur d (item :: rest) =
  if String.eqb item bin &&
     match assoc ffmpeg_exe sub with Some _ => true | None => false end
  then Some ([], Normal (Some (join (join d [item]) [ffmpeg_exe])))
  else
    match recur (join d [item]) with
    | None => None
    | Some (seen, Thrown e) => Some (seen, Thrown e)
    | Some (seen, Normal (Some exePath)) => Some (seen, Normal (Some exePath))
    | Some (seen, Normal None) =>
        match search_items_log fs recur d rest with
        | Some (seen', r) => Some (seen ++ seen', r)
        | None => None
        end
    end.
Proof.
  intros Hd Hi. simpl. unfold statSync, existsSync.
  assert (Hc : lookup (Dir fs) (join d [item]) = Some (Dir sub))
    by (rewrite (lookup_child _ _ _ item Hd); exact Hi).
  rewrite Hc. simpl.
  rewrite (lookup_child _ _ _ ffmpeg_exe Hc). reflexivity.
Qed.

(** *** Termination: the search returns, and does not throw *)

Lemma search_items_log_returns
    (recur : path -> option (list path * completion (option path)))
    (d : path) (es : dir) (items : list string) :
  lookup (Dir fs) d = Some (Dir es) ->
  (forall item sub, assoc item es = Some (Dir sub) ->
     exists seen r, recur (join d [item]) = Some (seen, Normal r)) ->
  incl items (map fst es) ->
  exists seen r, search_items_log fs recur d items = Some (seen, Normal r).
Proof.
  intros Hd Hrec. induction items as [| item rest IH]; intros Hin.
  - simpl. eauto.
  - assert (Hrest : incl rest (map fst es))
      by (intros x Hx; apply Hin; right; exact Hx).
    destruct (In_names_assoc item es (Hin item (or_introl eq_refl)))
      as [[data | sub] Hi].
    + rewrite (search_items_log_file recur _ _ _ rest _ Hd Hi).
      destruct (String.eqb item ffmpeg_exe); eauto.
    + rewrite (search_items_log_dir recur _ _ _ rest _ Hd Hi).
      destruct (_ && _); [eauto |].
      destruct (Hrec item sub Hi) as (seen & [p |] & ->); [eauto |].
      destruct (IH Hrest) as (seen' & r & ->). eauto.
Qed.

Lemma findFfmpegExePath_log_returns (fuel : nat) (d : path) (es : dir) :
  lookup (Dir fs) d = Some (Dir es) ->
  height (Dir es) <= fuel ->
  exists seen r, findFfmpegExePath_log fs fuel d = Some (seen, Normal r).
Proof.
  revert d es. induction fuel as [| fuel IH]; intros d es Hd Hh.
  - simpl in Hh. lia.
  - simpl. rewrite (readdirSync_dir _ _ Hd).
    destruct (search_items_log_returns (findFfmpegExePath_log fs fuel) d es
                (map fst es) Hd) as (seen & r & ->).
    + intros item sub Hi. apply (IH _ sub).
      * rewrite (lookup_child _ _ _ item Hd). exact Hi.
      * pose proof (height_assoc _ _ _ Hi). lia.
    + apply incl_refl.
    + eauto.
Qed.
End SearchFacts.

Section SearchSound.
Variable fs : dir.

(** *** Soundness: what is returned was met in a listed directory *)

Lemma search_items_log_sound
    (recur : path -> option (list path * completion (option path)))
    (d : path) (es : dir) (items : list string) :
  lookup (Dir fs) d = Some (Dir es) ->
  (forall item seen p,
     recur (join d [item]) = Some (seen, Normal (Some p)) ->
     exists v q, In v seen /\ v = join d [item] ++ q /\ found_at fs v p) ->
  incl items (map fst es) ->
  forall seen p,
    search_items_log fs recur d items = Some (seen, Normal (Some p)) ->
    found_at fs d p \/ exists v q, In v seen /\ v = d ++ q /\ found_at fs v p.
Proof.
  intros Hd Hrec. induction items as [| item rest IH]; intros Hin seen p.
  - simpl. discriminate.
  - assert (Hrest : incl rest (map fst es))
      by (intros x Hx; apply Hin; right; exact Hx).
    destruct (In_names_assoc item es (Hin item (or_introl eq_refl)))
      as [[data | sub] Hi].
    + rewrite (search_items_log_file fs recur _ _ _ rest _ Hd Hi).
      destruct (String.eqb_spec item ffmpeg_exe) as [-> | Hne];
        [| apply (IH Hrest)].
      intros [= <- <-]. left. exists es. split; [exact Hd |]. left.
      split; [reflexivity |]. split; [exact (assoc_In_names _ _ _ Hi) |].
      exists data. rewrite (lookup_child _ _ _ ffmpeg_exe Hd). exact Hi.
    + rewrite (search_items_log_dir fs recur _ _ _ rest _ Hd Hi).
      destruct (String.eqb_spec item bin) as [-> | Hne]; simpl.
      * destruct (assoc ffmpeg_exe sub) as [n |] eqn:Hexe.
        -- intros [= <- <-]. left. exists es. split; [exact Hd |]. right.
           assert (Hb : lookup (Dir fs) (join d [bin]) = Some (Dir sub))
             by (rewrite (lookup_child _ _ _ bin Hd); exact Hi).
           split; [reflexivity |]. split; [eauto |].
           unfold existsSync.
           rewrite (lookup_child _ _ _ ffmpeg_exe Hb), Hexe. reflexivity.
        -- destruct (recur (join d [bin])) as [[seen0 [[p0 |] | e]] |] eqn:Hr;
             try discriminate.
           ++ intros [= <- <-]. right.
              destruct (Hrec _ _ _ Hr) as (v & q & Hv & -> & Hf).
              exists (join d [bin] ++ q), ([bin] ++ q).
              split; [exact Hv |]. split; [| exact Hf].
              unfold join. rewrite <- app_assoc. reflexivity.
           ++ destruct (search_items_log fs recur d rest) as [[seen' r] |] eqn:Hs;
                [| discriminate].
              intros [= <- ->].
              destruct (IH Hrest _ _ eq_refl) as [Hl | (v & q & Hv & Hq & Hf)];
                [left; exact Hl |].
              right. exists v, q. split; [| auto].
              apply in_or_app. right. exact Hv.
      * destruct (recur (join d [item])) as [[seen0 [[p0 |] | e]] |] eqn:Hr;
          try discriminate.
        -- intros [= <- <-]. right.
           destruct (Hrec _ _ _ Hr) as (v & q & Hv & -> & Hf).
           exists (join d [item] ++ q), ([item] ++ q).
           split; [exact Hv |]. split; [| exact Hf].
           unfold join. rewrite <- app_assoc. reflexivity.
        -- destruct (search_items_log fs recur d rest) as [[seen' r] |] eqn:Hs;
             [| discriminate].
           intros [= <- ->].
           destruct (IH Hrest _ _ eq_refl) as [Hl | (v & q & Hv & Hq & Hf)];
             [left; exact Hl |].
           right. exists v, q. split; [| auto].
           apply in_or_app. right. exact Hv.
Qed.

Lemma findFfmpegExePath_log_sound (fuel : nat) (d : path)
    (seen : list path) (p : path) :
  findFfmpegExePath_log fs fuel d = Some (seen, Normal (Some p)) ->
  exists v q, In v seen /\ v = d ++ q /\ found_at fs v p.
Proof.
  revert d seen p. induction fuel as [| fuel IH]; intros d seen p; simpl;
    [discriminate |].
  destruct (readdirSync fs d) as [items | e] eqn:Hread; [| discriminate].
  destruct (readdirSync_Normal fs _ _ Hread) as (es & Hd & ->).
  destruct (search_items_log fs (findFfmpegExePath_log fs fuel) d (map fst es))
    as [[seen0 r] |] eqn:Hs; [| discriminate].
  intros [= <- ->].
  destruct (search_items_log_sound (findFfmpegExePath_log fs fuel) d es
              (map fst es) Hd) with (seen := seen0) (p := p)
    as [Hl | (v & q & Hv & Hq & Hf)].
  - intros item seen p0 Hr. exact (IH _ _ _ Hr).
  - apply incl_refl.
  - exact Hs.
  - exists d, []. split; [left; reflexivity |]. split; [| exact Hl].
    symmetry. apply app_nil_r.
  - exists v, q. split; [right; exact Hv | auto].
Qed.
End SearchSound.

Section SearchExhaustive.
Variable fs : dir.

(** *** Exhaustiveness: a search that finds nothing has looked everywhere *)

Lemma search_items_log_none
    (recur : path -> option (list path * completion (option path)))
    (d : path) (es : dir) (items : list string) :
  lookup (Dir fs) d = Some (Dir es) ->
  incl items (map fst es) ->
  forall seen,
    search_items_log fs recur d items = Some (seen, Normal None) ->
    forall item n, In item items -> assoc item es = Some n ->
      match n with
      | File _ => item <> ffmpeg_exe
      | Dir _ =>
          exists seen_i,
            recur (join d [item]) = Some (seen_i, Normal None) /\
            incl seen_i seen
      end.
Proof.
  intros Hd. induction items as [| item rest IH]; intros Hin seen Hs i n Hi Ha.
  - destruct Hi.
  - assert (Hrest : incl rest (map fst es))
      by (intros x Hx; apply Hin; right; exact Hx).
    destruct (In_names_assoc item es (Hin item (or_introl eq_refl)))
      as [[data | sub] Hitem].
    + rewrite (search_items_log_file fs recur _ _ _ rest _ Hd Hitem) in Hs.
      destruct (String.eqb_spec item ffmpeg_exe) as [He | Hne];
        [discriminate |].
      destruct Hi as [<- | Hi]; [| exact (IH Hrest _ Hs _ _ Hi Ha)].
      rewrite Hitem in Ha. injection Ha as <-. exact Hne.
    + rewrite (search_items_log_dir fs recur _ _ _ rest _ Hd Hitem) in Hs.
      destruct (_ && _); [discriminate |].
      destruct (recur (join d [item])) as [[seen0 [[p0 |] | e]] |] eqn:Hr;
        try discriminate.
      destruct (search_items_log fs recur d rest) as [[seen' r] |] eqn:Hs';
        [| discriminate].
      injection Hs as <- ->.
      destruct Hi as [<- | Hi].
      * rewrite Hitem in Ha. injection Ha as <-.
        exists seen0. split; [exact Hr | apply incl_appl, incl_refl].
      * specialize (IH Hrest _ eq_refl _ _ Hi Ha).
        destruct n as [data | sub']; [exact IH |].
        destruct IH as (seen_i & Hri & Hincl).
        exists seen_i. split; [exact Hri | apply incl_appr, Hincl].
Qed.

Lemma findFfmpegExePath_log_none (fuel : nat) (d : path) (es : dir)
    (seen : list path) :
  lookup (Dir fs) d = Some (Dir es) ->
  findFfmpegExePath_log fs fuel d = Some (seen, Normal None) ->
  (forall q sub, lookup (Dir es) q = Some (Dir sub) -> In (d ++ q) seen) /\
  (forall q data, lookup (Dir es) q = Some (File data) ->
     basename q <> ffmpeg_exe).
Proof.
  revert d es seen. induction fuel as [| fuel IH]; intros d es seen Hd; simpl;
    [discriminate |].
  rewrite (readdirSync_dir fs _ _ Hd).
  destruct (search_items_log fs (findFfmpegExePath_log fs fuel) d (map fst es))
    as [[seen0 r] |] eqn:Hs; [| discriminate].
  intros [= <- ->].
  pose proof (search_items_log_none (findFfmpegExePath_log fs fuel) d es
                (map fst es) Hd (incl_refl _) seen0 Hs) as Hitems.
  split.
  - intros [| c q] sub; simpl.
    + intros _. left. symmetry. apply app_nil_r.
    + destruct (assoc c es) as [n |] eqn:Hc; [| discriminate].
      intros Hq. right.
      destruct n as [data | subc].
      * rewrite (lookup_file_nil _ _ _ Hq) in Hq. discriminate.
      * destruct (Hitems c _ (assoc_In_names _ _ _ Hc) Hc)
          as (seen_c & Hr & Hincl).
        assert (Hdc : lookup (Dir fs) (join d [c]) = Some (Dir subc))
          by (rewrite (lookup_child _ _ _ c Hd); exact Hc).
        destruct (IH _ _ _ Hdc Hr) as [Hall _].
        apply Hincl. specialize (Hall q sub Hq).
        unfold join in Hall. rewrite <- app_assoc in Hall. exact Hall.
  - intros [| c q] data; simpl; [discriminate |].
    destruct (assoc c es) as [n |] eqn:Hc; [| discriminate].
    intros Hq.
    pose proof (Hitems c _ (assoc_In_names _ _ _ Hc) Hc) as Hn.
    destruct n as [data0 | subc].
    + rewrite (lookup_file_nil _ _ _ Hq). exact Hn.
    + destruct Hn as (seen_c & Hr & Hincl).
      assert (Hdc : lookup (Dir fs) (join d [c]) = Some (Dir subc))
        by (rewrite (lookup_child _ _ _ c Hd); exact Hc).
      destruct (IH _ _ _ Hdc Hr) as [_ Hnone].
      assert (Hne : q <> []) by (intros ->; discriminate).
      rewrite (basename_cons c q Hne). exact (Hnone _ _ Hq).
Qed.

(** *** More fuel changes nothing *)


End SearchExhaustive.

(** *** The result depends on the listed tree below the directory only *)

Lemma search_items_local (fs fs' : dir)
    (recur recur' : path -> option (completion (option path)))
    (d : path) (items : list string) :
  lookup (Dir fs) d = lookup (Dir fs') d ->
  (forall item, recur (join d [item]) = recur' (join d [item])) ->
  search_items fs recur d items = search_items fs' recur' d items.
Proof.
  intros Hd Hrec.
  assert (Hq : forall q, lookup (Dir fs) (d ++ q) = lookup (Dir fs') (d ++ q))
    by (intros q; rewrite !lookup_app, Hd; reflexivity).
  induction items as [| item rest IH]; simpl; [reflexivity |].
  unfold statSync, existsSync, join. rewrite <- !app_assoc, !Hq.
  destruct (lookup (Dir fs') (d ++ [item])) as [n |]; [| reflexivity].
  destruct (isDirectory (stats_of n)).
  - destruct (_ && _); [reflexivity |].
    fold (join d [item]). rewrite Hrec.
    destruct (recur' (join d [item])) as [[[p |] | e] |]; auto.
  - destruct (String.eqb item ffmpeg_exe); auto.
Qed.

Lemma findFfmpegExePath_local (fs fs' : dir) (fuel : nat) (d : path) :
  lookup (Dir fs) d = lookup (Dir fs') d ->
  findFfmpegExePath fs fuel d = findFfmpegExePath fs' fuel d.
Proof.
  revert d. induction fuel as [| fuel IH]; intros d Hd; simpl; [reflexivity |].
  unfold readdirSync. rewrite <- Hd.
  destruct (lookup (Dir fs) d) as [[data | es] |] eqn:Hl; try reflexivity.
  rewrite <- Hl in Hd.
  apply search_items_local; [exact Hd |].
  intros item. apply IH. unfold join. rewrite !lookup_app, Hd. reflexivity.
Qed.

(** *** The search, as the stages use it *)

Lemma search_fuel_dir (fs : dir) (d : path) (es : dir) :
  lookup (Dir fs) d = Some (Dir es) -> search_fuel fs d = S (height (Dir es)).
Proof. intros H. unfold search_fuel. rewrite H. reflexivity. Qed.

Lemma findFfmpegExePath_log_Some (fs : dir) (fuel : nat) (d : path)
    (r : completion (option path)) :
  findFfmpegExePath fs fuel d = Some r ->
  exists seen, findFfmpegExePath_log fs fuel d = Some (seen, r).
Proof.
  rewrite findFfmpegExePath_log_result.
  destruct (findFfmpegExePath_log fs fuel d) as [[seen r'] |]; simpl;
    [| discriminate].
  intros [= ->]. eauto.
Qed.

Lemma findFfmpegExePath_returns (fs : dir) (d : path) (es : dir) :
  lookup (Dir fs) d = Some (Dir es) ->
  exists seen r,
    findFfmpegExePath_log fs (search_fuel fs d) d = Some (seen, Normal r) /\
    findFfmpegExePath fs (search_fuel fs d) d = Some (Normal r).
Proof.
  intros Hd. rewrite (search_fuel_dir _ _ _ Hd).
  destruct (findFfmpegExePath_log_returns fs (S (height (Dir es))) d es Hd)
    as (seen & r & Hlog); [lia |].
  exists seen, r. split; [exact Hlog |].
  rewrite findFfmpegExePath_log_result, Hlog. reflexivity.
Qed.

(** A found path names a regular file of the tree, or a directory that is
    an entry of a directory [bin]. *)
Lemma found_at_kind (fs : dir) (d q p : path) (es : dir) :
  lookup (Dir fs) d = Some (Dir es) ->
  found_at fs (d ++ q) p ->
  exists q',
    p = d ++ q' /\ basename q' = ffmpeg_exe /\
    ((exists data, lookup (Dir es) q' = Some (File data)) \/
     (exists sub, q' = q ++ [bin; ffmpeg_exe] /\
                  lookup (Dir es) q' = Some (Dir sub))).
Proof.
  intros Hd (es_v & Hv & [(-> & _ & data & Hf) | (-> & _ & Hex)]).
  - exists (q ++ [ffmpeg_exe]). unfold join in *.
    rewrite <- app_assoc in *. rewrite (lookup_below _ _ _ _ Hd) in Hf.
    split; [reflexivity |]. split; [apply (basename_join_one q) |].
    left. eauto.
  - exists (q ++ [bin; ffmpeg_exe]). unfold existsSync, join in *.
    rewrite <- !app_assoc in *. simpl in *.
    rewrite (lookup_below _ _ _ _ Hd) in Hex.
    split; [reflexivity |]. split; [apply (basename_join_two q) |].
    destruct (lookup (Dir es) (q ++ [bin; ffmpeg_exe])) as [[data | sub] |];
      [left; eauto | right; eauto | discriminate].
Qed.

(** If one regular file only bears the name of the executable, and no
    directory [bin] holds a directory of that name, the search returns the
    path of the file. *)
Lemma findFfmpegExePath_unique_file (fs : dir) (d : path) (es : dir)
    (p : path) (data : string) :
  lookup (Dir fs) d = Some (Dir es) ->
  lookup (Dir es) p = Some (File data) ->
  basename p = ffmpeg_exe ->
  (forall q data', lookup (Dir es) q = Some (File data') ->
     basename q = ffmpeg_exe -> q = p) ->
  (forall q sub, lookup (Dir es) (q ++ [bin; ffmpeg_exe]) <> Some (Dir sub)) ->
  findFfmpegExePath fs (search_fuel fs d) d = Some (Normal (Some (d ++ p))).
Proof.
  intros Hd Hp Hbase Huniq Hbin.
  destruct (findFfmpegExePath_returns fs d es Hd) as (seen & r & Hlog & ->).
  destruct r as [p' |].
  - destruct (findFfmpegExePath_log_sound _ _ _ _ _ Hlog)
      as (v & q & _ & -> & Hf).
    destruct (found_at_kind _ _ _ _ _ Hd Hf)
      as (q' & -> & Hb & [(data' & Hq') | (sub & -> & Hq')]).
    + rewrite (Huniq _ _ Hq' Hb). reflexivity.
    + destruct (Hbin _ _ Hq').
  - destruct (findFfmpegExePath_log_none _ _ _ _ _ Hd Hlog) as [_ Hnone].
    destruct (Hnone _ _ Hp Hbase).
Qed.

(** If no regular file bears the name of the executable, and no directory
    [bin] holds a directory of that name, the search returns "not found". *)
Lemma findFfmpegExePath_no_file (fs : dir) (d : path) (es : dir) :
  lookup (Dir fs) d = Some (Dir es) ->
  (forall q data, lookup (Dir es) q = Some (File data) ->
     basename q <> ffmpeg_exe) ->
  (forall q sub, lookup (Dir es) (q ++ [bin; ffmpeg_exe]) <> Some (Dir sub)) ->
  findFfmpegExePath fs (search_fuel fs d) d = Some (Normal None).
Proof.
  intros Hd Hnone Hbin.
  destruct (findFfmpegExePath_returns fs d es Hd) as (seen & r & Hlog & ->).
  destruct r as [p' |]; [| reflexivity].
  destruct (findFfmpegExePath_log_sound _ _ _ _ _ Hlog)
    as (v & q & _ & -> & Hf).
  destruct (found_at_kind _ _ _ _ _ Hd Hf)
    as (q' & -> & Hb & [(data' & Hq') | (sub & -> & Hq')]).
  - destruct (Hnone _ _ Hq' Hb).
  - destruct (Hbin _ _ Hq').
Qed.

(** ** Updates of the file system *)

Lemma assoc_set_entry_same (c : string) (n : node) (es : dir) :
  assoc c (set_entry c n es) = Some n.
Proof.
  induction es as [| [k m] es IH]; simpl.
  - rewrite String.eqb_refl. reflexivity.
  - destruct (String.eqb k c) eqn:E; simpl; rewrite E; [reflexivity | exact IH].
Qed.

Lemma assoc_set_entry_other (c k : string) (n : node) (es : dir) :
  k <> c -> assoc k (set_entry c n es) = assoc k es.
Proof.
  intros Hne. induction es as [| [k' m] es IH]; simpl.
  - destruct (String.eqb_spec c k); [congruence | reflexivity].
  - destruct (String.eqb_spec k' c) as [-> | Hc]; simpl.
    + destruct (String.eqb_spec c k); [congruence | reflexivity].
    + rewrite IH. reflexivity.
Qed.

Lemma assoc_remove_entry_same (c : string) (es : dir) :
  assoc c (remove_entry c es) = None.
Proof.
  induction es as [| [k m] es IH]; simpl; [reflexivity |].
  destruct (String.eqb k c) eqn:E; simpl; [exact IH |].
  rewrite E. exact IH.
Qed.

Lemma assoc_remove_entry_other (c k : string) (es : dir) :
  k <> c -> assoc k (remove_entry c es) = assoc k es.
Proof.
  intros Hne. induction es as [| [k' m] es IH]; simpl; [reflexivity |].
  destruct (String.eqb_spec k' c) as [-> | Hc]; simpl.
  - destruct (String.eqb_spec c k); [congruence | exact IH].
  - rewrite IH. reflexivity.
Qed.

Lemma lookup_cons (es : dir) (c : string) (q : path) :
  lookup (Dir es) (c :: q) =
  match assoc c es with
  | Some n => lookup n q
  | None => None
  end.
Proof. reflexivity. Qed.

(** ** The download stage *)

(** The destination can be written unless a directory bears its name. *)
Lemma write_downloadPath (data : string) (fs : dir) :
  (forall sub, lookup (Dir fs) downloadPath <> Some (Dir sub)) ->
  write downloadPath data fs =
  Some (set_entry "ffmpeg-download.zip" (File data) fs).
Proof.
  intros H. unfold downloadPath, __dirname, join in *. simpl in *.
  destruct (assoc "ffmpeg-download.zip" fs) as [[d | sub] |]; try reflexivity.
  destruct (H sub). reflexivity.
Qed.

Lemma lookup_set_entry_same (c : string) (n : node) (es : dir) :
  lookup (Dir (set_entry c n es)) [c] = Some n.
Proof. simpl. rewrite assoc_set_entry_same. reflexivity. Qed.

Lemma lookup_downloadPath (fs : dir) :
  lookup (Dir fs) downloadPath = assoc "ffmpeg-download.zip" fs.
Proof.
  unfold downloadPath, __dirname, join. simpl.
  destruct (assoc "ffmpeg-download.zip" fs); reflexivity.
Qed.

Lemma write_downloadPath_inv (data : string) (fs fs' : dir) :
  write downloadPath data fs = Some fs' ->
  fs' = set_entry "ffmpeg-download.zip" (File data) fs.
Proof.
  unfold downloadPath, __dirname, join. simpl.
  destruct (assoc "ffmpeg-download.zip" fs) as [[d | sub] |]; congruence.
Qed.


Lemma write_downloadPath_Dir (data : string) (fs sub : dir) :
  lookup (Dir fs) downloadPath = Some (Dir sub) ->
  write downloadPath data fs = None.
Proof.
  rewrite lookup_downloadPath. unfold downloadPath, __dirname, join. simpl.
  intros ->. reflexivity.
Qed.

(** When the write stream emits ['error'], the process dies in the download. *)
Lemma downloadFfmpeg_dies (env : Env) (w : World) :
  write_stream_fails env (files w) ->
  exists fs',
    downloadFfmpeg env w =
    (Quit 1,
     mkWorld fs' (console w ++ [L_Downloading]) (calls w ++ [C_downloadFfmpeg])).
Proof.
  destruct w as [fs out cs]. cbn [files]. intros Hfail. run.
  destruct (write downloadPath "" fs) as [fs1 |] eqn:Hw; red_world.
  - destruct Hfail as [(sub & Hdir) | (written & Hget)].
    + rewrite (write_downloadPath_Dir "" fs sub Hdir) in Hw. discriminate.
    + rewrite Hget. cbn [Nat.eqb negb]. red_world.
      apply write_downloadPath_inv in Hw. subst fs1.
      rewrite (write_downloadPath written).
      * red_world. eexists. reflexivity.
      * intros sub. rewrite lookup_downloadPath, assoc_set_entry_same.
        discriminate.
  - eexists. reflexivity.
Qed.



(** A status other than 200: the error names the status, the file stays. *)
Lemma downloadFfmpeg_non200 (env : Env) (w : World) (status : nat) (body : string) :
  https_get env = Response status body ->
  status <> 200 ->
  (forall sub, lookup (Dir (files w)) downloadPath <> Some (Dir sub)) ->
  exists w',
    downloadFfmpeg env w =
      (Throw (mkError ("Failed to download FFmpeg: " ++ show_number status)), w') /\
    lookup (Dir (files w')) downloadPath = Some (File "") /\
    calls w' = calls w ++ [C_downloadFfmpeg] /\
    console w' = console w ++ [L_Downloading].
Proof.
  intros Hget Hs Hw. destruct w as [fs out cs]. run. cbn [files] in Hw.
  rewrite (write_downloadPath "" fs Hw), Hget. red_world.
  destruct (Nat.eqb_spec status 200) as [-> | _]; [congruence |]. red_world.
  eexists. split; [reflexivity |]. red_world.
  split; [apply lookup_set_entry_same | split; reflexivity].
Qed.

Lemma unlink_downloadPath (fs : dir) (data : string) :
  lookup (Dir fs) downloadPath = Some (File data) ->
  unlink downloadPath fs = Some (remove_entry "ffmpeg-download.zip" fs).
Proof.
  unfold downloadPath, __dirname, join. simpl.
  destruct (assoc "ffmpeg-download.zip" fs) as [[d | sub] |]; try discriminate.
  reflexivity.
Qed.

Lemma lookup_remove_downloadPath (fs : dir) :
  lookup (Dir (remove_entry "ffmpeg-download.zip" fs)) downloadPath = None.
Proof.
  unfold downloadPath, __dirname, join. simpl.
  rewrite assoc_remove_entry_same. reflexivity.
Qed.

(** An ['error'] event of the request: the file is unlinked, a failure of
    the unlinking is ignored, and the error is thrown. *)
Lemma downloadFfmpeg_request_error (env : Env) (w : World) (err : Error) :
  https_get env = RequestError err ->
  (forall sub, lookup (Dir (files w)) downloadPath <> Some (Dir sub)) ->
  exists w',
    downloadFfmpeg env w = (Throw err, w') /\
    calls w' = calls w ++ [C_downloadFfmpeg; C_unlink downloadPath] /\
    console w' = console w ++ [L_Downloading] /\
    (unlink_refused env = None -> existsSync (files w') downloadPath = false).
Proof.
  intros Hget Hw. destruct w as [fs out cs]. run. cbn [files] in Hw.
  rewrite (write_downloadPath "" fs Hw), Hget. red_world.
  destruct (unlink_refused env) as [e |]; red_world.
  - eexists. split; [reflexivity |]. red_world.
    rewrite <- app_assoc. repeat split. discriminate.
  - rewrite (unlink_downloadPath _ "" (lookup_set_entry_same _ _ _)). red_world.
    eexists. split; [reflexivity |]. red_world.
    rewrite <- app_assoc. repeat split. intros _.
    unfold existsSync. rewrite lookup_remove_downloadPath. reflexivity.
Qed.

(** Whatever happens, a stage records its own call, no call of another
    stage, and prints no warning. *)
Lemma downloadFfmpeg_frame (env : Env) (w : World) (r : outcome unit) (w' : World) :
  downloadFfmpeg env w = (r, w') ->
  exists cs ls,
    calls w' = calls w ++ C_downloadFfmpeg :: cs /\ filter is_stage cs = [] /\
    console w' = console w ++ ls /\ filter is_warning ls = [].
Proof.
  destruct w as [fs out cs0]. run. crunch; frame_done.
Qed.

Lemma extractFfmpeg_frame (env : Env) (w : World) (r : outcome path) (w' : World) :
  extractFfmpeg env w = (r, w') ->
  exists cs ls,
    calls w' = calls w ++ C_extractFfmpeg :: cs /\ filter is_stage cs = [] /\
    console w' = console w ++ ls /\ filter is_warning ls = [].
Proof.
  destruct w as [fs out cs0]. run. crunch; frame_done.
Qed.

(** ** The extraction stage *)

Lemma lookup_ffmpegDir (fs : dir) :
  lookup (Dir fs) ffmpegDir = assoc "ffmpeg" fs.
Proof.
  unfold ffmpegDir, __dirname, join. simpl.
  destruct (assoc "ffmpeg" fs); reflexivity.
Qed.

Lemma mkdir_p_ffmpegDir (fs : dir) :
  mkdir_p ffmpegDir fs =
  match assoc "ffmpeg" fs with
  | Some (Dir sub) => Some (set_entry "ffmpeg" (Dir sub) fs)
  | Some (File _) => None
  | None => Some (set_entry "ffmpeg" (Dir []) fs)
  end.
Proof.
  unfold ffmpegDir, __dirname, join. simpl.
  destruct (assoc "ffmpeg" fs) as [[data | sub] |]; reflexivity.
Qed.

Lemma place_ffmpegDir (n : node) (fs : dir) :
  place ffmpegDir n fs = Some (set_entry "ffmpeg" n fs).
Proof. reflexivity. Qed.

Lemma zip_is_not_root : "ffmpeg-download.zip" <> "ffmpeg".
Proof. discriminate. Qed.

Lemma root_is_not_zip : "ffmpeg" <> "ffmpeg-download.zip".
Proof. discriminate. Qed.

(** What an archive leaves where it is laid down is a directory. *)
Lemma overlay_Dir (here : path) (tree : dir) (old : option node) (m : node) :
  overlay here (Dir tree) old = Normal m -> exists es, m = Dir es.
Proof.
  cbn [overlay].
  destruct old as [[data | os] |]; [discriminate | |].
  all: match goal with
       | |- match ?g with Normal _ => _ | Thrown _ => _ end = _ -> _ =>
           destruct g as [es | e]
       end; [intros [= <-]; eauto | discriminate].
Qed.

(** What a successful extraction leaves: the archive, still, and the
    install root as a directory. *)
Lemma prepare_and_extract_done (env : Env) (w wx : World) :
  prepare_and_extract env w = (Return tt, wx) ->
  (exists data, lookup (Dir (files wx)) downloadPath = Some (File data)) /\
  (exists es, lookup (Dir (files wx)) ffmpegDir = Some (Dir es)) /\
  calls wx = calls w /\
  console wx = console w ++ [L_ExtractionComplete].
Proof.
  destruct w as [fs out cs]. run.
  unfold existsSync.
  rewrite ?mkdir_p_ffmpegDir, ?place_ffmpegDir, ?lookup_ffmpegDir, ?lookup_downloadPath.
  crunch; try discriminate; intros [= <-]; red_world.
  all: rewrite ?mkdir_p_ffmpegDir, ?place_ffmpegDir, ?lookup_ffmpegDir,
         ?lookup_downloadPath in *.
  all: tidy; repeat split.
  all: rewrite ?(assoc_set_entry_other _ _ _ _ zip_is_not_root),
         ?assoc_set_entry_same in *; tidy; eauto.
  all: match goal with
       | H : overlay _ (Dir _) _ = Normal ?m |- _ =>
           destruct (overlay_Dir _ _ _ _ H) as [es ->]; eauto
       end.
Qed.

(** The stage from the point where the extraction has succeeded. *)
Lemma extractFfmpeg_after_extraction (env : Env) (w wx : World) :
  prepare_and_extract env (entered w) = (Return tt, wx) ->
  extractFfmpeg env w =
  try_catch (clean_up env ;; locate)
    (fun err => log (L_ErrorExtracting (message err)) ;; throw err) wx.
Proof.
  intros H. unfold extractFfmpeg.
  unfold bind at 1 2 3. unfold try_catch at 1. unfold called, log. red_world.
  change (mkWorld (files w) (console w ++ [L_Extracting])
            (calls w ++ [C_extractFfmpeg])) with (entered w).
  rewrite H. reflexivity.
Qed.

(** The archive cannot be deleted: the stage fails there. *)
Lemma extractFfmpeg_unlink_refused (env : Env) (w wx : World) (e : Error) :
  prepare_and_extract env (entered w) = (Return tt, wx) ->
  unlinkSync_refused env = Some e ->
  extractFfmpeg env w =
  (Throw e,
   mkWorld (files wx) (console wx ++ [L_ErrorExtracting (message e)])
     (calls wx ++ [C_unlinkSync downloadPath])).
Proof.
  intros H Hr. rewrite (extractFfmpeg_after_extraction _ _ _ H).
  run. rewrite Hr. reflexivity.
Qed.

(** The archive is deleted: the search follows, and decides. *)
Lemma extractFfmpeg_cleaned (env : Env) (w wx : World) :
  prepare_and_extract env (entered w) = (Return tt, wx) ->
  unlinkSync_refused env = None ->
  exists r,
    findFfmpegExePath (files wx) (search_fuel (files wx) ffmpegDir) ffmpegDir
      = Some (Normal r) /\
    extractFfmpeg env w =
    (match r with
     | Some exe => Return exe
     | None => Throw not_found_error
     end,
     mkWorld (remove_entry "ffmpeg-download.zip" (files wx))
       (console wx ++ L_CleanedUp ::
          match r with
          | Some _ => []
          | None => [L_ErrorExtracting (message not_found_error)]
          end)
       (calls wx ++ [C_unlinkSync downloadPath; C_findFfmpegExePath ffmpegDir])).
Proof.
  intros H Hr. rewrite (extractFfmpeg_after_extraction _ _ _ H).
  destruct (prepare_and_extract_done _ _ _ H) as ((data & Hzip) & (es & Hroot) & _).
  destruct (findFfmpegExePath_returns _ _ _ Hroot) as (seen & r & _ & Hfind).
  exists r. split; [exact Hfind |].
  assert (Hsame : lookup (Dir (remove_entry "ffmpeg-download.zip" (files wx))) ffmpegDir
                  = lookup (Dir (files wx)) ffmpegDir).
  { rewrite !lookup_ffmpegDir. apply assoc_remove_entry_other. discriminate. }
  run. rewrite Hr. red_world. rewrite (unlink_downloadPath _ _ Hzip). red_world.
  replace (search_fuel (remove_entry "ffmpeg-download.zip" (files wx)) ffmpegDir)
    with (search_fuel (files wx) ffmpegDir)
    by (unfold search_fuel; rewrite Hsame; reflexivity).
  rewrite (findFfmpegExePath_local _ (files wx) _ _ Hsame), Hfind. red_world.
  destruct r as [exe |]; red_world; rewrite <- !app_assoc; reflexivity.
Qed.

(** ** The orchestration *)

Lemma exec_error_None (r : ExecResult) : exec_error r = None <-> r = Exited 0.
Proof.
  destruct r as [[| code] | |]; simpl; split; intros H; congruence.
Qed.

Lemma skipn_length_app {A : Type} (l r : list A) :
  skipn (List.length l) (l ++ r) = r.
Proof. induction l; simpl; auto. Qed.

Lemma calls_since_app (w w' : World) (cs : list Call) :
  calls w' = calls w ++ cs -> calls_since w w' = cs.
Proof. intros H. unfold calls_since. rewrite H. apply skipn_length_app. Qed.

Lemma lines_since_app (w w' : World) (ls : list Line) :
  console w' = console w ++ ls -> lines_since w w' = ls.
Proof. intros H. unfold lines_since. rewrite H. apply skipn_length_app. Qed.

(** The three ways through the probes and the confirmation gate. *)
Lemma main_body_installed (env : Env) (w : World) :
  exec_ffmpeg_version env = Exited 0 ->
  main_body env w =
  (Return tt,
   mkWorld (files w) (console w ++ [L_AlreadyInstalled; L_NoNeed; L_FullQuality])
     (calls w ++ [C_checkFfmpeg])).
Proof.
  intros H. destruct w as [fs out cs]. run. rewrite H. cbn [exec_error].
  red_world. rewrite <- !app_assoc. reflexivity.
Qed.

Lemma main_body_cached (env : Env) (w : World) :
  exec_ffmpeg_version env <> Exited 0 ->
  existsSync (files w) cachedExePath = true ->
  main_body env w =
  (Return tt,
   mkWorld (files w)
     (console w ++
        [L_NotInPath; L_LocalFound; L_InstalledAt cachedExePath; L_ToUse;
         L_BinDir (dirname cachedExePath); L_YouCanDo;
         L_Setx (dirname cachedExePath)])
     (calls w ++ [C_checkFfmpeg; C_localCacheProbe; C_addToPath cachedExePath])).
Proof.
  intros H Hc. destruct w as [fs out cs]. run.
  destruct (exec_error (exec_ffmpeg_version env)) eqn:He;
    [| apply exec_error_None in He; contradiction].
  red_world. fold cachedExePath. cbn [files] in Hc. rewrite Hc. red_world.
  rewrite <- !app_assoc. reflexivity.
Qed.

Lemma main_body_unconfirmed (env : Env) (w : World) :
  exec_ffmpeg_version env <> Exited 0 ->
  existsSync (files w) cachedExePath = false ->
  stdin_confirm env = false ->
  main_body env w =
  (if stdin_eof env then Quit 0 else Halt, at_download w).
Proof.
  intros H Hc Hs. destruct w as [fs out cs]. run.
  destruct (exec_error (exec_ffmpeg_version env)) eqn:He;
    [| apply exec_error_None in He; contradiction].
  red_world. fold cachedExePath. cbn [files] in Hc. rewrite Hc. red_world.
  rewrite Hs. destruct (stdin_eof env); rewrite <- !app_assoc; reflexivity.
Qed.

Lemma main_body_at_download (env : Env) (w : World) :
  exec_ffmpeg_version env <> Exited 0 ->
  existsSync (files w) cachedExePath = false ->
  stdin_confirm env = true ->
  main_body env w = install env (at_download w).
Proof.
  intros H Hc Hs. destruct w as [fs out cs].
  unfold main_body, checkFfmpeg, localCacheProbe, awaitConfirmation,
    fs_existsSync, never_settles, at_download.
  destruct (exec_error (exec_ffmpeg_version env)) eqn:He;
    [| apply exec_error_None in He; contradiction].
  unfold bind, called, log, ret, get_files. red_world.
  fold cachedExePath. cbn [files] in Hc. rewrite Hc, Hs. red_world.
  rewrite <- !app_assoc. reflexivity.
Qed.

Lemma install_download_throw (env : Env) (wd w1 : World) (e : Error) :
  downloadFfmpeg env wd = (Throw e, w1) ->
  install env wd = (Throw e, w1).
Proof. intros H. unfold install, bind. rewrite H. reflexivity. Qed.

Lemma install_extract_throw (env : Env) (wd wx w1 : World) (e : Error) :
  downloadFfmpeg env wd = (Return tt, wx) ->
  extractFfmpeg env wx = (Throw e, w1) ->
  install env wd = (Throw e, w1).
Proof. intros H Hx. unfold install, bind. rewrite H, Hx. reflexivity. Qed.

Lemma install_done (env : Env) (wd wx w2 : World) (exe : path) :
  downloadFfmpeg env wd = (Return tt, wx) ->
  extractFfmpeg env wx = (Return exe, w2) ->
  install env wd =
  (Return tt,
   mkWorld (files w2)
     (console w2 ++
        [L_InstalledAt exe; L_ToUse; L_BinDir (dirname exe); L_YouCanDo;
         L_Setx (dirname exe); L_SetupComplete])
     (calls w2 ++ [C_addToPath exe])).
Proof.
  intros H Hx. unfold install. unfold bind at 1 2. rewrite H, Hx.
  destruct w2 as [fs out cs]. run. rewrite <- !app_assoc. reflexivity.
Qed.

(** The script after its [try] block has thrown. *)
Lemma script_main_body_throw (env : Env) (w w1 : World) (e : Error) :
  main_body env (loaded w) = (Throw e, w1) ->
  script env w =
  (if stdin_exit env then Exit 0 else Waiting,
   mkWorld (files w1)
     (console w1 ++ [L_ErrorSettingUp (message e); L_StillUsable; L_PressAnyKey])
     (calls w1 ++ [C_awaitExitKey])).
Proof.
  intros H. unfold script, main.
  unfold bind at 1 2 3. unfold log at 1 2 3. red_world.
  unfold try_catch at 1 2.
  replace (mkWorld (files w) (((console w ++ [L_Title]) ++ [L_Rule]) ++ [L_Intro]) (calls w))
    with (loaded w) by (unfold loaded; rewrite <- !app_assoc; reflexivity).
  rewrite H. destruct w1 as [fs out cs]. run.
  destruct (stdin_exit env); red_world; rewrite <- !app_assoc; reflexivity.
Qed.

(** The script when the process ends under its [try] block. *)
Lemma script_main_body_quit (env : Env) (w w1 : World) (code : nat) :
  main_body env (loaded w) = (Quit code, w1) ->
  script env w = (Exit code, w1).
Proof.
  intros H. unfold script, main.
  unfold bind at 1 2 3. unfold log at 1 2 3. red_world.
  unfold try_catch at 1 2.
  replace (mkWorld (files w) (((console w ++ [L_Title]) ++ [L_Rule]) ++ [L_Intro]) (calls w))
    with (loaded w) by (unfold loaded; rewrite <- !app_assoc; reflexivity).
  rewrite H. reflexivity.
Qed.



Lemma install_dies (env : Env) (wd : World) :
  write_stream_fails env (files wd) ->
  exists fs',
    install env wd =
    (Quit 1,
     mkWorld fs' (console wd ++ [L_Downloading]) (calls wd ++ [C_downloadFfmpeg])).
Proof.
  intros Hfail. destruct (downloadFfmpeg_dies env wd Hfail) as (fs' & Hd).
  exists fs'. unfold install. unfold bind at 1. rewrite Hd. reflexivity.
Qed.

Lemma main_body_dies (env : Env) (w : World) :
  exec_ffmpeg_version env <> Exited 0 ->
  existsSync (files w) cachedExePath = false ->
  stdin_confirm env = true ->
  write_stream_fails env (files w) ->
  exists fs',
    main_body env w =
    (Quit 1,
     mkWorld fs'
       (console w ++ [L_NotInPath; L_WouldYouLike; L_PressEnter; L_Downloading])
       (calls w ++ [C_checkFfmpeg; C_localCacheProbe; C_awaitConfirmation;
                    C_downloadFfmpeg])).
Proof.
  intros Hexec Hcache Hkey Hfail.
  rewrite (main_body_at_download env w Hexec Hcache Hkey).
  destruct (install_dies env (at_download w) Hfail) as (fs' & ->).
  exists fs'. cbn [at_download console calls]. rewrite <- !app_assoc. reflexivity.
Qed.

(** [main] is its [try] block, with the warning when the block throws. *)
Lemma main_of_main_body (env : Env) (w : World) :
  main env w =
  match main_body env w with
  | (Throw e, w1) =>
      (Return tt,
       mkWorld (files w1)
         (console w1 ++ [L_ErrorSettingUp (message e); L_StillUsable])
         (calls w1))
  | r => r
  end.
Proof.
  unfold main, try_catch.
  destruct (main_body env w) as [[u | e | | code] w1]; try reflexivity.
  destruct w1 as [fs out cs]. run. rewrite <- !app_assoc. reflexivity.
Qed.

Lemma main_calls (env : Env) (w : World) :
  calls (snd (main env w)) = calls (snd (main_body env w)).
Proof.
  rewrite main_of_main_body.
  destruct (main_body env w) as [[u | e | | code] w1]; reflexivity.
Qed.

(** The stages of [install], in order, and no warning from them. *)
Lemma install_frame (env : Env) (wd : World) (r : outcome unit) (w' : World) :
  install env wd = (r, w') ->
  exists cs ls,
    calls w' = calls wd ++ cs /\
    console w' = console wd ++ ls /\
    filter is_warning ls = [] /\
    (filter is_stage cs = [C_downloadFfmpeg] \/
     filter is_stage cs = [C_downloadFfmpeg; C_extractFfmpeg] \/
     exists exe,
       filter is_stage cs = [C_downloadFfmpeg; C_extractFfmpeg; C_addToPath exe]).
Proof.
  unfold install. unfold bind at 1.
  destruct (downloadFfmpeg env wd) as [r1 w1] eqn:Hd.
  destruct (downloadFfmpeg_frame _ _ _ _ Hd) as (cs1 & ls1 & Hc1 & Hs1 & Hl1 & Hw1).
  assert (Hstop : forall r0 : outcome unit, (r0, w1) = (r, w') ->
            exists cs ls,
              calls w' = calls wd ++ cs /\ console w' = console wd ++ ls /\
              filter is_warning ls = [] /\
              (filter is_stage cs = [C_downloadFfmpeg] \/
               filter is_stage cs = [C_downloadFfmpeg; C_extractFfmpeg] \/
               exists exe,
                 filter is_stage cs =
                 [C_downloadFfmpeg; C_extractFfmpeg; C_addToPath exe])).
  { intros r0 [= _ <-]. exists (C_downloadFfmpeg :: cs1), ls1.
    repeat split; auto. left. simpl. rewrite Hs1. reflexivity. }
  destruct r1 as [u | e | | code]; [| apply Hstop ..].
  clear Hstop. unfold bind at 1.
  destruct (extractFfmpeg env w1) as [r2 w2] eqn:Hx.
  destruct (extractFfmpeg_frame _ _ _ _ Hx) as (cs2 & ls2 & Hc2 & Hs2 & Hl2 & Hw2).
  assert (Hstop : forall r0 : outcome unit, (r0, w2) = (r, w') ->
            exists cs ls,
              calls w' = calls wd ++ cs /\ console w' = console wd ++ ls /\
              filter is_warning ls = [] /\
              (filter is_stage cs = [C_downloadFfmpeg] \/
               filter is_stage cs = [C_downloadFfmpeg; C_extractFfmpeg] \/
               exists exe,
                 filter is_stage cs =
                 [C_downloadFfmpeg; C_extractFfmpeg; C_addToPath exe])).
  { intros r0 [= _ <-].
    exists ((C_downloadFfmpeg :: cs1) ++ C_extractFfmpeg :: cs2), (ls1 ++ ls2).
    rewrite Hc2, Hc1, Hl2, Hl1, <- !app_assoc.
    repeat split; auto.
    - rewrite filter_app, Hw1, Hw2. reflexivity.
    - right. left. rewrite filter_app. simpl. rewrite Hs1, Hs2. reflexivity. }
  destruct r2 as [exe | e | | code]; [| apply Hstop ..].
  clear Hstop. destruct w2 as [fs out cs]. run. intros [= _ <-]. red_world.
  cbn [calls console] in Hc2, Hl2.
  exists ((C_downloadFfmpeg :: cs1) ++ (C_extractFfmpeg :: cs2) ++ [C_addToPath exe]),
    (ls1 ++ ls2 ++ [L_InstalledAt exe; L_ToUse; L_BinDir (dirname exe); L_YouCanDo;
                    L_Setx (dirname exe); L_SetupComplete]).
  rewrite Hc2, Hc1, Hl2, Hl1, <- !app_assoc.
  repeat split; auto.
  - rewrite !filter_app, Hw1, Hw2. reflexivity.
  - right. right. exists exe. rewrite !filter_app. simpl.
    rewrite Hs1, Hs2. reflexivity.
Qed.

(* ================================================================== *)
(** * The claims *)

(** ** Availability probe *)

(** C5: [checkFfmpeg] never throws and never stays pending: whatever the
    child process does, it returns a boolean, which is [true] exactly when
    the child exits with code 0, and [false] when it exits with another
    code, is killed or cannot be spawned. *)
Theorem checkFfmpeg_never_throws (env : Env) (w : World) :
  exists b : bool,
    checkFfmpeg env w =
      (Return b,
       mkWorld (files w)
         (console w ++ [if b then L_AlreadyInstalled else L_NotInPath])
         (calls w ++ [C_checkFfmpeg])) /\
    b = match exec_ffmpeg_version env with
        | Exited 0 => true
        | Exited (S _) | Killed | SpawnFailed => false
        end.
Proof.
  destruct w as [fs out cs]. run.
  destruct (exec_ffmpeg_version env) as [[| code] | |]; cbn [exec_error];
    red_world;
    first [exists true; split; reflexivity | exists false; split; reflexivity].
Qed.

(** ** Local-cache probe *)

(** C6: in every state of the file system the local-cache probe returns
    without throwing and changes neither the files nor the console; if
    something exists at [<ffmpegDir>/bin/ffmpeg.exe], in particular a file,
    it returns exactly that path, and if nothing exists there it returns
    "absent". *)
Theorem localCacheProbe_exact (w : World) :
  exists r : option path,
    localCacheProbe w =
      (Return r, mkWorld (files w) (console w) (calls w ++ [C_localCacheProbe])) /\
    (forall n, lookup (Dir (files w)) ["ffmpeg"; "bin"; "ffmpeg.exe"] = Some n ->
       r = Some ["ffmpeg"; "bin"; "ffmpeg.exe"]) /\
    (lookup (Dir (files w)) ["ffmpeg"; "bin"; "ffmpeg.exe"] = None -> r = None).
Proof.
  destruct w as [fs out cs]. run. unfold existsSync.
  change (join ffmpegDir [bin; ffmpeg_exe]) with ["ffmpeg"; "bin"; "ffmpeg.exe"].
  destruct (lookup (Dir fs) ["ffmpeg"; "bin"; "ffmpeg.exe"]) as [n |];
    red_world; eexists; (split; [reflexivity |]); split; intros;
    solve [reflexivity | discriminate].
Qed.

Lemma localCacheProbe_exact_witness :
  (localCacheProbe (Scenario.start Scenario.installed) =
     (Return (Some ["ffmpeg"; "bin"; "ffmpeg.exe"]),
      mkWorld Scenario.installed [] [C_localCacheProbe])) /\
  (localCacheProbe (Scenario.start Scenario.fresh) =
     (Return None, mkWorld Scenario.fresh [] [C_localCacheProbe])).
Proof.
  split.
  - destruct (localCacheProbe_exact (Scenario.start Scenario.installed))
      as (r & Hrun & Hsome & _).
    rewrite Hrun, (Hsome (File "MZ") eq_refl). reflexivity.
  - destruct (localCacheProbe_exact (Scenario.start Scenario.fresh))
      as (r & Hrun & _ & Hnone).
    rewrite Hrun, (Hnone eq_refl). reflexivity.
Defined.

(** ** Download *)

(** C1 (what the code does on a status other than 200): the download fails
    with an error whose message ends with the status code, but
    [downloadFfmpeg] does not unlink the destination file: the empty file that
    [fs.createWriteStream] made stays.  Only the ['error'] handler of the
    request deletes it, see [downloadFfmpeg_request_error]. *)
Theorem downloadFfmpeg_non200_keeps_file
    (env : Env) (w : World) (status : nat) (body : string) :
  https_get env = Response status body ->
  status <> 200 ->
  (forall sub, lookup (Dir (files w)) downloadPath <> Some (Dir sub)) ->
  exists w',
    downloadFfmpeg env w =
      (Throw (mkError ("Failed to download FFmpeg: " ++ show_number status)), w') /\
    lookup (Dir (files w')) downloadPath = Some (File "") /\
    calls w' = calls w ++ [C_downloadFfmpeg] /\
    ~ In (C_unlink downloadPath) (calls_since w w').
Proof.
  intros Hget Hs Hw.
  destruct (downloadFfmpeg_non200 env w status body Hget Hs Hw)
    as (w' & Hrun & Hfile & Hcalls & _).
  exists w'. repeat split; auto.
  rewrite (calls_since_app _ _ _ Hcalls). simpl. intros [H | []]. discriminate.
Qed.

Lemma downloadFfmpeg_non200_keeps_file_witness :
  exists w',
    downloadFfmpeg Scenario.missing (Scenario.start Scenario.fresh) =
      (Throw (mkError "Failed to download FFmpeg: 404"), w') /\
    lookup (Dir (files w')) downloadPath = Some (File "") /\
    calls w' = [C_downloadFfmpeg] /\
    ~ In (C_unlink downloadPath) (calls_since (Scenario.start Scenario.fresh) w').
Proof.
  apply (downloadFfmpeg_non200_keeps_file Scenario.missing
           (Scenario.start Scenario.fresh) 404 "Not Found").
  - reflexivity.
  - discriminate.
  - intros sub. vm_compute. discriminate.
Defined.

(** ** Executable search *)

(** C10: if the search returns a path, the last component of the path is
    [ffmpeg.exe], the path exists in the tree, and the search picked it up
    in a directory [v] it listed: either as the entry [ffmpeg.exe] of [v],
    which is not a directory, or as [v/bin/ffmpeg.exe], which exists below
    the directory [v/bin]. *)
Theorem findFfmpegExePath_found_exists
    (fs : dir) (fuel : nat) (d p : path) :
  findFfmpegExePath fs fuel d = Some (Normal (Some p)) ->
  basename p = ffmpeg_exe /\
  existsSync fs p = true /\
  exists seen v,
    findFfmpegExePath_log fs fuel d = Some (seen, Normal (Some p)) /\
    In v seen /\
    found_at fs v p.
Proof.
  intros H. destruct (findFfmpegExePath_log_Some _ _ _ _ H) as (seen & Hlog).
  destruct (findFfmpegExePath_log_sound _ _ _ _ _ Hlog) as (v & q & Hv & _ & Hf).
  assert (Hp : basename p = ffmpeg_exe /\ existsSync fs p = true).
  { destruct Hf as (es & _ & [(-> & _ & data & Hfile) | (-> & _ & Hex)]).
    - split; [apply basename_join_one |].
      unfold existsSync. rewrite Hfile. reflexivity.
    - split; [apply basename_join_one | exact Hex]. }
  destruct Hp as [Hb Hex]. repeat split; auto.
  exists seen, v. auto.
Qed.

Lemma findFfmpegExePath_found_exists_witness :
  basename ["ffmpeg"; "tools"; "win64"; "ffmpeg.exe"] = ffmpeg_exe /\
  existsSync (Scenario.extracted Scenario.plain)
    ["ffmpeg"; "tools"; "win64"; "ffmpeg.exe"] = true /\
  exists seen v,
    findFfmpegExePath_log (Scenario.extracted Scenario.plain) 4 ffmpegDir =
      Some (seen, Normal (Some ["ffmpeg"; "tools"; "win64"; "ffmpeg.exe"])) /\
    In v seen /\
    found_at (Scenario.extracted Scenario.plain) v
      ["ffmpeg"; "tools"; "win64"; "ffmpeg.exe"].
Proof.
  apply (findFfmpegExePath_found_exists (Scenario.extracted Scenario.plain) 4
           ffmpegDir).
  reflexivity.
Defined.



(** C7: in a tree of directories and regular files where no directory
    named [bin] holds a directory named [ffmpeg.exe]: if exactly one
    regular file is named [ffmpeg.exe], three levels down, the search
    returns the path of that file; if no regular file is named
    [ffmpeg.exe], it returns "not found", a value and not an error; and
    [extractFfmpeg] turns "not found" into the error "Could not find
    ffmpeg.exe in the extracted files", which ends the stage. *)
Theorem findFfmpegExePath_three_levels_deep (fs : dir) (d : path) (es : dir) :
  lookup (Dir fs) d = Some (Dir es) ->
  (forall q sub, lookup (Dir es) (q ++ [bin; ffmpeg_exe]) <> Some (Dir sub)) ->
  (forall p data,
     lookup (Dir es) p = Some (File data) ->
     basename p = ffmpeg_exe ->
     List.length p = 3 ->
     (forall q data', lookup (Dir es) q = Some (File data') ->
        basename q = ffmpeg_exe -> q = p) ->
     findFfmpegExePath fs (search_fuel fs d) d = Some (Normal (Some (d ++ p)))) /\
  ((forall q data, lookup (Dir es) q = Some (File data) ->
      basename q <> ffmpeg_exe) ->
   findFfmpegExePath fs (search_fuel fs d) d = Some (Normal None)) /\
  (forall env w wx,
     prepare_and_extract env (entered w) = (Return tt, wx) ->
     unlinkSync_refused env = None ->
     findFfmpegExePath (files wx) (search_fuel (files wx) ffmpegDir) ffmpegDir
       = Some (Normal None) ->
     fst (extractFfmpeg env w) = Throw not_found_error /\
     message not_found_error = "Could not find ffmpeg.exe in the extracted files" /\
     console (snd (extractFfmpeg env w)) =
       console wx ++ [L_CleanedUp; L_ErrorExtracting (message not_found_error)]).
Proof.
  intros Hd Hbin. split; [| split].
  - intros p data Hp Hb _ Huniq.
    exact (findFfmpegExePath_unique_file fs d es p data Hd Hp Hb Huniq Hbin).
  - intros Hnone. exact (findFfmpegExePath_no_file fs d es Hd Hnone Hbin).
  - intros env w wx Hprep Hfree Hnone.
    destruct (extractFfmpeg_cleaned env w wx Hprep Hfree) as (r & Hr & Hrun).
    rewrite Hr in Hnone. injection Hnone as ->.
    rewrite Hrun. repeat split.
Qed.

Lemma findFfmpegExePath_three_levels_deep_witness :
  findFfmpegExePath (Scenario.extracted Scenario.build)
    (search_fuel (Scenario.extracted Scenario.build) ffmpegDir) ffmpegDir
  = Some (Normal (Some ["ffmpeg"; "ffmpeg-master-latest-win64-gpl"; "bin";
                        "ffmpeg.exe"])) /\
  findFfmpegExePath (Scenario.extracted Scenario.plain)
    (search_fuel (Scenario.extracted Scenario.plain) ffmpegDir) ffmpegDir
  = Some (Normal (Some ["ffmpeg"; "tools"; "win64"; "ffmpeg.exe"])) /\
  findFfmpegExePath (Scenario.extracted Scenario.docs_only)
    (search_fuel (Scenario.extracted Scenario.docs_only) ffmpegDir) ffmpegDir
  = Some (Normal None) /\
  fst (extractFfmpeg Scenario.incomplete
         Scenario.downloaded)
  = Throw not_found_error.
Proof.
  assert (Hbuild : forall q sub,
            lookup (Dir Scenario.build) (q ++ [bin; ffmpeg_exe])
            <> Some (Dir sub)).
  { intros q sub Hq.
    pose proof (basename_join_two q bin ffmpeg_exe) as Hb. unfold join in Hb.
    remember (q ++ [bin; ffmpeg_exe]) as p eqn:Hp. clear Hp.
    walk Hq; discriminate. }
  assert (Hplain : forall q sub,
            lookup (Dir Scenario.plain) (q ++ [bin; ffmpeg_exe])
            <> Some (Dir sub)).
  { intros q sub Hq.
    pose proof (basename_join_two q bin ffmpeg_exe) as Hb. unfold join in Hb.
    remember (q ++ [bin; ffmpeg_exe]) as p eqn:Hp. clear Hp.
    walk Hq; discriminate. }
  assert (Hdocs : forall q sub,
            lookup (Dir Scenario.docs_only) (q ++ [bin; ffmpeg_exe])
            <> Some (Dir sub)).
  { intros q sub Hq.
    pose proof (basename_join_two q bin ffmpeg_exe) as Hb. unfold join in Hb.
    remember (q ++ [bin; ffmpeg_exe]) as p eqn:Hp. clear Hp.
    walk Hq; discriminate. }
  split; [| split; [| split]].
  - destruct (findFfmpegExePath_three_levels_deep
                (Scenario.extracted Scenario.build) ffmpegDir Scenario.build
                eq_refl Hbuild) as (Hfound & _ & _).
    apply (Hfound ["ffmpeg-master-latest-win64-gpl"; "bin"; "ffmpeg.exe"] "MZ");
      try reflexivity.
    intros q n Hq Hb. walk Hq; try discriminate; try reflexivity.
  - destruct (findFfmpegExePath_three_levels_deep
                (Scenario.extracted Scenario.plain) ffmpegDir Scenario.plain
                eq_refl Hplain) as (Hfound & _ & _).
    apply (Hfound ["tools"; "win64"; "ffmpeg.exe"] "MZ");
      try reflexivity.
    intros q n Hq Hb. walk Hq; try discriminate; try reflexivity.
  - destruct (findFfmpegExePath_three_levels_deep
                (Scenario.extracted Scenario.docs_only) ffmpegDir
                Scenario.docs_only eq_refl Hdocs) as (_ & Habsent & _).
    apply Habsent. intros q n Hq Hb. walk Hq; discriminate.
  - destruct (findFfmpegExePath_three_levels_deep
                (Scenario.extracted Scenario.docs_only) ffmpegDir
                Scenario.docs_only eq_refl Hdocs) as (_ & _ & Hcaller).
    apply (Hcaller Scenario.incomplete
             Scenario.downloaded
             (snd (prepare_and_extract Scenario.incomplete
                (entered Scenario.downloaded))));
      reflexivity.
Defined.

(** The claim C7 as it is written fails on three trees.  [Scenario.decoy]
    has exactly one regular file named [ffmpeg.exe], three levels down, and
    the search returns the directory [bin/ffmpeg.exe] instead.
    [Scenario.odd] has no regular file of that name, and the search returns
    a path all the same.  [Scenario.folder] has exactly one entry of that
    name, a directory three levels down, and the search returns "not
    found". *)
Lemma findFfmpegExePath_exactly_one_file_fails :
  (lookup (Dir Scenario.decoy) ["tools"; "win64"; "ffmpeg.exe"]
     = Some (File "MZ") /\
   (forall q data,
      lookup (Dir Scenario.decoy) q = Some (File data) ->
      basename q = ffmpeg_exe -> q = ["tools"; "win64"; "ffmpeg.exe"]) /\
   findFfmpegExePath (Scenario.extracted Scenario.decoy)
     (search_fuel (Scenario.extracted Scenario.decoy) ffmpegDir) ffmpegDir
   = Some (Normal (Some ["ffmpeg"; "bin"; "ffmpeg.exe"])) /\
   lookup (Dir (Scenario.extracted Scenario.decoy))
     ["ffmpeg"; "bin"; "ffmpeg.exe"] = Some (Dir [])) /\
  ((forall q data,
      lookup (Dir Scenario.odd) q = Some (File data) ->
      basename q <> ffmpeg_exe) /\
   findFfmpegExePath (Scenario.extracted Scenario.odd)
     (search_fuel (Scenario.extracted Scenario.odd) ffmpegDir) ffmpegDir
   = Some (Normal (Some ["ffmpeg"; "bin"; "ffmpeg.exe"]))) /\
  (lookup (Dir Scenario.folder) ["tools"; "win64"; "ffmpeg.exe"]
     = Some (Dir []) /\
   (forall q n,
      lookup (Dir Scenario.folder) q = Some n ->
      basename q = ffmpeg_exe -> q = ["tools"; "win64"; "ffmpeg.exe"]) /\
   findFfmpegExePath (Scenario.extracted Scenario.folder)
     (search_fuel (Scenario.extracted Scenario.folder) ffmpegDir) ffmpegDir
   = Some (Normal None)).
Proof.
  split; [| split].
  - split; [reflexivity |]. split; [| split; reflexivity].
    intros q data Hq Hb. walk Hq; try discriminate; reflexivity.
  - split; [| reflexivity].
    intros q data Hq. walk Hq; discriminate.
  - split; [reflexivity |]. split; [| reflexivity].
    intros q n Hq Hb. walk Hq; try discriminate; reflexivity.
Qed.

(** ** Extraction *)

(** C3: once the extraction has succeeded, leaving the world [wx], the rest
    of [extractFfmpeg] never touches the extracted tree: the install root is
    the same directory at the end, whatever happens.  The archive is
    deleted before the search runs: if the search is called at all, the call
    of [fs.unlinkSync] precedes it and the archive is gone at the end; and
    when [fs.unlinkSync] is not refused the search is called and the archive
    is gone, whether the stage then returns a path or fails with "not
    found". *)
Theorem extractFfmpeg_deletes_archive_before_search
    (env : Env) (w wx : World) :
  prepare_and_extract env (entered w) = (Return tt, wx) ->
  lookup (Dir (files (snd (extractFfmpeg env w)))) ffmpegDir
    = lookup (Dir (files wx)) ffmpegDir /\
  (exists es,
     lookup (Dir (files (snd (extractFfmpeg env w)))) ffmpegDir = Some (Dir es)) /\
  (In (C_findFfmpegExePath ffmpegDir)
      (calls_since wx (snd (extractFfmpeg env w))) ->
   calls_since wx (snd (extractFfmpeg env w)) =
     [C_unlinkSync downloadPath; C_findFfmpegExePath ffmpegDir] /\
   existsSync (files (snd (extractFfmpeg env w))) downloadPath = false) /\
  (unlinkSync_refused env = None ->
   In (C_findFfmpegExePath ffmpegDir)
      (calls_since wx (snd (extractFfmpeg env w))) /\
   existsSync (files (snd (extractFfmpeg env w))) downloadPath = false /\
   (fst (extractFfmpeg env w) = Throw not_found_error \/
    exists exe, fst (extractFfmpeg env w) = Return exe)).
Proof.
  intros Hprep.
  destruct (prepare_and_extract_done _ _ _ Hprep) as (_ & (es & Hroot) & _).
  destruct (unlinkSync_refused env) as [e |] eqn:Hfree.
  - rewrite (extractFfmpeg_unlink_refused env w wx e Hprep Hfree).
    cbn [fst snd files].
    split; [reflexivity |]. split; [eauto |]. split; [| discriminate].
    unfold calls_since. cbn [calls]. rewrite skipn_length_app.
    intros [H | []]. discriminate.
  - destruct (extractFfmpeg_cleaned env w wx Hprep Hfree) as (r & _ & ->).
    cbn [fst snd files].
    assert (Hsame :
      lookup (Dir (remove_entry "ffmpeg-download.zip" (files wx))) ffmpegDir
      = lookup (Dir (files wx)) ffmpegDir).
    { rewrite !lookup_ffmpegDir. apply assoc_remove_entry_other. discriminate. }
    assert (Hgone :
      existsSync (remove_entry "ffmpeg-download.zip" (files wx)) downloadPath
      = false).
    { unfold existsSync. rewrite lookup_remove_downloadPath. reflexivity. }
    unfold calls_since. cbn [calls]. rewrite skipn_length_app.
    split; [exact Hsame |]. split; [rewrite Hsame; eauto |].
    split; [auto |]. intros _.
    split; [right; left; reflexivity |]. split; [exact Hgone |].
    destruct r as [exe |]; eauto.
Qed.

Lemma extractFfmpeg_deletes_archive_before_search_witness :
  fst (extractFfmpeg Scenario.incomplete Scenario.downloaded)
    = Throw not_found_error /\
  existsSync (files (snd (extractFfmpeg Scenario.incomplete Scenario.downloaded)))
    downloadPath = false /\
  lookup (Dir (files (snd (extractFfmpeg Scenario.incomplete Scenario.downloaded))))
    ffmpegDir = Some (Dir Scenario.docs_only).
Proof.
  destruct (extractFfmpeg_deletes_archive_before_search Scenario.incomplete
              Scenario.downloaded
              (snd (prepare_and_extract Scenario.incomplete
                      (entered Scenario.downloaded)))
              eq_refl) as (Htree & _ & _ & Hsearch).
  destruct (Hsearch eq_refl) as (_ & Hgone & _).
  split; [reflexivity |]. split; [exact Hgone |].
  rewrite Htree. reflexivity.
Defined.

(** C9, as the code has it: when the extraction has succeeded and the
    archive cannot be deleted, the failure is surfaced, logged by the
    extraction stage and again by [main], but it ends the installation:
    neither the search nor the guidance runs.  [main] turns it into the
    warning, and the script reaches the exit prompt and exits with code 0
    when a key comes. *)
Theorem unlink_failure_is_logged_and_ends_install
    (env : Env) (w wd wx : World) (e : Error) :
  exec_ffmpeg_version env <> Exited 0 ->
  existsSync (files w) cachedExePath = false ->
  stdin_confirm env = true ->
  downloadFfmpeg env (at_download (loaded w)) = (Return tt, wd) ->
  prepare_and_extract env (entered wd) = (Return tt, wx) ->
  unlinkSync_refused env = Some e ->
  script env w =
  (if stdin_exit env then Exit 0 else Waiting,
   mkWorld (files wx)
     (console wx ++
        [L_ErrorExtracting (message e); L_ErrorSettingUp (message e);
         L_StillUsable; L_PressAnyKey])
     (calls wx ++ [C_unlinkSync downloadPath; C_awaitExitKey])).
Proof.
  intros Hexec Hcache Hkey Hdown Hprep Hrefused.
  pose proof (extractFfmpeg_unlink_refused env wd wx e Hprep Hrefused) as Hx.
  pose proof (install_extract_throw env _ _ _ e Hdown Hx) as Hinst.
  rewrite <- (main_body_at_download env (loaded w) Hexec Hcache Hkey) in Hinst.
  rewrite (script_main_body_throw env w _ e Hinst). cbn [files console calls].
  rewrite <- !app_assoc. reflexivity.
Qed.

Lemma unlink_failure_is_logged_and_ends_install_witness :
  script Scenario.locked (Scenario.start Scenario.fresh) =
  (Exit 0,
   mkWorld
     (Scenario.fresh ++
        [("ffmpeg-download.zip", File "PK"); ("ffmpeg", Dir Scenario.build)])
     [L_Title; L_Rule; L_Intro; L_NotInPath; L_WouldYouLike; L_PressEnter;
      L_Downloading; L_DownloadComplete; L_Extracting; L_ExtractionComplete;
      L_ErrorExtracting "EPERM: operation not permitted, unlink";
      L_ErrorSettingUp "EPERM: operation not permitted, unlink";
      L_StillUsable; L_PressAnyKey]
     [C_checkFfmpeg; C_localCacheProbe; C_awaitConfirmation; C_downloadFfmpeg;
      C_extractFfmpeg; C_unlinkSync downloadPath; C_awaitExitKey]).
Proof.
  assert (Hexec : exec_ffmpeg_version Scenario.locked <> Exited 0)
    by discriminate.
  exact (unlink_failure_is_logged_and_ends_install Scenario.locked
           (Scenario.start Scenario.fresh)
           (snd (downloadFfmpeg Scenario.locked
                   (at_download (loaded (Scenario.start Scenario.fresh)))))
           (snd (prepare_and_extract Scenario.locked
                   (entered (snd (downloadFfmpeg Scenario.locked
                      (at_download (loaded (Scenario.start Scenario.fresh))))))))
           (mkError "EPERM: operation not permitted, unlink")
           Hexec eq_refl eq_refl eq_refl eq_refl eq_refl).
Defined.

(** C9, the claim as stated fails: with an archive that cannot be deleted
    after a successful extraction, the run does not proceed through the
    search and the guidance. *)
Lemma unlink_failure_stops_before_search :
  In L_ExtractionComplete
    (console (snd (script Scenario.locked (Scenario.start Scenario.fresh)))) /\
  In (C_unlinkSync downloadPath)
    (calls (snd (script Scenario.locked (Scenario.start Scenario.fresh)))) /\
  ~ In (C_findFfmpegExePath ffmpegDir)
      (calls (snd (script Scenario.locked (Scenario.start Scenario.fresh)))) /\
  ~ (exists exe,
       In (C_addToPath exe)
         (calls (snd (script Scenario.locked (Scenario.start Scenario.fresh))))).
Proof.
  vm_compute. repeat split.
  - tauto.
  - tauto.
  - intros H. repeat destruct H as [H | H]; try discriminate H. exact H.
  - intros (exe & H). repeat destruct H as [H | H]; try discriminate H. exact H.
Qed.

(** ** Orchestration *)

(** C2: the download raises an error that [main] does not catch.  The write
    stream of the archive has no listener for ['error'], whereas the request
    has one, which rejects the promise.  When both probes are negative and
    the confirmation comes, and the file cannot be opened because a
    directory bears its name, or a write fails while the body arrives, the
    process dies with exit code 1 after "Downloading FFmpeg...": no
    warning is printed, the exit prompt is not reached, and no stage runs
    after the download. *)
Theorem script_dies_on_write_stream_error (env : Env) (w : World) :
  exec_ffmpeg_version env <> Exited 0 ->
  existsSync (files w) cachedExePath = false ->
  stdin_confirm env = true ->
  write_stream_fails env (files w) ->
  fst (script env w) = Exit 1 /\
  lines_since w (snd (script env w)) =
    [L_Title; L_Rule; L_Intro; L_NotInPath; L_WouldYouLike; L_PressEnter;
     L_Downloading] /\
  calls_since w (snd (script env w)) =
    [C_checkFfmpeg; C_localCacheProbe; C_awaitConfirmation; C_downloadFfmpeg] /\
  warnings_since w (snd (script env w)) = 0 /\
  ~ In L_PressAnyKey (lines_since w (snd (script env w))).
Proof.
  intros Hexec Hcache Hkey Hfail.
  destruct (main_body_dies env (loaded w) Hexec Hcache Hkey Hfail) as (fs' & Hb).
  rewrite (script_main_body_quit env w _ 1 Hb). cbn [fst snd].
  assert (Hlines :
    lines_since w
      (mkWorld fs'
         (console (loaded w) ++
            [L_NotInPath; L_WouldYouLike; L_PressEnter; L_Downloading])
         (calls (loaded w) ++
            [C_checkFfmpeg; C_localCacheProbe; C_awaitConfirmation;
             C_downloadFfmpeg])) =
    [L_Title; L_Rule; L_Intro; L_NotInPath; L_WouldYouLike; L_PressEnter;
     L_Downloading]).
  { apply lines_since_app. cbn [console loaded]. rewrite <- app_assoc.
    reflexivity. }
  unfold warnings_since. rewrite Hlines.
  split; [reflexivity |]. split; [reflexivity |]. split.
  - apply calls_since_app. reflexivity.
  - split; [reflexivity |]. simpl. intuition discriminate.
Qed.

Lemma script_dies_on_write_stream_error_witness :
  fst (script Scenario.online (Scenario.start Scenario.blocked)) = Exit 1 /\
  console (snd (script Scenario.online (Scenario.start Scenario.blocked))) =
    [L_Title; L_Rule; L_Intro; L_NotInPath; L_WouldYouLike; L_PressEnter;
     L_Downloading] /\
  fst (script Scenario.disk_full (Scenario.start Scenario.fresh)) = Exit 1 /\
  lookup (Dir (files (snd (script Scenario.disk_full
                             (Scenario.start Scenario.fresh)))))
    downloadPath = Some (File "P").
Proof.
  assert (Honline : exec_ffmpeg_version Scenario.online <> Exited 0)
    by discriminate.
  assert (Hfull : exec_ffmpeg_version Scenario.disk_full <> Exited 0)
    by discriminate.
  destruct (script_dies_on_write_stream_error Scenario.online
              (Scenario.start Scenario.blocked) Honline eq_refl eq_refl
              (or_introl (ex_intro _ [] eq_refl)))
    as (Hexit & Hlines & _).
  destruct (script_dies_on_write_stream_error Scenario.disk_full
              (Scenario.start Scenario.fresh) Hfull eq_refl eq_refl
              (or_intror (ex_intro _ "P" eq_refl)))
    as (Hexit' & _).
  split; [exact Hexit |]. split; [exact Hlines |].
  split; [exact Hexit' |]. reflexivity.
Defined.

(** C4: [main] runs its stages in order and stops at the first that
    settles the run.  If [ffmpeg -version] succeeds, only the availability
    probe runs.  Otherwise, if the local-cache probe finds the executable,
    the guidance follows it and nothing else runs.  Otherwise the
    confirmation, the download, the extraction with its search, and the
    guidance run in that order, each only when the one before it has
    returned; all of them run when the confirmation comes and the download
    and the extraction succeed. *)
Theorem main_runs_stages_in_order (env : Env) (w : World) :
  (exec_ffmpeg_version env = Exited 0 ->
   stages_since w (snd (main env w)) = [C_checkFfmpeg]) /\
  (exec_ffmpeg_version env <> Exited 0 ->
   existsSync (files w) cachedExePath = true ->
   stages_since w (snd (main env w)) =
     [C_checkFfmpeg; C_localCacheProbe; C_addToPath cachedExePath]) /\
  (exec_ffmpeg_version env <> Exited 0 ->
   existsSync (files w) cachedExePath = false ->
   exists rest,
     stages_since w (snd (main env w)) =
       [C_checkFfmpeg; C_localCacheProbe; C_awaitConfirmation] ++ rest /\
     (rest = [] \/
      rest = [C_downloadFfmpeg] \/
      rest = [C_downloadFfmpeg; C_extractFfmpeg] \/
      exists exe, rest = [C_downloadFfmpeg; C_extractFfmpeg; C_addToPath exe]) /\
     (stdin_confirm env = false -> rest = []) /\
     (stdin_confirm env = true -> rest <> []) /\
     (forall wx w2 exe,
        stdin_confirm env = true ->
        downloadFfmpeg env (at_download w) = (Return tt, wx) ->
        extractFfmpeg env wx = (Return exe, w2) ->
        rest = [C_downloadFfmpeg; C_extractFfmpeg; C_addToPath exe])).
Proof.
  unfold stages_since, calls_since. rewrite main_calls.
  split; [| split].
  - intros Hexec. rewrite (main_body_installed env w Hexec). cbn [snd calls].
    rewrite skipn_length_app. reflexivity.
  - intros Hexec Hcache. rewrite (main_body_cached env w Hexec Hcache).
    cbn [snd calls]. rewrite skipn_length_app. reflexivity.
  - intros Hexec Hcache.
    destruct (stdin_confirm env) eqn:Hkey.
    + rewrite (main_body_at_download env w Hexec Hcache Hkey).
      destruct (install env (at_download w)) as [r w'] eqn:Hinst.
      destruct (install_frame _ _ _ _ Hinst) as (cs & ls & Hcs & _ & _ & Hstages).
      cbn [snd]. rewrite Hcs. cbn [at_download calls].
      rewrite <- app_assoc, skipn_length_app, filter_app.
      exists (filter is_stage cs). split; [reflexivity |].
      split; [tauto |]. split; [discriminate |]. split.
      * intros _ Hnil. rewrite Hnil in Hstages.
        destruct Hstages as [H | [H | (exe & H)]]; discriminate.
      * intros wx w2 exe _ Hd Hx.
        rewrite (install_done env _ _ _ exe Hd Hx) in Hinst.
        injection Hinst as _ <-. cbn [calls] in Hcs.
        destruct (extractFfmpeg_frame _ _ _ _ Hx) as (cs2 & _ & Hc2 & Hs2 & _).
        destruct (downloadFfmpeg_frame _ _ _ _ Hd) as (cs1 & _ & Hc1 & Hs1 & _).
        rewrite Hc2, Hc1, <- !app_assoc in Hcs.
        apply app_inv_head in Hcs. rewrite <- Hcs.
        rewrite !filter_app. cbn [filter is_stage]. rewrite Hs1, Hs2.
        reflexivity.
    + rewrite (main_body_unconfirmed env w Hexec Hcache Hkey).
      cbn [snd at_download calls]. rewrite skipn_length_app.
      exists []. split; [reflexivity |]. split; [tauto |].
      split; [reflexivity |]. split; [discriminate |].
      intros wx w2 exe Habs. discriminate.
Qed.

Lemma main_runs_stages_in_order_witness :
  stages_since (Scenario.start Scenario.fresh)
    (snd (main Scenario.on_path (Scenario.start Scenario.fresh)))
  = [C_checkFfmpeg] /\
  stages_since (Scenario.start Scenario.installed)
    (snd (main Scenario.online (Scenario.start Scenario.installed)))
  = [C_checkFfmpeg; C_localCacheProbe; C_addToPath cachedExePath] /\
  stages_since (Scenario.start Scenario.fresh)
    (snd (main Scenario.online (Scenario.start Scenario.fresh)))
  = [C_checkFfmpeg; C_localCacheProbe; C_awaitConfirmation; C_downloadFfmpeg;
     C_extractFfmpeg;
     C_addToPath ["ffmpeg"; "ffmpeg-master-latest-win64-gpl"; "bin"; "ffmpeg.exe"]].
Proof.
  assert (Honline : exec_ffmpeg_version Scenario.online <> Exited 0)
    by discriminate.
  split; [| split].
  - destruct (main_runs_stages_in_order Scenario.on_path
                (Scenario.start Scenario.fresh)) as (Hfirst & _ & _).
    exact (Hfirst eq_refl).
  - destruct (main_runs_stages_in_order Scenario.online
                (Scenario.start Scenario.installed)) as (_ & Hsecond & _).
    exact (Hsecond Honline eq_refl).
  - destruct (main_runs_stages_in_order Scenario.online
                (Scenario.start Scenario.fresh)) as (_ & _ & Hthird).
    destruct (Hthird Honline eq_refl) as (rest & Hrun & _ & _ & _ & Hall).
    rewrite Hrun.
    rewrite (Hall
               (snd (downloadFfmpeg Scenario.online
                       (at_download (Scenario.start Scenario.fresh))))
               (snd (extractFfmpeg Scenario.online
                       (snd (downloadFfmpeg Scenario.online
                               (at_download (Scenario.start Scenario.fresh))))))
               ["ffmpeg"; "ffmpeg-master-latest-win64-gpl"; "bin"; "ffmpeg.exe"]
               eq_refl eq_refl eq_refl).
    reflexivity.
Defined.

(* ================================================================== *)
(** * Further properties of the script *)

(** ** The search stays below its directory *)

Section SearchScope.
Variable fs : dir.

(** Every directory the search lists is a directory at or below the one it
    was given. *)
Lemma search_items_log_scope
    (recur : path -> option (list path * completion (option path)))
    (d : path) (es : dir) (items : list string) :
  lookup (Dir fs) d = Some (Dir es) ->
  (forall item seen r,
     recur (join d [item]) = Some (seen, r) ->
     forall v, In v seen ->
       exists q sub, v = join d [item] ++ q /\ lookup (Dir fs) v = Some (Dir sub)) ->
  incl items (map fst es) ->
  forall seen r,
    search_items_log fs recur d items = Some (seen, r) ->
    forall v, In v seen ->
      exists q sub, v = d ++ q /\ q <> [] /\ lookup (Dir fs) v = Some (Dir sub).
Proof.
  intros Hd Hrec. induction items as [| item rest IH]; intros Hin seen r.
  - simpl. intros [= <- _] v [].
  - assert (Hrest : incl rest (map fst es))
      by (intros x Hx; apply Hin; right; exact Hx).
    assert (Hdeep : forall seen0 r0,
              recur (join d [item]) = Some (seen0, r0) ->
              forall v, In v seen0 ->
                exists q sub, v = d ++ q /\ q <> [] /\
                              lookup (Dir fs) v = Some (Dir sub)).
    { intros seen0 r0 Hr v Hv.
      destruct (Hrec _ _ _ Hr v Hv) as (q & sub & -> & Hsub).
      exists ([item] ++ q), sub. unfold join. rewrite <- app_assoc.
      split; [reflexivity |]. split; [discriminate | ].
      unfold join in Hsub. rewrite <- app_assoc in Hsub. exact Hsub. }
    destruct (In_names_assoc item es (Hin item (or_introl eq_refl)))
      as [[data | sub] Hi].
    + rewrite (search_items_log_file fs recur _ _ _ rest _ Hd Hi).
      destruct (String.eqb item ffmpeg_exe); [| apply (IH Hrest)].
      intros [= <- _] v [].
    + rewrite (search_items_log_dir fs recur _ _ _ rest _ Hd Hi).
      destruct (_ && _); [intros [= <- _] v [] |].
      destruct (recur (join d [item])) as [[seen0 [[p0 |] | e]] |] eqn:Hr;
        try discriminate.
      * intros [= <- _]. exact (Hdeep _ _ eq_refl).
      * destruct (search_items_log fs recur d rest) as [[seen' r'] |] eqn:Hs;
          [| discriminate].
        intros [= <- _] v Hv. apply in_app_or in Hv. destruct Hv as [Hv | Hv].
        -- exact (Hdeep _ _ eq_refl v Hv).
        -- exact (IH Hrest _ _ eq_refl v Hv).
      * intros [= <- _]. exact (Hdeep _ _ eq_refl).
Qed.

Lemma findFfmpegExePath_log_scope (fuel : nat) (d : path)
    (seen : list path) (r : completion (option path)) :
  findFfmpegExePath_log fs fuel d = Some (seen, r) ->
  forall v, In v seen ->
    exists q sub, v = d ++ q /\ lookup (Dir fs) v = Some (Dir sub).
Proof.
  revert d seen r. induction fuel as [| fuel IH]; intros d seen r; simpl;
    [discriminate |].
  destruct (readdirSync fs d) as [items | e] eqn:Hread;
    [| intros [= <- _] v []].
  destruct (readdirSync_Normal fs _ _ Hread) as (es & Hd & ->).
  destruct (search_items_log fs (findFfmpegExePath_log fs fuel) d (map fst es))
    as [[seen0 r0] |] eqn:Hs; [| discriminate].
  intros [= <- _] v [<- | Hv].
  - exists [], es. rewrite app_nil_r. auto.
  - destruct (search_items_log_scope (findFfmpegExePath_log fs fuel) d es
                (map fst es) Hd) with (seen := seen0) (r := r0) (v := v)
      as (q & sub & Hq & _ & Hsub); auto.
    + intros item seen1 r1 Hr v1 Hv1. exact (IH _ _ _ Hr v1 Hv1).
    + apply incl_refl.
    + eauto.
Qed.
End SearchScope.

(** A search that finds nothing has met no directory [bin] that holds an
    entry [ffmpeg.exe]. *)
Lemma search_items_log_none_bin (fs : dir)
    (recur : path -> option (list path * completion (option path)))
    (d : path) (es : dir) (items : list string) (sub : dir) :
  lookup (Dir fs) d = Some (Dir es) ->
  assoc bin es = Some (Dir sub) ->
  incl items (map fst es) ->
  forall seen,
    search_items_log fs recur d items = Some (seen, Normal None) ->
    In bin items ->
    assoc ffmpeg_exe sub = None.
Proof.
  intros Hd Hbin. induction items as [| item rest IH]; intros Hin seen Hs Hb.
  - destruct Hb.
  - assert (Hrest : incl rest (map fst es))
      by (intros x Hx; apply Hin; right; exact Hx).
    destruct (In_names_assoc item es (Hin item (or_introl eq_refl)))
      as [[data | sub0] Hi].
    + rewrite (search_items_log_file fs recur _ _ _ rest _ Hd Hi) in Hs.
      destruct (String.eqb item ffmpeg_exe); [discriminate |].
      destruct Hb as [-> | Hb]; [congruence | exact (IH Hrest _ Hs Hb)].
    + rewrite (search_items_log_dir fs recur _ _ _ rest _ Hd Hi) in Hs.
      destruct (String.eqb_spec item bin) as [-> | Hne]; cbn [andb] in Hs.
      * rewrite Hbin in Hi. injection Hi as <-.
        destruct (assoc ffmpeg_exe sub); [discriminate | reflexivity].
      * destruct Hb as [-> | Hb]; [congruence |].
        destruct (recur (join d [item])) as [[seen0 [[p0 |] | e]] |];
          try discriminate.
        destruct (search_items_log fs recur d rest) as [[seen' r] |] eqn:Hs';
          [| discriminate].
        injection Hs as _ ->. exact (IH Hrest _ eq_refl Hb).
Qed.

(** ** What the search returns *)

(** X5: the search never leaves the directory it is given: every directory
    it lists is that directory or a directory below it, and a path it
    returns lies strictly below it. *)
Theorem findFfmpegExePath_stays_below
    (fs : dir) (fuel : nat) (d : path) (seen : list path)
    (r : completion (option path)) :
  findFfmpegExePath_log fs fuel d = Some (seen, r) ->
  (forall v, In v seen ->
     exists q sub, v = d ++ q /\ lookup (Dir fs) v = Some (Dir sub)) /\
  (forall p, r = Normal (Some p) -> exists q, p = d ++ q /\ q <> []).
Proof.
  intros Hlog. split.
  - exact (findFfmpegExePath_log_scope fs fuel d seen r Hlog).
  - intros p ->.
    destruct (findFfmpegExePath_log_sound _ _ _ _ _ Hlog)
      as (v & q & _ & -> & es & _ & [(-> & _) | (-> & _)]).
    + exists (q ++ [ffmpeg_exe]). unfold join. rewrite <- app_assoc.
      split; [reflexivity |]. destruct q; discriminate.
    + exists (q ++ [bin; ffmpeg_exe]). unfold join. rewrite <- !app_assoc.
      split; [reflexivity |]. destruct q; discriminate.
Qed.

Lemma findFfmpegExePath_stays_below_witness :
  (forall v,
     In v [["ffmpeg"]; ["ffmpeg"; "tools"]; ["ffmpeg"; "tools"; "win64"]] ->
     exists q sub,
       v = ffmpegDir ++ q /\
       lookup (Dir (Scenario.extracted Scenario.plain)) v = Some (Dir sub)) /\
  (forall p,
     Normal (Some ["ffmpeg"; "tools"; "win64"; "ffmpeg.exe"]) = Normal (Some p) ->
     exists q, p = ffmpegDir ++ q /\ q <> []).
Proof.
  apply (findFfmpegExePath_stays_below (Scenario.extracted Scenario.plain) 4
           ffmpegDir).
  reflexivity.
Defined.

(** X6: a path the search returns is a regular file, unless the search took
    it from a directory named [bin]: only there is the entry [ffmpeg.exe]
    returned without a look at its kind. *)
Theorem findFfmpegExePath_file_or_in_bin
    (fs : dir) (fuel : nat) (d p : path) :
  findFfmpegExePath fs fuel d = Some (Normal (Some p)) ->
  (exists data, lookup (Dir fs) p = Some (File data)) \/
  (basename (dirname p) = bin /\
   exists sub, lookup (Dir fs) (dirname p) = Some (Dir sub)).
Proof.
  intros H. destruct (findFfmpegExePath_log_Some _ _ _ _ H) as (seen & Hlog).
  destruct (findFfmpegExePath_log_sound _ _ _ _ _ Hlog)
    as (v & q & _ & _ & es & _ & [(-> & _ & Hfile) | (-> & Hbin & _)]).
  - left. exact Hfile.
  - right. unfold dirname, join at 1 3. rewrite !removelast_last.
    split; [apply basename_join_one | exact Hbin].
Qed.

Lemma findFfmpegExePath_file_or_in_bin_witness :
  lookup (Dir (Scenario.extracted Scenario.odd)) ["ffmpeg"; "bin"; "ffmpeg.exe"]
    = Some (Dir []) /\
  ((exists data,
      lookup (Dir (Scenario.extracted Scenario.odd))
        ["ffmpeg"; "bin"; "ffmpeg.exe"] = Some (File data)) \/
   (basename (dirname ["ffmpeg"; "bin"; "ffmpeg.exe"]) = bin /\
    exists sub,
      lookup (Dir (Scenario.extracted Scenario.odd))
        (dirname ["ffmpeg"; "bin"; "ffmpeg.exe"]) = Some (Dir sub))).
Proof.
  split; [reflexivity |].
  apply (findFfmpegExePath_file_or_in_bin (Scenario.extracted Scenario.odd) 3
           ffmpegDir).
  reflexivity.
Defined.

(** X7: the search never misses what the local-cache probe finds: below a
    directory that has a directory [bin] with an entry [ffmpeg.exe], the
    search never answers "not found", whatever its fuel; it ends, and with
    a path or an error. *)
Theorem findFfmpegExePath_never_null_when_bin_has_exe
    (fs : dir) (d : path) (es sub : dir) (n : node) :
  lookup (Dir fs) d = Some (Dir es) ->
  assoc bin es = Some (Dir sub) ->
  assoc ffmpeg_exe sub = Some n ->
  (forall fuel, findFfmpegExePath fs fuel d <> Some (Normal None)) /\
  exists c,
    findFfmpegExePath fs (search_fuel fs d) d = Some c /\ c <> Normal None.
Proof.
  intros Hd Hbin Hexe.
  assert (Hnever : forall fuel seen,
            findFfmpegExePath_log fs fuel d <> Some (seen, Normal None)).
  { intros [| h] seen Hlog; simpl in Hlog; [discriminate |].
    rewrite (readdirSync_dir fs _ _ Hd) in Hlog.
    destruct (search_items_log fs (findFfmpegExePath_log fs h) d (map fst es))
      as [[seen0 r0] |] eqn:Hs; [| discriminate].
    injection Hlog as _ ->.
    pose proof (search_items_log_none_bin fs _ d es (map fst es) sub Hd Hbin
                  (incl_refl _) seen0 Hs (assoc_In_names _ _ _ Hbin)) as Hnone.
    congruence. }
  split.
  - intros fuel Hnone.
    destruct (findFfmpegExePath_log_Some fs fuel d _ Hnone) as (seen & Hlog).
    exact (Hnever fuel seen Hlog).
  - destruct (findFfmpegExePath_returns fs d es Hd) as (seen & r & Hlog & Hfind).
    exists (Normal r). split; [exact Hfind |].
    intros [= ->]. exact (Hnever _ _ Hlog).
Qed.

Lemma findFfmpegExePath_never_null_when_bin_has_exe_witness :
  (forall fuel,
     findFfmpegExePath Scenario.installed fuel ffmpegDir <> Some (Normal None)) /\
  exists c,
    findFfmpegExePath Scenario.installed
      (search_fuel Scenario.installed ffmpegDir) ffmpegDir = Some c /\
    c <> Normal None.
Proof.
  apply (findFfmpegExePath_never_null_when_bin_has_exe Scenario.installed
           ffmpegDir
           [("bin", Dir [("ffmpeg.exe", File "MZ")])]
           [("ffmpeg.exe", File "MZ")] (File "MZ"));
    reflexivity.
Defined.

(** ** Entries the stages do not touch *)

Lemma lookup_set_entry_other (k c : string) (n : node) (es : dir) (q : path) :
  c <> k ->
  lookup (Dir (set_entry k n es)) (c :: q) = lookup (Dir es) (c :: q).
Proof. intros H. simpl. rewrite (assoc_set_entry_other k c n es H). reflexivity. Qed.

Lemma lookup_remove_entry_other (k c : string) (es : dir) (q : path) :
  c <> k ->
  lookup (Dir (remove_entry k es)) (c :: q) = lookup (Dir es) (c :: q).
Proof. intros H. simpl. rewrite (assoc_remove_entry_other k c es H). reflexivity. Qed.

Lemma unlink_downloadPath_inv (fs fs' : dir) :
  unlink downloadPath fs = Some fs' ->
  fs' = remove_entry "ffmpeg-download.zip" fs.
Proof.
  unfold downloadPath, __dirname, join. simpl.
  destruct (assoc "ffmpeg-download.zip" fs) as [[d | sub] |]; congruence.
Qed.

Lemma mkdir_p_ffmpegDir_inv (fs fs' : dir) :
  mkdir_p ffmpegDir fs = Some fs' ->
  exists sub, fs' = set_entry "ffmpeg" (Dir sub) fs.
Proof.
  rewrite mkdir_p_ffmpegDir.
  destruct (assoc "ffmpeg" fs) as [[d | sub] |]; intros [= <-]; eauto.
Qed.

Lemma place_ffmpegDir_inv (n : node) (fs fs' : dir) :
  place ffmpegDir n fs = Some fs' -> fs' = set_entry "ffmpeg" n fs.
Proof. rewrite place_ffmpegDir. congruence. Qed.

(** Bring what the case analysis has learnt about the files to the entries
    they set or remove. *)
Ltac fs_norm :=
  repeat match goal with
    | H : write downloadPath _ _ = Some _ |- _ =>
        apply write_downloadPath_inv in H; subst
    | H : unlink downloadPath _ = Some _ |- _ =>
        apply unlink_downloadPath_inv in H; subst
    | H : mkdir_p ffmpegDir _ = Some _ |- _ =>
        apply mkdir_p_ffmpegDir_inv in H; destruct H as (? & H); subst
    | H : place ffmpegDir _ _ = Some _ |- _ =>
        apply place_ffmpegDir_inv in H; subst
    end.

(** ** The download stage, further *)

(** The download stage changes no entry of the directory of the script
    but the destination file. *)
Lemma downloadFfmpeg_elsewhere (env : Env) (w : World) (c : string) (q : path) :
  c <> "ffmpeg-download.zip" ->
  lookup (Dir (files (snd (downloadFfmpeg env w)))) (c :: q)
  = lookup (Dir (files w)) (c :: q).
Proof.
  intros Hc. destruct w as [fs out cs]. run. crunch; fs_norm;
    rewrite ?(lookup_remove_entry_other _ _ _ _ Hc),
            ?(lookup_set_entry_other _ _ _ _ _ Hc);
    reflexivity.
Qed.

(** X1: what the download makes of a response of status 200, when no
    directory bears the name of the destination.  If the whole body arrives
    and is written, the download returns: the destination holds exactly
    the body, "Download complete!" is printed and nothing was unlinked.
    If the body is cut, the file never finishes and the promise of the
    download never settles: the destination holds what was received,
    "Download complete!" is not printed, and the script waits, until stdin
    ends if it does, and then the process ends with code 0.  Either way no
    other entry of the directory has changed. *)
Theorem downloadFfmpeg_writes_body (env : Env) (w : World) (body : string) :
  (forall sub, lookup (Dir (files w)) downloadPath <> Some (Dir sub)) ->
  (https_get env = Response 200 body ->
   exists w',
     downloadFfmpeg env w = (Return tt, w') /\
     lookup (Dir (files w')) downloadPath = Some (File body) /\
     (forall c q, c <> "ffmpeg-download.zip" ->
        lookup (Dir (files w')) (c :: q) = lookup (Dir (files w)) (c :: q)) /\
     console w' = console w ++ [L_Downloading; L_DownloadComplete] /\
     calls w' = calls w ++ [C_downloadFfmpeg]) /\
  (https_get env = ResponseCut 200 body ->
   exists w',
     downloadFfmpeg env w = (if stdin_eof env then Quit 0 else Halt, w') /\
     lookup (Dir (files w')) downloadPath = Some (File body) /\
     (forall c q, c <> "ffmpeg-download.zip" ->
        lookup (Dir (files w')) (c :: q) = lookup (Dir (files w)) (c :: q)) /\
     console w' = console w ++ [L_Downloading] /\
     calls w' = calls w ++ [C_downloadFfmpeg]).
Proof.
  intros Hw.
  assert (Helse : forall c q, c <> "ffmpeg-download.zip" ->
            lookup (Dir (files (snd (downloadFfmpeg env w)))) (c :: q)
            = lookup (Dir (files w)) (c :: q))
    by (intros c q; apply downloadFfmpeg_elsewhere).
  destruct w as [fs out cs]. cbn [files] in Hw.
  assert (Hw' : forall sub,
            lookup (Dir (set_entry "ffmpeg-download.zip" (File "") fs)) downloadPath
            <> Some (Dir sub)).
  { intros sub. rewrite lookup_downloadPath, assoc_set_entry_same. discriminate. }
  split; intros Hget; revert Helse; run;
    rewrite (write_downloadPath "" fs Hw), Hget; red_world; cbn [Nat.eqb negb];
    red_world; rewrite (write_downloadPath body _ Hw'); red_world.
  - intros Helse. eexists. split; [reflexivity |]. red_world.
    rewrite lookup_downloadPath, assoc_set_entry_same, <- !app_assoc.
    repeat split. exact Helse.
  - destruct (stdin_eof env); red_world; intros Helse;
      (eexists; split; [reflexivity |]); red_world;
      rewrite lookup_downloadPath, assoc_set_entry_same;
      repeat split; exact Helse.
Qed.

Lemma downloadFfmpeg_writes_body_witness :
  (exists w',
     downloadFfmpeg Scenario.online (Scenario.start Scenario.fresh)
       = (Return tt, w') /\
     lookup (Dir (files w')) downloadPath = Some (File "PK") /\
     (forall c q, c <> "ffmpeg-download.zip" ->
        lookup (Dir (files w')) (c :: q) = lookup (Dir Scenario.fresh) (c :: q)) /\
     console w' = [L_Downloading; L_DownloadComplete] /\
     calls w' = [C_downloadFfmpeg]) /\
  (exists w',
     downloadFfmpeg Scenario.cut (Scenario.start Scenario.fresh)
       = (Halt, w') /\
     lookup (Dir (files w')) downloadPath = Some (File "P") /\
     (forall c q, c <> "ffmpeg-download.zip" ->
        lookup (Dir (files w')) (c :: q) = lookup (Dir Scenario.fresh) (c :: q)) /\
     console w' = [L_Downloading] /\
     calls w' = [C_downloadFfmpeg]).
Proof.
  assert (Hfree : forall sub,
            lookup (Dir (files (Scenario.start Scenario.fresh))) downloadPath
            <> Some (Dir sub))
    by (intros sub; vm_compute; discriminate).
  split.
  - exact (proj1 (downloadFfmpeg_writes_body Scenario.online
                    (Scenario.start Scenario.fresh) "PK" Hfree) eq_refl).
  - exact (proj2 (downloadFfmpeg_writes_body Scenario.cut
                    (Scenario.start Scenario.fresh) "P" Hfree) eq_refl).
Defined.

(** X2: when the request emits ['error'], the download unlinks the
    destination file once and throws the error of the request, whatever
    becomes of the unlinking: if the unlinking is refused, the refusal is
    dropped and the empty file stays; otherwise the file is gone. *)
Theorem downloadFfmpeg_request_error_unlinks
    (env : Env) (w : World) (err : Error) :
  https_get env = RequestError err ->
  (forall sub, lookup (Dir (files w)) downloadPath <> Some (Dir sub)) ->
  exists w',
    downloadFfmpeg env w = (Throw err, w') /\
    calls w' = calls w ++ [C_downloadFfmpeg; C_unlink downloadPath] /\
    console w' = console w ++ [L_Downloading] /\
    lookup (Dir (files w')) downloadPath =
      match unlink_refused env with
      | Some _ => Some (File "")
      | None => None
      end.
Proof.
  intros Hget Hw. destruct w as [fs out cs]. run. cbn [files] in Hw.
  rewrite (write_downloadPath "" fs Hw), Hget. red_world.
  destruct (unlink_refused env) as [e |]; red_world.
  - eexists. split; [reflexivity |]. red_world.
    rewrite <- app_assoc, lookup_downloadPath, assoc_set_entry_same.
    repeat split.
  - rewrite (unlink_downloadPath _ "" (lookup_set_entry_same _ _ _)). red_world.
    eexists. split; [reflexivity |]. red_world.
    rewrite <- app_assoc, lookup_remove_downloadPath. repeat split.
Qed.

Lemma downloadFfmpeg_request_error_unlinks_witness :
  (exists w',
     downloadFfmpeg Scenario.offline (Scenario.start Scenario.fresh)
       = (Throw (mkError "getaddrinfo ENOTFOUND github.com"), w') /\
     calls w' = [C_downloadFfmpeg; C_unlink downloadPath] /\
     console w' = [L_Downloading] /\
     lookup (Dir (files w')) downloadPath = None) /\
  (exists w',
     downloadFfmpeg Scenario.offline_locked (Scenario.start Scenario.fresh)
       = (Throw (mkError "getaddrinfo ENOTFOUND github.com"), w') /\
     calls w' = [C_downloadFfmpeg; C_unlink downloadPath] /\
     console w' = [L_Downloading] /\
     lookup (Dir (files w')) downloadPath = Some (File "")).
Proof.
  split.
  - apply (downloadFfmpeg_request_error_unlinks Scenario.offline
             (Scenario.start Scenario.fresh)).
    + reflexivity.
    + intros sub. vm_compute. discriminate.
  - apply (downloadFfmpeg_request_error_unlinks Scenario.offline_locked
             (Scenario.start Scenario.fresh)).
    + reflexivity.
    + intros sub. vm_compute. discriminate.
Defined.

(** ** The extraction stage, further *)

(** Making the install root and extracting into it change no entry of the
    directory of the script but the install root. *)
Lemma prepare_and_extract_elsewhere (env : Env) (w : World) (c : string) (q : path) :
  c <> "ffmpeg" ->
  lookup (Dir (files (snd (prepare_and_extract env w)))) (c :: q)
  = lookup (Dir (files w)) (c :: q).
Proof.
  intros Hc. destruct w as [fs out cs]. run. crunch; fs_norm;
    rewrite ?(lookup_set_entry_other _ _ _ _ _ Hc);
    reflexivity.
Qed.

(** They leave the install root a directory if it was one, and make it one
    if it was missing and [fs.mkdirSync] is not refused. *)
Lemma prepare_and_extract_root (env : Env) (w : World) :
  (exists es, lookup (Dir (files w)) ffmpegDir = Some (Dir es)) \/
  (lookup (Dir (files w)) ffmpegDir = None /\ mkdirSync_refused env = None) ->
  exists es,
    lookup (Dir (files (snd (prepare_and_extract env w)))) ffmpegDir
    = Some (Dir es).
Proof.
  destruct w as [fs out cs]. cbn [files]. rewrite lookup_ffmpegDir.
  intros Hroot. run. unfold existsSync. rewrite ?lookup_ffmpegDir.
  crunch; fs_norm; rewrite ?lookup_ffmpegDir in *;
    rewrite ?assoc_set_entry_same in *; tidy;
    try (destruct Hroot as [(es & Hroot) | (Hroot & Hfree)]);
    try congruence; eauto.
  all: try (cbn [negb] in *; discriminate).
  all: try (eexists; reflexivity).
  all: try match goal with
       | H : overlay _ (Dir _) _ = Normal ?m |- _ =>
           destruct (overlay_Dir _ _ _ _ H) as [es' ->]; eauto
       end.
  match goal with
  | H : mkdir_p ffmpegDir _ = None, H' : assoc "ffmpeg" _ = None |- _ =>
      rewrite mkdir_p_ffmpegDir, H' in H; discriminate
  end.
Qed.

(** The stage when the extraction itself fails: the error is logged and
    thrown again, and nothing else is done. *)
Lemma extractFfmpeg_prepare_throw (env : Env) (w wx : World) (e : Error) :
  prepare_and_extract env (entered w) = (Throw e, wx) ->
  extractFfmpeg env w =
  (Throw e,
   mkWorld (files wx) (console wx ++ [L_ErrorExtracting (message e)]) (calls wx)).
Proof.
  intros H. unfold extractFfmpeg.
  unfold bind at 1 2 3. unfold try_catch at 1. unfold called, log. red_world.
  change (mkWorld (files w) (console w ++ [L_Extracting])
            (calls w ++ [C_extractFfmpeg])) with (entered w).
  rewrite H. destruct wx as [fs out cs]. run. reflexivity.
Qed.

(** The extraction never stays pending, and it prints one line when it
    succeeds and none when it fails. *)
Lemma prepare_and_extract_frame (env : Env) (w : World) :
  fst (prepare_and_extract env w) <> Halt /\
  calls (snd (prepare_and_extract env w)) = calls w /\
  console (snd (prepare_and_extract env w)) =
    console w ++
    match fst (prepare_and_extract env w) with
    | Return _ => [L_ExtractionComplete]
    | _ => []
    end.
Proof.
  destruct w as [fs out cs]. run.
  crunch; rewrite ?app_nil_r; repeat split; discriminate.
Qed.

(** Nor does the process end under it. *)
Lemma prepare_and_extract_no_quit (env : Env) (w : World) (code : nat) :
  fst (prepare_and_extract env w) <> Quit code.
Proof.
  destruct w as [fs out cs]. run. crunch; discriminate.
Qed.

(** A path the search picks up exists and bears the name of the
    executable. *)
Lemma found_at_exists (fs : dir) (v p : path) :
  found_at fs v p -> basename p = ffmpeg_exe /\ existsSync fs p = true.
Proof.
  intros (es & _ & [(-> & _ & data & Hfile) | (-> & _ & Hex)]).
  - split; [apply basename_join_one |].
    unfold existsSync. rewrite Hfile. reflexivity.
  - split; [apply basename_join_one | exact Hex].
Qed.

(** How the stage can return: the extraction succeeded, the archive was
    deleted, and the search found the path. *)
Lemma extractFfmpeg_Return_inv (env : Env) (w w' : World) (exe : path) :
  extractFfmpeg env w = (Return exe, w') ->
  exists wx,
    prepare_and_extract env (entered w) = (Return tt, wx) /\
    unlinkSync_refused env = None /\
    findFfmpegExePath (files wx) (search_fuel (files wx) ffmpegDir) ffmpegDir
      = Some (Normal (Some exe)) /\
    w' = mkWorld (remove_entry "ffmpeg-download.zip" (files wx))
           (console wx ++ [L_CleanedUp])
           (calls wx ++ [C_unlinkSync downloadPath; C_findFfmpegExePath ffmpegDir]).
Proof.
  intros Hrun.
  pose proof (prepare_and_extract_frame env (entered w)) as (Hnohalt & _).
  destruct (prepare_and_extract env (entered w)) as [[[] | e | | code] wx] eqn:Hp.
  - destruct (unlinkSync_refused env) as [e |] eqn:Hfree.
    + rewrite (extractFfmpeg_unlink_refused env w wx e Hp Hfree) in Hrun.
      discriminate.
    + destruct (extractFfmpeg_cleaned env w wx Hp Hfree) as (r & Hfind & Hrun').
      rewrite Hrun' in Hrun. destruct r as [exe0 |]; [| discriminate].
      injection Hrun as -> <-. exists wx. auto.
  - rewrite (extractFfmpeg_prepare_throw env w wx e Hp) in Hrun. discriminate.
  - destruct Hnohalt. reflexivity.
  - destruct (prepare_and_extract_no_quit env (entered w) code).
    rewrite Hp. reflexivity.
Qed.

(** X3: when the extraction itself fails (the install root cannot be made,
    the archive cannot be read or decoded), [extractFfmpeg] logs the error
    once, throws the same error, and stops there: it calls neither
    [fs.unlinkSync] nor the search, and the archive is left as it was. *)
Theorem extractFfmpeg_failure_keeps_archive
    (env : Env) (w wx : World) (e : Error) :
  prepare_and_extract env (entered w) = (Throw e, wx) ->
  fst (extractFfmpeg env w) = Throw e /\
  console (snd (extractFfmpeg env w)) =
    console w ++ [L_Extracting; L_ErrorExtracting (message e)] /\
  calls (snd (extractFfmpeg env w)) = calls w ++ [C_extractFfmpeg] /\
  lookup (Dir (files (snd (extractFfmpeg env w)))) downloadPath
    = lookup (Dir (files w)) downloadPath.
Proof.
  intros Hp. rewrite (extractFfmpeg_prepare_throw env w wx e Hp).
  cbn [fst snd files console calls].
  pose proof (prepare_and_extract_frame env (entered w)) as (_ & Hcalls & Hout).
  pose proof (prepare_and_extract_elsewhere env (entered w)
                "ffmpeg-download.zip" [] zip_is_not_root) as Hzip.
  rewrite Hp in Hcalls, Hout, Hzip.
  cbn [fst snd entered files console calls] in Hcalls, Hout, Hzip.
  rewrite Hout, Hcalls, app_nil_r, <- app_assoc.
  repeat split. exact Hzip.
Qed.

Lemma extractFfmpeg_failure_keeps_archive_witness :
  fst (extractFfmpeg Scenario.corrupt Scenario.downloaded)
    = Throw (mkError "End of central directory not found") /\
  console (snd (extractFfmpeg Scenario.corrupt Scenario.downloaded)) =
    [L_Extracting; L_ErrorExtracting "End of central directory not found"] /\
  calls (snd (extractFfmpeg Scenario.corrupt Scenario.downloaded))
    = [C_extractFfmpeg] /\
  lookup (Dir (files (snd (extractFfmpeg Scenario.corrupt Scenario.downloaded))))
    downloadPath = Some (File "PK").
Proof.
  exact (extractFfmpeg_failure_keeps_archive Scenario.corrupt Scenario.downloaded
           (snd (prepare_and_extract Scenario.corrupt (entered Scenario.downloaded)))
           (mkError "End of central directory not found") eq_refl).
Defined.

(** The path the stage returns was found by the search: it lies strictly
    below the install root, bears the name of the executable and exists
    once the archive is deleted. *)
Lemma extractFfmpeg_Return_found (env : Env) (w w' : World) (exe : path) :
  extractFfmpeg env w = (Return exe, w') ->
  basename exe = ffmpeg_exe /\
  (exists q, exe = ffmpegDir ++ q /\ q <> []) /\
  existsSync (files w') exe = true.
Proof.
  intros Hrun.
  destruct (extractFfmpeg_Return_inv env w w' exe Hrun)
    as (wx & Hp & _ & Hfind & ->).
  destruct (findFfmpegExePath_log_Some _ _ _ _ Hfind) as (seen & Hlog).
  destruct (findFfmpegExePath_log_sound _ _ _ _ _ Hlog) as (v & q & _ & -> & Hf).
  destruct (found_at_exists _ _ _ Hf) as (Hbase & Hex).
  assert (Hbelow : exists q', exe = ffmpegDir ++ q' /\ q' <> []).
  { destruct Hf as (es & _ & [(-> & _) | (-> & _)]); unfold join.
    - exists (q ++ [ffmpeg_exe]). rewrite <- app_assoc.
      split; [reflexivity | destruct q; discriminate].
    - exists (q ++ [bin; ffmpeg_exe]). rewrite <- !app_assoc.
      split; [reflexivity | destruct q; discriminate]. }
  split; [exact Hbase |]. split; [exact Hbelow |].
  destruct Hbelow as (q' & -> & _). cbn [files]. unfold existsSync in *.
  change (ffmpegDir ++ q') with ("ffmpeg" :: q') in *.
  rewrite (lookup_remove_entry_other _ _ _ _ root_is_not_zip). exact Hex.
Qed.

(** X4: when [extractFfmpeg] returns a path, the path lies strictly below
    the install root, its last component is [ffmpeg.exe], it exists in the
    file system the stage leaves, and the archive is gone from it; the
    stage has printed its three progress lines and no error. *)
Theorem extractFfmpeg_returns_existing_exe
    (env : Env) (w w' : World) (exe : path) :
  extractFfmpeg env w = (Return exe, w') ->
  basename exe = ffmpeg_exe /\
  (exists q, exe = ffmpegDir ++ q /\ q <> []) /\
  existsSync (files w') exe = true /\
  existsSync (files w') downloadPath = false /\
  console w' =
    console w ++ [L_Extracting; L_ExtractionComplete; L_CleanedUp] /\
  calls w' =
    calls w ++ [C_extractFfmpeg; C_unlinkSync downloadPath;
                C_findFfmpegExePath ffmpegDir].
Proof.
  intros Hrun.
  destruct (extractFfmpeg_Return_found env w w' exe Hrun)
    as (Hbase & Hbelow & Hex).
  destruct (extractFfmpeg_Return_inv env w w' exe Hrun)
    as (wx & Hp & _ & _ & ->).
  pose proof (prepare_and_extract_frame env (entered w)) as (_ & Hcalls & Hout).
  rewrite Hp in Hcalls, Hout. cbn [fst snd entered console calls] in Hcalls, Hout.
  cbn [files console calls] in *. rewrite Hout, Hcalls, <- !app_assoc.
  repeat split; auto.
  unfold existsSync. rewrite lookup_remove_downloadPath. reflexivity.
Qed.

Lemma extractFfmpeg_returns_existing_exe_witness :
  basename ["ffmpeg"; "ffmpeg-master-latest-win64-gpl"; "bin"; "ffmpeg.exe"]
    = ffmpeg_exe /\
  existsSync (files (snd (extractFfmpeg Scenario.online Scenario.downloaded)))
    ["ffmpeg"; "ffmpeg-master-latest-win64-gpl"; "bin"; "ffmpeg.exe"] = true /\
  existsSync (files (snd (extractFfmpeg Scenario.online Scenario.downloaded)))
    downloadPath = false.
Proof.
  destruct (extractFfmpeg_returns_existing_exe Scenario.online
              Scenario.downloaded
              (snd (extractFfmpeg Scenario.online Scenario.downloaded))
              ["ffmpeg"; "ffmpeg-master-latest-win64-gpl"; "bin"; "ffmpeg.exe"]
              eq_refl) as (Hbase & _ & Hexe & Hzip & _).
  auto.
Defined.

(** ** The whole run *)

(** The files the extraction stage leaves: those of the extraction, with
    or without the archive. *)
Lemma extractFfmpeg_files (env : Env) (w : World) :
  files (snd (extractFfmpeg env w))
    = files (snd (prepare_and_extract env (entered w))) \/
  files (snd (extractFfmpeg env w))
    = remove_entry "ffmpeg-download.zip"
        (files (snd (prepare_and_extract env (entered w)))).
Proof.
  pose proof (prepare_and_extract_frame env (entered w)) as (Hnohalt & _).
  destruct (prepare_and_extract env (entered w)) as [[[] | e | | code] wx] eqn:Hp.
  - destruct (unlinkSync_refused env) as [e |] eqn:Hfree.
    + rewrite (extractFfmpeg_unlink_refused env w wx e Hp Hfree). left. reflexivity.
    + destruct (extractFfmpeg_cleaned env w wx Hp Hfree) as (r & _ & ->).
      right. reflexivity.
  - rewrite (extractFfmpeg_prepare_throw env w wx e Hp). left. reflexivity.
  - destruct Hnohalt. reflexivity.
  - destruct (prepare_and_extract_no_quit env (entered w) code).
    rewrite Hp. reflexivity.
Qed.

(** The extraction stage changes no entry of the directory of the script
    but the archive and the install root. *)
Lemma extractFfmpeg_elsewhere (env : Env) (w : World) (c : string) (q : path) :
  c <> "ffmpeg-download.zip" -> c <> "ffmpeg" ->
  lookup (Dir (files (snd (extractFfmpeg env w)))) (c :: q)
  = lookup (Dir (files w)) (c :: q).
Proof.
  intros Hzip Hroot.
  pose proof (prepare_and_extract_elsewhere env (entered w) c q Hroot) as Hp.
  cbn [entered files] in Hp.
  destruct (extractFfmpeg_files env w) as [-> | ->]; [exact Hp |].
  rewrite (lookup_remove_entry_other _ _ _ _ Hzip). exact Hp.
Qed.

(** It leaves the install root a directory if it was one. *)
Lemma extractFfmpeg_root (env : Env) (w : World) (es : dir) :
  lookup (Dir (files w)) ffmpegDir = Some (Dir es) ->
  exists es',
    lookup (Dir (files (snd (extractFfmpeg env w)))) ffmpegDir = Some (Dir es').
Proof.
  intros Hroot.
  destruct (prepare_and_extract_root env (entered w)) as (es' & Hp);
    [left; eauto |].
  exists es'. destruct (extractFfmpeg_files env w) as [-> | ->]; [exact Hp |].
  change ffmpegDir with ("ffmpeg" :: []) in *.
  rewrite (lookup_remove_entry_other _ _ _ _ root_is_not_zip). exact Hp.
Qed.

(** The files [install] leaves are those the extraction stage leaves, or
    those of the download when it does not return. *)
Lemma install_files (env : Env) (wd : World) :
  files (snd (install env wd)) = files (snd (downloadFfmpeg env wd)) \/
  files (snd (install env wd))
    = files (snd (extractFfmpeg env (snd (downloadFfmpeg env wd)))).
Proof.
  destruct (install env wd) as [r w'] eqn:Hi. unfold install in Hi.
  unfold bind at 1 in Hi.
  destruct (downloadFfmpeg env wd) as [[u | e | | code] w1]; cbn [snd];
    try (injection Hi as _ <-; left; reflexivity).
  unfold bind at 1 in Hi.
  destruct (extractFfmpeg env w1) as [[exe | e | | code] w2]; cbn [snd];
    injection Hi as _ <-; right; reflexivity.
Qed.

(** The four ways through the [try] block of [main]. *)
Lemma main_body_cases (env : Env) (w : World) :
  (exec_ffmpeg_version env = Exited 0 /\
   main_body env w =
     (Return tt,
      mkWorld (files w)
        (console w ++ [L_AlreadyInstalled; L_NoNeed; L_FullQuality])
        (calls w ++ [C_checkFfmpeg]))) \/
  (exec_ffmpeg_version env <> Exited 0 /\
   existsSync (files w) cachedExePath = true /\
   main_body env w =
     (Return tt,
      mkWorld (files w)
        (console w ++
           [L_NotInPath; L_LocalFound; L_InstalledAt cachedExePath; L_ToUse;
            L_BinDir (dirname cachedExePath); L_YouCanDo;
            L_Setx (dirname cachedExePath)])
        (calls w ++
           [C_checkFfmpeg; C_localCacheProbe; C_addToPath cachedExePath]))) \/
  (exec_ffmpeg_version env <> Exited 0 /\
   existsSync (files w) cachedExePath = false /\
   stdin_confirm env = false /\
   main_body env w =
     (if stdin_eof env then Quit 0 else Halt, at_download w)) \/
  (exec_ffmpeg_version env <> Exited 0 /\
   existsSync (files w) cachedExePath = false /\
   stdin_confirm env = true /\
   main_body env w = install env (at_download w)).
Proof.
  assert (Hdec : exec_ffmpeg_version env = Exited 0 \/
                 exec_ffmpeg_version env <> Exited 0).
  { destruct (exec_ffmpeg_version env) as [[| code] | |];
      [left; reflexivity | right; discriminate ..]. }
  destruct Hdec as [Hexec | Hexec].
  - left. split; [exact Hexec | exact (main_body_installed env w Hexec)].
  - right. destruct (existsSync (files w) cachedExePath) eqn:Hcache.
    + left. repeat split; auto. exact (main_body_cached env w Hexec Hcache).
    + right. destruct (stdin_confirm env) eqn:Hkey.
      * right. repeat split; auto.
        exact (main_body_at_download env w Hexec Hcache Hkey).
      * left. repeat split; auto.
        exact (main_body_unconfirmed env w Hexec Hcache Hkey).
Qed.

(** The script after its [try] block has returned, or stays pending. *)
Lemma script_main_body_return (env : Env) (w w1 : World) :
  main_body env (loaded w) = (Return tt, w1) ->
  script env w =
  (if stdin_exit env then Exit 0 else Waiting,
   mkWorld (files w1) (console w1 ++ [L_PressAnyKey])
     (calls w1 ++ [C_awaitExitKey])).
Proof.
  intros H. unfold script, main.
  unfold bind at 1 2 3. unfold log at 1 2 3. red_world.
  unfold try_catch at 1 2.
  replace (mkWorld (files w) (((console w ++ [L_Title]) ++ [L_Rule]) ++ [L_Intro]) (calls w))
    with (loaded w) by (unfold loaded; rewrite <- !app_assoc; reflexivity).
  rewrite H. destruct w1 as [fs out cs]. run.
  destruct (stdin_exit env); reflexivity.
Qed.

Lemma script_main_body_halt (env : Env) (w w1 : World) :
  main_body env (loaded w) = (Halt, w1) ->
  script env w = (Waiting, w1).
Proof.
  intros H. unfold script, main.
  unfold bind at 1 2 3. unfold log at 1 2 3. red_world.
  unfold try_catch at 1 2.
  replace (mkWorld (files w) (((console w ++ [L_Title]) ++ [L_Rule]) ++ [L_Intro]) (calls w))
    with (loaded w) by (unfold loaded; rewrite <- !app_assoc; reflexivity).
  rewrite H. reflexivity.
Qed.

(** The script leaves the files its [try] block leaves. *)
Lemma script_files (env : Env) (w : World) :
  files (snd (script env w)) = files (snd (main_body env (loaded w))).
Proof.
  destruct (main_body env (loaded w)) as [[[] | e | | code] w1] eqn:H.
  - rewrite (script_main_body_return env w w1 H). reflexivity.
  - rewrite (script_main_body_throw env w w1 e H). reflexivity.
  - rewrite (script_main_body_halt env w w1 H). reflexivity.
  - rewrite (script_main_body_quit env w w1 code H). reflexivity.
Qed.

(** The files of a run are those it started with, or those [install]
    leaves. *)
Lemma script_files_cases (env : Env) (w : World) :
  files (snd (script env w)) = files w \/
  (exec_ffmpeg_version env <> Exited 0 /\
   existsSync (files w) cachedExePath = false /\
   stdin_confirm env = true /\
   files (snd (script env w))
     = files (snd (install env (at_download (loaded w))))).
Proof.
  rewrite script_files.
  destruct (main_body_cases env (loaded w))
    as [(_ & ->) | [(_ & _ & ->) | [(_ & _ & _ & ->) | (He & Hc & Hk & ->)]]];
    auto.
Qed.

(** X8: in its directory the script writes and deletes nothing but the
    archive [ffmpeg-download.zip] and what is below the install root
    [ffmpeg]: every other entry is the same after the run, whatever the
    environment does. *)
Theorem script_touches_only_archive_and_root
    (env : Env) (w : World) (c : string) (q : path) :
  c <> "ffmpeg-download.zip" ->
  c <> "ffmpeg" ->
  lookup (Dir (files (snd (script env w)))) (c :: q)
  = lookup (Dir (files w)) (c :: q).
Proof.
  intros Hzip Hroot.
  destruct (script_files_cases env w) as [-> | (_ & _ & _ & ->)];
    [reflexivity |].
  pose proof (downloadFfmpeg_elsewhere env (at_download (loaded w)) c q Hzip)
    as Hd.
  cbn [at_download loaded files] in Hd.
  destruct (install_files env (at_download (loaded w))) as [-> | ->];
    [exact Hd |].
  rewrite (extractFfmpeg_elsewhere env _ c q Hzip Hroot). exact Hd.
Qed.

Lemma script_touches_only_archive_and_root_witness :
  lookup (Dir (files (snd (script Scenario.online (Scenario.start Scenario.fresh)))))
    ["setup-ffmpeg.js"]
  = Some (File "// FFmpeg Setup Script").
Proof.
  rewrite (script_touches_only_archive_and_root Scenario.online
             (Scenario.start Scenario.fresh) "setup-ffmpeg.js" []);
    [reflexivity | discriminate | discriminate].
Defined.

(** X9: the script never removes the install root: if [ffmpeg] is a
    directory when the script starts, it is a directory when the script
    ends or waits, whatever the environment does. *)
Theorem script_keeps_install_root (env : Env) (w : World) (es : dir) :
  lookup (Dir (files w)) ffmpegDir = Some (Dir es) ->
  exists es',
    lookup (Dir (files (snd (script env w)))) ffmpegDir = Some (Dir es').
Proof.
  intros Hroot.
  destruct (script_files_cases env w) as [-> | (_ & _ & _ & ->)]; [eauto |].
  pose proof (downloadFfmpeg_elsewhere env (at_download (loaded w)) "ffmpeg" []
                root_is_not_zip) as Hd.
  cbn [at_download loaded files] in Hd.
  change ("ffmpeg" :: []) with ffmpegDir in Hd. rewrite Hroot in Hd.
  destruct (install_files env (at_download (loaded w))) as [-> | ->];
    [eauto |].
  exact (extractFfmpeg_root env _ es Hd).
Qed.

Lemma script_keeps_install_root_witness :
  (In C_extractFfmpeg
     (calls (snd (script Scenario.online
                    (Scenario.start (Scenario.extracted Scenario.docs_only))))) /\
   exists es',
     lookup (Dir (files (snd (script Scenario.online
                                (Scenario.start
                                   (Scenario.extracted Scenario.docs_only))))))
       ffmpegDir = Some (Dir es')) /\
  (In C_extractFfmpeg
     (calls (snd (script Scenario.online
                    (Scenario.start (Scenario.extracted Scenario.clash))))) /\
   exists es',
     lookup (Dir (files (snd (script Scenario.online
                                (Scenario.start
                                   (Scenario.extracted Scenario.clash))))))
       ffmpegDir = Some (Dir es')).
Proof.
  split; (split; [vm_compute; tauto |]).
  - apply (script_keeps_install_root Scenario.online
             (Scenario.start (Scenario.extracted Scenario.docs_only))
             Scenario.docs_only).
    reflexivity.
  - apply (script_keeps_install_root Scenario.online
             (Scenario.start (Scenario.extracted Scenario.clash))
             Scenario.clash).
    reflexivity.
Defined.

(** ** What a run prints *)

Ltac lines_done :=
  intros [= <- <-]; red_world;
  eexists; rewrite <- ?app_assoc; split; reflexivity.

Lemma downloadFfmpeg_lines (env : Env) (w : World) (r : outcome unit) (w' : World) :
  downloadFfmpeg env w = (r, w') ->
  exists ls, console w' = console w ++ ls /\ forallb stage_line ls = true.
Proof. destruct w as [fs out cs0]. run. crunch; lines_done. Qed.

Lemma extractFfmpeg_lines (env : Env) (w : World) (r : outcome path) (w' : World) :
  extractFfmpeg env w = (r, w') ->
  exists ls, console w' = console w ++ ls /\ forallb stage_line ls = true.
Proof. destruct w as [fs out cs0]. run. crunch; lines_done. Qed.

Lemma stage_line_body_line (ls : list Line) :
  forallb stage_line ls = true -> forallb body_line ls = true.
Proof.
  induction ls as [| l ls IH]; simpl; [reflexivity |].
  intros H. apply andb_prop in H. destruct H as [Hl Hls].
  rewrite (IH Hls). destruct l; try discriminate; reflexivity.
Qed.

Lemma body_line_no_warning (ls : list Line) :
  forallb body_line ls = true -> filter is_warning ls = [].
Proof.
  induction ls as [| l ls IH]; simpl; [reflexivity |].
  intros H. apply andb_prop in H. destruct H as [Hl Hls].
  rewrite (IH Hls). destruct l; try discriminate; reflexivity.
Qed.


(** What [install] prints: lines of the two stages and, if it returns, the
    guidance and "Setup complete". *)
Lemma install_lines (env : Env) (wd : World) (r : outcome unit) (w' : World) :
  install env wd = (r, w') ->
  exists ls,
    forallb stage_line ls = true /\
    ((r = Return tt /\
      exists exe,
        console w' = console wd ++ ls ++ guidance_lines exe ++ [L_SetupComplete]) \/
     (r <> Return tt /\ console w' = console wd ++ ls)).
Proof.
  unfold install. unfold bind at 1.
  destruct (downloadFfmpeg env wd) as [r1 w1] eqn:Hd.
  destruct (downloadFfmpeg_lines _ _ _ _ Hd) as (ls1 & Hl1 & Hs1).
  destruct r1 as [u | e | | code].
  2, 3, 4: intros [= <- <-]; exists ls1; split; [exact Hs1 |]; right;
        split; [discriminate | exact Hl1].
  unfold bind at 1.
  destruct (extractFfmpeg env w1) as [r2 w2] eqn:Hx.
  destruct (extractFfmpeg_lines _ _ _ _ Hx) as (ls2 & Hl2 & Hs2).
  assert (Hs : forallb stage_line (ls1 ++ ls2) = true)
    by (rewrite forallb_app, Hs1, Hs2; reflexivity).
  destruct r2 as [exe | e | | code].
  2, 3, 4: intros [= <- <-]; exists (ls1 ++ ls2); split; [exact Hs |]; right;
        split; [discriminate | rewrite Hl2, Hl1, <- app_assoc; reflexivity].
  destruct w2 as [fs out cs]. run. intros [= <- <-]. red_world.
  cbn [console] in Hl2. exists (ls1 ++ ls2). split; [exact Hs |]. left.
  split; [reflexivity |]. exists exe.
  rewrite Hl2, Hl1. unfold guidance_lines. rewrite <- !app_assoc. reflexivity.
Qed.

(** What the [try] block of [main] prints. *)
Lemma main_body_lines (env : Env) (w : World) :
  exists ls,
    console (snd (main_body env w)) = console w ++ ls /\
    forallb body_line ls = true /\
    (In L_SetupComplete ls -> fst (main_body env w) = Return tt).
Proof.
  destruct (main_body_cases env w)
    as [(_ & ->) | [(_ & _ & ->) | [(_ & _ & _ & ->) | (_ & _ & _ & ->)]]].
  - eexists. split; [reflexivity |]. split; reflexivity.
  - eexists. split; [reflexivity |]. split; reflexivity.
  - exists [L_NotInPath; L_WouldYouLike; L_PressEnter].
    split; [reflexivity |]. split; [reflexivity |].
    intros H. repeat destruct H as [H | H]; try discriminate H. destruct H.
  - destruct (install env (at_download w)) as [r w'] eqn:Hi.
    destruct (install_lines _ _ _ _ Hi) as (ls & Hs & [(-> & exe & Hl) | (Hr & Hl)]).
    + exists ([L_NotInPath; L_WouldYouLike; L_PressEnter] ++ ls ++
              guidance_lines exe ++ [L_SetupComplete]).
      cbn [fst snd]. rewrite Hl. cbn [at_download console].
      rewrite <- !app_assoc. split; [reflexivity |]. split; [| reflexivity].
      rewrite !forallb_app, (stage_line_body_line _ Hs). reflexivity.
    + exists ([L_NotInPath; L_WouldYouLike; L_PressEnter] ++ ls).
      cbn [fst snd]. rewrite Hl. cbn [at_download console].
      rewrite <- !app_assoc. split; [reflexivity |]. split.
      * rewrite forallb_app, (stage_line_body_line _ Hs). reflexivity.
      * intros H. apply in_app_or in H. destruct H as [H | H].
        -- repeat destruct H as [H | H]; try discriminate H. destruct H.
        -- pose proof (proj1 (forallb_forall stage_line ls) Hs _ H) as Hline.
           discriminate Hline.
Qed.

(** What a run prints, by the way its [try] block ends. *)
Lemma script_lines (env : Env) (w : World) :
  exists ls,
    forallb body_line ls = true /\
    (In L_SetupComplete ls -> fst (main_body env (loaded w)) = Return tt) /\
    lines_since w (snd (script env w)) =
      [L_Title; L_Rule; L_Intro] ++ ls ++
      match fst (main_body env (loaded w)) with
      | Return _ => [L_PressAnyKey]
      | Throw e => [L_ErrorSettingUp (message e); L_StillUsable; L_PressAnyKey]
      | Halt | Quit _ => []
      end.
Proof.
  destruct (main_body_lines env (loaded w)) as (ls & Hl & Hb & Hdone).
  exists ls. split; [exact Hb |]. split; [exact Hdone |].
  destruct (main_body env (loaded w)) as [[[] | e | | code] w1] eqn:H;
    cbn [fst snd] in *; cbn [loaded console] in Hl.
  - rewrite (script_main_body_return env w w1 H). cbn [snd].
    apply lines_since_app. cbn [console]. rewrite Hl, <- !app_assoc. reflexivity.
  - rewrite (script_main_body_throw env w w1 e H). cbn [snd].
    apply lines_since_app. cbn [console]. rewrite Hl, <- !app_assoc. reflexivity.
  - rewrite (script_main_body_halt env w w1 H). cbn [snd].
    apply lines_since_app. rewrite Hl, <- !app_assoc, app_nil_r. reflexivity.
  - rewrite (script_main_body_quit env w w1 code H). cbn [snd].
    apply lines_since_app. rewrite Hl, <- !app_assoc, app_nil_r. reflexivity.
Qed.



(** X11: the warning is printed when, and only when, the [try] block of
    [main] ends with an error, and then once; a run that prints "Setup
    complete" prints no warning. *)
Theorem script_warns_exactly_on_error (env : Env) (w : World) :
  warnings_since w (snd (script env w)) =
    match fst (main_body env (loaded w)) with
    | Throw _ => 1
    | _ => 0
    end /\
  (In L_SetupComplete (lines_since w (snd (script env w))) ->
   warnings_since w (snd (script env w)) = 0).
Proof.
  destruct (script_lines env w) as (ls & Hb & Hdone & Hlines).
  assert (Hcount :
    warnings_since w (snd (script env w)) =
    match fst (main_body env (loaded w)) with
    | Throw _ => 1
    | _ => 0
    end).
  { unfold warnings_since. rewrite Hlines, !filter_app.
    rewrite (body_line_no_warning ls Hb).
    destruct (fst (main_body env (loaded w))); reflexivity. }
  split; [exact Hcount |].
  intros Hin. rewrite Hcount. rewrite Hlines in Hin.
  destruct (fst (main_body env (loaded w))) as [u | e | | code] eqn:Hfst;
    try reflexivity.
  exfalso. cbn [app] in Hin.
  repeat (destruct Hin as [Hin | Hin]; [discriminate Hin |]).
  apply in_app_or in Hin. destruct Hin as [Hin | Hin].
  - specialize (Hdone Hin). discriminate.
  - simpl in Hin. intuition discriminate.
Qed.

(** X12: unless both probes are negative and the confirmation comes, the
    script changes no file, starts neither the download nor the
    extraction, and prints no warning. *)
Theorem script_idle_unless_confirmed (env : Env) (w : World) :
  exec_ffmpeg_version env = Exited 0 \/
  existsSync (files w) cachedExePath = true \/
  stdin_confirm env = false ->
  files (snd (script env w)) = files w /\
  ~ In C_downloadFfmpeg (calls_since w (snd (script env w))) /\
  ~ In C_extractFfmpeg (calls_since w (snd (script env w))) /\
  warnings_since w (snd (script env w)) = 0.
Proof.
  intros Hidle.
  assert (Hwarn : forall r w1, main_body env (loaded w) = (r, w1) ->
            (forall e, r <> Throw e) ->
            warnings_since w (snd (script env w)) = 0).
  { intros r w1 H Hr. destruct (script_lines env w) as (ls & Hb & _ & Hlines).
    unfold warnings_since. rewrite Hlines, !filter_app.
    rewrite (body_line_no_warning ls Hb), H. cbn [fst].
    destruct r as [u | e | | code]; try reflexivity. destruct (Hr e). reflexivity. }
  assert (Hno : forall cs : list Call,
            (forall c, In c cs -> c <> C_downloadFfmpeg /\ c <> C_extractFfmpeg) ->
            ~ In C_downloadFfmpeg cs /\ ~ In C_extractFfmpeg cs).
  { intros cs Hcs. split; intros Hin; destruct (Hcs _ Hin) as [H1 H2]; congruence. }
  destruct (main_body_cases env (loaded w))
    as [(_ & H) | [(_ & _ & H) | [(_ & _ & _ & H) | (He & Hc & Hk & _)]]].
  - rewrite (Hwarn _ _ H) by discriminate.
    rewrite (script_main_body_return env w _ H). cbn [snd files loaded].
    split; [reflexivity |]. unfold calls_since. cbn [calls loaded].
    rewrite <- app_assoc, skipn_length_app.
    destruct (Hno [C_checkFfmpeg; C_awaitExitKey]) as [H1 H2]; auto.
    intros c Hin. repeat destruct Hin as [<- | Hin]; try destruct Hin;
      split; discriminate.
  - rewrite (Hwarn _ _ H) by discriminate.
    rewrite (script_main_body_return env w _ H). cbn [snd files loaded].
    split; [reflexivity |]. unfold calls_since. cbn [calls loaded].
    rewrite <- app_assoc, skipn_length_app.
    destruct (Hno ([C_checkFfmpeg; C_localCacheProbe; C_addToPath cachedExePath]
                   ++ [C_awaitExitKey])) as [H1 H2]; auto.
    intros c Hin. repeat destruct Hin as [<- | Hin]; try destruct Hin;
      split; discriminate.
  - rewrite (Hwarn _ _ H) by (destruct (stdin_eof env); discriminate).
    assert (Hs : snd (script env w) = at_download (loaded w)).
    { destruct (stdin_eof env);
        [rewrite (script_main_body_quit env w _ 0 H)
        | rewrite (script_main_body_halt env w _ H)]; reflexivity. }
    rewrite Hs. cbn [snd files loaded at_download].
    split; [reflexivity |]. unfold calls_since. cbn [calls loaded at_download].
    rewrite skipn_length_app.
    destruct (Hno [C_checkFfmpeg; C_localCacheProbe; C_awaitConfirmation])
      as [H1 H2]; auto.
    intros c Hin. repeat destruct Hin as [<- | Hin]; try destruct Hin;
      split; discriminate.
  - cbn [loaded files] in Hc.
    destruct Hidle as [Hi | [Hi | Hi]]; congruence.
Qed.

Lemma script_idle_unless_confirmed_witness :
  files (snd (script Scenario.on_path (Scenario.start Scenario.fresh)))
    = Scenario.fresh /\
  files (snd (script Scenario.online (Scenario.start Scenario.installed)))
    = Scenario.installed /\
  files (snd (script Scenario.unattended (Scenario.start Scenario.fresh)))
    = Scenario.fresh /\
  ~ In C_downloadFfmpeg
      (calls_since (Scenario.start Scenario.fresh)
         (snd (script Scenario.unattended (Scenario.start Scenario.fresh)))).
Proof.
  destruct (script_idle_unless_confirmed Scenario.on_path
              (Scenario.start Scenario.fresh) (or_introl eq_refl))
    as (H1 & _).
  destruct (script_idle_unless_confirmed Scenario.online
              (Scenario.start Scenario.installed) (or_intror (or_introl eq_refl)))
    as (H2 & _).
  destruct (script_idle_unless_confirmed Scenario.unattended
              (Scenario.start Scenario.fresh) (or_intror (or_intror eq_refl)))
    as (H3 & H4 & _).
  auto.
Defined.

(** The download of a response with status 200, as a world. *)
Lemma downloadFfmpeg_ok (env : Env) (w : World) (body : string) :
  https_get env = Response 200 body ->
  (forall sub, lookup (Dir (files w)) downloadPath <> Some (Dir sub)) ->
  downloadFfmpeg env w =
  (Return tt,
   mkWorld
     (set_entry "ffmpeg-download.zip" (File body)
        (set_entry "ffmpeg-download.zip" (File "") (files w)))
     (console w ++ [L_Downloading; L_DownloadComplete])
     (calls w ++ [C_downloadFfmpeg])).
Proof.
  intros Hget Hw. destruct w as [fs out cs]. run. cbn [files] in Hw.
  rewrite (write_downloadPath "" fs Hw), Hget. red_world. cbn [Nat.eqb negb].
  red_world.
  assert (Hw' : forall sub,
            lookup (Dir (set_entry "ffmpeg-download.zip" (File "") fs)) downloadPath
            <> Some (Dir sub)).
  { intros sub. rewrite lookup_downloadPath, assoc_set_entry_same. discriminate. }
  rewrite (write_downloadPath body _ Hw'). red_world.
  rewrite <- !app_assoc. reflexivity.
Qed.

Lemma dirname_basename (p : path) :
  p <> [] -> join (dirname p) [basename p] = p.
Proof.
  intros H. unfold join, dirname, basename.
  symmetry. apply app_removelast_last. exact H.
Qed.

(** X13: a run that installs.  When both probes are negative, the
    confirmation comes, the server answers 200 and the extraction stage
    returns a path, the script prints its progress, the guidance for that
    path and "Setup complete", then the exit prompt, and no warning; it
    calls each stage once, in order; and the directory the guidance tells
    the user to add to the PATH holds [ffmpeg.exe] in the files the run
    leaves. *)
Theorem script_installs
    (env : Env) (w w2 : World) (body : string) (exe : path) :
  exec_ffmpeg_version env <> Exited 0 ->
  existsSync (files w) cachedExePath = false ->
  stdin_confirm env = true ->
  https_get env = Response 200 body ->
  (forall sub, lookup (Dir (files w)) downloadPath <> Some (Dir sub)) ->
  extractFfmpeg env (snd (downloadFfmpeg env (at_download (loaded w))))
    = (Return exe, w2) ->
  fst (script env w) = (if stdin_exit env then Exit 0 else Waiting) /\
  lines_since w (snd (script env w)) =
    [L_Title; L_Rule; L_Intro; L_NotInPath; L_WouldYouLike; L_PressEnter;
     L_Downloading; L_DownloadComplete;
     L_Extracting; L_ExtractionComplete; L_CleanedUp] ++
    guidance_lines exe ++ [L_SetupComplete; L_PressAnyKey] /\
  calls_since w (snd (script env w)) =
    [C_checkFfmpeg; C_localCacheProbe; C_awaitConfirmation; C_downloadFfmpeg;
     C_extractFfmpeg; C_unlinkSync downloadPath; C_findFfmpegExePath ffmpegDir;
     C_addToPath exe; C_awaitExitKey] /\
  files (snd (script env w)) = files w2 /\
  existsSync (files (snd (script env w))) (join (dirname exe) [ffmpeg_exe])
    = true.
Proof.
  intros Hexec Hcache Hkey Hget Hw Hx.
  assert (Hd := downloadFfmpeg_ok env (at_download (loaded w)) body Hget Hw).
  rewrite Hd in Hx. cbn [snd] in Hx.
  destruct (extractFfmpeg_Return_found _ _ _ _ Hx) as (Hbase & (q & Hq & Hne) & Hex).
  destruct (extractFfmpeg_Return_inv _ _ _ _ Hx) as (wx & Hp & _ & _ & Hw2).
  pose proof (prepare_and_extract_frame env
                (entered (snd (Return tt,
                   mkWorld
                     (set_entry "ffmpeg-download.zip" (File body)
                        (set_entry "ffmpeg-download.zip" (File "")
                           (files (at_download (loaded w)))))
                     (console (at_download (loaded w)) ++
                        [L_Downloading; L_DownloadComplete])
                     (calls (at_download (loaded w)) ++ [C_downloadFfmpeg])))))
    as (_ & Hcalls & Hout).
  cbn [snd] in Hcalls, Hout. rewrite Hp in Hcalls, Hout.
  cbn [fst snd entered at_download loaded console calls] in Hcalls, Hout.
  pose proof (install_done env _ _ _ exe Hd Hx) as Hinst.
  rewrite <- (main_body_at_download env (loaded w) Hexec Hcache Hkey) in Hinst.
  rewrite (script_main_body_return env w _ Hinst). cbn [fst snd files].
  split; [reflexivity |].
  assert (Hexe : join (dirname exe) [ffmpeg_exe] = exe).
  { rewrite <- Hbase. apply dirname_basename.
    rewrite Hq. unfold ffmpegDir, __dirname, join. discriminate. }
  rewrite Hexe.
  split; [| split; [| split; [reflexivity | exact Hex]]].
  - apply lines_since_app. cbn [console]. subst w2. cbn [console].
    rewrite Hout. unfold guidance_lines. rewrite <- !app_assoc. reflexivity.
  - apply calls_since_app. cbn [calls]. subst w2. cbn [calls].
    rewrite Hcalls, <- !app_assoc. reflexivity.
Qed.

Lemma script_installs_witness :
  fst (script Scenario.online (Scenario.start Scenario.fresh)) = Exit 0 /\
  lines_since (Scenario.start Scenario.fresh)
    (snd (script Scenario.online (Scenario.start Scenario.fresh))) =
    [L_Title; L_Rule; L_Intro; L_NotInPath; L_WouldYouLike; L_PressEnter;
     L_Downloading; L_DownloadComplete;
     L_Extracting; L_ExtractionComplete; L_CleanedUp] ++
    guidance_lines
      ["ffmpeg"; "ffmpeg-master-latest-win64-gpl"; "bin"; "ffmpeg.exe"] ++
    [L_SetupComplete; L_PressAnyKey] /\
  existsSync (files (snd (script Scenario.online (Scenario.start Scenario.fresh))))
    ["ffmpeg"; "ffmpeg-master-latest-win64-gpl"; "bin"; "ffmpeg.exe"] = true.
Proof.
  assert (Hexec : exec_ffmpeg_version Scenario.online <> Exited 0)
    by discriminate.
  assert (Hfree : forall sub,
            lookup (Dir (files (Scenario.start Scenario.fresh))) downloadPath
            <> Some (Dir sub))
    by (intros sub; vm_compute; discriminate).
  destruct (script_installs Scenario.online (Scenario.start Scenario.fresh)
              (snd (extractFfmpeg Scenario.online
                      (snd (downloadFfmpeg Scenario.online
                              (at_download (loaded (Scenario.start Scenario.fresh)))))))
              "PK"
              ["ffmpeg"; "ffmpeg-master-latest-win64-gpl"; "bin"; "ffmpeg.exe"]
              Hexec eq_refl eq_refl eq_refl Hfree eq_refl)
    as (Hexit & Hlines & _ & _ & Hexe).
  split; [exact Hexit |]. split; [exact Hlines | exact Hexe].
Defined.

(** The extraction of an archive the decoder refuses throws the error of
    the decoder, whatever the state of the install root. *)
Lemma prepare_and_extract_unzip_error
    (env : Env) (w : World) (data : string) (e : Error) :
  lookup (Dir (files w)) downloadPath = Some (File data) ->
  unzip env data = UnzipError e ->
  mkdirSync_refused env = None ->
  fst (prepare_and_extract env w) = Throw e.
Proof.
  destruct w as [fs out cs]. cbn [files]. rewrite lookup_downloadPath.
  intros Hzip Hunzip Hfree. run. unfold existsSync.
  rewrite ?lookup_ffmpegDir, Hfree.
  destruct (assoc "ffmpeg" fs) as [n |] eqn:Hroot; red_world; cbn [negb];
    red_world.
  - rewrite lookup_downloadPath, Hzip, Hunzip. reflexivity.
  - rewrite mkdir_p_ffmpegDir, Hroot. red_world.
    rewrite lookup_downloadPath, (assoc_set_entry_other _ _ _ _ zip_is_not_root),
      Hzip, Hunzip.
    reflexivity.
Qed.

(** X14: what is downloaded is what is extracted, and a bad archive is left
    on the disk.  When both probes are negative, the confirmation comes and
    the server answers 200 with a body the decoder refuses with the error
    [e], the run logs [e] twice, prints the warning once, never calls
    [fs.unlinkSync], and the archive with that body is still in the
    directory when the script comes to the exit prompt. *)
Theorem script_leaves_bad_archive
    (env : Env) (w : World) (body : string) (e : Error) :
  exec_ffmpeg_version env <> Exited 0 ->
  existsSync (files w) cachedExePath = false ->
  stdin_confirm env = true ->
  https_get env = Response 200 body ->
  (forall sub, lookup (Dir (files w)) downloadPath <> Some (Dir sub)) ->
  unzip env body = UnzipError e ->
  mkdirSync_refused env = None ->
  fst (script env w) = (if stdin_exit env then Exit 0 else Waiting) /\
  lines_since w (snd (script env w)) =
    [L_Title; L_Rule; L_Intro; L_NotInPath; L_WouldYouLike; L_PressEnter;
     L_Downloading; L_DownloadComplete; L_Extracting;
     L_ErrorExtracting (message e); L_ErrorSettingUp (message e);
     L_StillUsable; L_PressAnyKey] /\
  calls_since w (snd (script env w)) =
    [C_checkFfmpeg; C_localCacheProbe; C_awaitConfirmation; C_downloadFfmpeg;
     C_extractFfmpeg; C_awaitExitKey] /\
  lookup (Dir (files (snd (script env w)))) downloadPath = Some (File body).
Proof.
  intros Hexec Hcache Hkey Hget Hw Hunzip Hfree.
  assert (Hd := downloadFfmpeg_ok env (at_download (loaded w)) body Hget Hw).
  remember (mkWorld
              (set_entry "ffmpeg-download.zip" (File body)
                 (set_entry "ffmpeg-download.zip" (File "")
                    (files (at_download (loaded w)))))
              (console (at_download (loaded w)) ++
                 [L_Downloading; L_DownloadComplete])
              (calls (at_download (loaded w)) ++ [C_downloadFfmpeg]))
    as wd eqn:Hwd.
  assert (Hzip : lookup (Dir (files wd)) downloadPath = Some (File body)).
  { subst wd. cbn [files]. rewrite lookup_downloadPath.
    apply assoc_set_entry_same. }
  pose proof (prepare_and_extract_unzip_error env (entered wd) body e
                Hzip Hunzip Hfree) as Hthrow.
  destruct (prepare_and_extract env (entered wd)) as [r wx] eqn:Hp.
  cbn [fst] in Hthrow. subst r.
  pose proof (prepare_and_extract_frame env (entered wd)) as (_ & Hcalls & Hout).
  pose proof (prepare_and_extract_elsewhere env (entered wd)
                "ffmpeg-download.zip" [] zip_is_not_root) as Hkeep.
  rewrite Hp in Hcalls, Hout, Hkeep.
  cbn [fst snd entered files console calls] in Hcalls, Hout, Hkeep.
  change ("ffmpeg-download.zip" :: []) with downloadPath in Hkeep.
  rewrite Hzip in Hkeep. rewrite app_nil_r in Hout.
  pose proof (extractFfmpeg_prepare_throw env wd wx e Hp) as Hx.
  pose proof (install_extract_throw env _ _ _ e Hd Hx) as Hinst.
  rewrite <- (main_body_at_download env (loaded w) Hexec Hcache Hkey) in Hinst.
  rewrite (script_main_body_throw env w _ e Hinst). cbn [fst snd files].
  split; [reflexivity |]. split; [| split; [| exact Hkeep]].
  - apply lines_since_app. cbn [console]. rewrite Hout. subst wd.
    cbn [console at_download loaded]. rewrite <- !app_assoc. reflexivity.
  - apply calls_since_app. cbn [calls]. rewrite Hcalls. subst wd.
    cbn [calls at_download loaded]. rewrite <- !app_assoc. reflexivity.
Qed.

Lemma script_leaves_bad_archive_witness :
  fst (script Scenario.corrupt (Scenario.start Scenario.fresh)) = Exit 0 /\
  lookup (Dir (files (snd (script Scenario.corrupt (Scenario.start Scenario.fresh)))))
    downloadPath = Some (File "PK") /\
  calls_since (Scenario.start Scenario.fresh)
    (snd (script Scenario.corrupt (Scenario.start Scenario.fresh))) =
    [C_checkFfmpeg; C_localCacheProbe; C_awaitConfirmation; C_downloadFfmpeg;
     C_extractFfmpeg; C_awaitExitKey].
Proof.
  assert (Hexec : exec_ffmpeg_version Scenario.corrupt <> Exited 0)
    by discriminate.
  assert (Hfree : forall sub,
            lookup (Dir (files (Scenario.start Scenario.fresh))) downloadPath
            <> Some (Dir sub))
    by (intros sub; vm_compute; discriminate).
  destruct (script_leaves_bad_archive Scenario.corrupt
              (Scenario.start Scenario.fresh) "PK"
              (mkError "End of central directory not found")
              Hexec eq_refl eq_refl eq_refl Hfree eq_refl eq_refl)
    as (Hexit & _ & Hcalls & Hzip).
  split; [exact Hexit |]. split; [exact Hzip | exact Hcalls].
Defined.

(** X15: when both probes are negative and the confirmation comes, every
    error [e] with which the promise of the download stage or of the
    extraction stage rejects is caught by [main], once: the script prints
    the error, then the warning that the application stays usable with
    limited quality, then the exit prompt; the warning is printed exactly
    once in the whole run; no rejection is left unhandled, and the process
    exits with code 0 when the wait at the prompt ends. *)
Theorem script_survives_install_errors (env : Env) (w w1 : World) (e : Error) :
  exec_ffmpeg_version env <> Exited 0 ->
  existsSync (files w) cachedExePath = false ->
  stdin_confirm env = true ->
  (downloadFfmpeg env (at_download (loaded w)) = (Throw e, w1) \/
   exists wx,
     downloadFfmpeg env (at_download (loaded w)) = (Return tt, wx) /\
     extractFfmpeg env wx = (Throw e, w1)) ->
  fst (script env w) = (if stdin_exit env then Exit 0 else Waiting) /\
  console (snd (script env w)) =
    console w1 ++ [L_ErrorSettingUp (message e); L_StillUsable; L_PressAnyKey] /\
  calls (snd (script env w)) = calls w1 ++ [C_awaitExitKey] /\
  warnings_since w (snd (script env w)) = 1.
Proof.
  intros Hexec Hcache Hkey Hfail.
  assert (Hinst : install env (at_download (loaded w)) = (Throw e, w1)).
  { destruct Hfail as [Hd | (wx & Hd & Hx)].
    - exact (install_download_throw _ _ _ _ Hd).
    - exact (install_extract_throw _ _ _ _ _ Hd Hx). }
  destruct (install_frame _ _ _ _ Hinst) as (cs & ls & _ & Hls & Hquiet & _).
  rewrite <- (main_body_at_download env (loaded w) Hexec Hcache Hkey) in Hinst.
  rewrite (script_main_body_throw env w _ e Hinst). cbn [fst snd console calls].
  repeat split.
  unfold warnings_since, lines_since. cbn [console]. rewrite Hls.
  cbn [at_download loaded console]. rewrite <- !app_assoc, skipn_length_app.
  rewrite !filter_app, Hquiet. reflexivity.
Qed.

Lemma script_survives_install_errors_witness :
  fst (script Scenario.missing (Scenario.start Scenario.fresh)) = Exit 0 /\
  console (snd (script Scenario.missing (Scenario.start Scenario.fresh))) =
    [L_Title; L_Rule; L_Intro; L_NotInPath; L_WouldYouLike; L_PressEnter;
     L_Downloading; L_ErrorSettingUp "Failed to download FFmpeg: 404";
     L_StillUsable; L_PressAnyKey] /\
  warnings_since (Scenario.start Scenario.fresh)
    (snd (script Scenario.missing (Scenario.start Scenario.fresh))) = 1 /\
  fst (script Scenario.incomplete (Scenario.start Scenario.fresh)) = Exit 0 /\
  warnings_since (Scenario.start Scenario.fresh)
    (snd (script Scenario.incomplete (Scenario.start Scenario.fresh))) = 1.
Proof.
  assert (Hmissing : exec_ffmpeg_version Scenario.missing <> Exited 0)
    by discriminate.
  assert (Hincomplete : exec_ffmpeg_version Scenario.incomplete <> Exited 0)
    by discriminate.
  destruct (script_survives_install_errors Scenario.missing
              (Scenario.start Scenario.fresh)
              (snd (downloadFfmpeg Scenario.missing
                      (at_download (loaded (Scenario.start Scenario.fresh)))))
              (mkError "Failed to download FFmpeg: 404")
              Hmissing eq_refl eq_refl (or_introl eq_refl))
    as (Hexit & Hconsole & _ & Hwarn).
  destruct (script_survives_install_errors Scenario.incomplete
              (Scenario.start Scenario.fresh)
              (snd (extractFfmpeg Scenario.incomplete
                      (snd (downloadFfmpeg Scenario.incomplete
                              (at_download (loaded (Scenario.start Scenario.fresh)))))))
              not_found_error
              Hincomplete eq_refl eq_refl
              (or_intror
                 (ex_intro _
                    (snd (downloadFfmpeg Scenario.incomplete
                            (at_download (loaded (Scenario.start Scenario.fresh)))))
                    (conj eq_refl eq_refl))))
    as (Hexit' & _ & _ & Hwarn').
  repeat split; assumption.
Defined.

(** ** Runs that do not reach the exit prompt *)

(** X16: a run without input.  When both probes are negative and no
    ['data'] event comes at the confirmation prompt, nothing is downloaded:
    the run ends at the prompt, where the script waits, or the process ends
    by itself with code 0 when stdin ends.  No file has changed, and the run
    has printed neither a warning nor the exit prompt. *)
Theorem script_stops_at_confirmation (env : Env) (w : World) :
  exec_ffmpeg_version env <> Exited 0 ->
  existsSync (files w) cachedExePath = false ->
  stdin_confirm env = false ->
  script env w =
  (if stdin_eof env then Exit 0 else Waiting,
   mkWorld (files w)
     (console w ++ [L_Title; L_Rule; L_Intro; L_NotInPath; L_WouldYouLike;
                    L_PressEnter])
     (calls w ++ [C_checkFfmpeg; C_localCacheProbe; C_awaitConfirmation])).
Proof.
  intros Hexec Hcache Hkey.
  pose proof (main_body_unconfirmed env (loaded w) Hexec Hcache Hkey) as Hb.
  assert (Hw : at_download (loaded w) =
               mkWorld (files w)
                 (console w ++ [L_Title; L_Rule; L_Intro; L_NotInPath;
                                L_WouldYouLike; L_PressEnter])
                 (calls w ++ [C_checkFfmpeg; C_localCacheProbe;
                              C_awaitConfirmation])).
  { unfold at_download, loaded. cbn [files console calls].
    rewrite <- app_assoc. reflexivity. }
  rewrite Hw in Hb.
  destruct (stdin_eof env).
  - exact (script_main_body_quit env w _ 0 Hb).
  - exact (script_main_body_halt env w _ Hb).
Qed.

Lemma script_stops_at_confirmation_witness :
  script Scenario.detached (Scenario.start Scenario.fresh) =
  (Exit 0,
   mkWorld Scenario.fresh
     [L_Title; L_Rule; L_Intro; L_NotInPath; L_WouldYouLike; L_PressEnter]
     [C_checkFfmpeg; C_localCacheProbe; C_awaitConfirmation]) /\
  script Scenario.unattended (Scenario.start Scenario.fresh) =
  (Waiting,
   mkWorld Scenario.fresh
     [L_Title; L_Rule; L_Intro; L_NotInPath; L_WouldYouLike; L_PressEnter]
     [C_checkFfmpeg; C_localCacheProbe; C_awaitConfirmation]).
Proof.
  assert (Hd : exec_ffmpeg_version Scenario.detached <> Exited 0)
    by discriminate.
  assert (Hu : exec_ffmpeg_version Scenario.unattended <> Exited 0)
    by discriminate.
  split.
  - exact (script_stops_at_confirmation Scenario.detached
             (Scenario.start Scenario.fresh) Hd eq_refl eq_refl).
  - exact (script_stops_at_confirmation Scenario.unattended
             (Scenario.start Scenario.fresh) Hu eq_refl eq_refl).
Defined.

(** The download of a response of status 200 whose body is cut, as a
    world. *)
Lemma downloadFfmpeg_cut (env : Env) (w : World) (received : string) :
  https_get env = ResponseCut 200 received ->
  (forall sub, lookup (Dir (files w)) downloadPath <> Some (Dir sub)) ->
  downloadFfmpeg env w =
  (if stdin_eof env then Quit 0 else Halt,
   mkWorld
     (set_entry "ffmpeg-download.zip" (File received)
        (set_entry "ffmpeg-download.zip" (File "") (files w)))
     (console w ++ [L_Downloading])
     (calls w ++ [C_downloadFfmpeg])).
Proof.
  intros Hget Hw. destruct w as [fs out cs]. run. cbn [files] in Hw.
  rewrite (write_downloadPath "" fs Hw), Hget. red_world. cbn [Nat.eqb negb].
  red_world.
  assert (Hw' : forall sub,
            lookup (Dir (set_entry "ffmpeg-download.zip" (File "") fs)) downloadPath
            <> Some (Dir sub)).
  { intros sub. rewrite lookup_downloadPath, assoc_set_entry_same. discriminate. }
  rewrite (write_downloadPath received _ Hw'). red_world.
  destruct (stdin_eof env); reflexivity.
Qed.

(** X17: a download that is cut hangs the run.  When both probes are
    negative, the confirmation comes and the body of the response of status
    200 stops arriving, the run gets no further than "Downloading
    FFmpeg...": the extraction is not started, neither a warning nor the
    exit prompt is printed, the part received stays in the archive, and
    the script waits, or the process ends with code 0 when stdin ends. *)
Theorem script_hangs_on_cut_body (env : Env) (w : World) (received : string) :
  exec_ffmpeg_version env <> Exited 0 ->
  existsSync (files w) cachedExePath = false ->
  stdin_confirm env = true ->
  (forall sub, lookup (Dir (files w)) downloadPath <> Some (Dir sub)) ->
  https_get env = ResponseCut 200 received ->
  script env w =
  (if stdin_eof env then Exit 0 else Waiting,
   mkWorld
     (set_entry "ffmpeg-download.zip" (File received)
        (set_entry "ffmpeg-download.zip" (File "") (files w)))
     (console w ++ [L_Title; L_Rule; L_Intro; L_NotInPath; L_WouldYouLike;
                    L_PressEnter; L_Downloading])
     (calls w ++ [C_checkFfmpeg; C_localCacheProbe; C_awaitConfirmation;
                  C_downloadFfmpeg])).
Proof.
  intros Hexec Hcache Hkey Hw Hget.
  pose proof (main_body_at_download env (loaded w) Hexec Hcache Hkey) as Hb.
  unfold install in Hb. unfold bind at 1 in Hb.
  rewrite (downloadFfmpeg_cut env (at_download (loaded w)) received Hget Hw)
    in Hb.
  cbn [at_download loaded files console calls] in Hb.
  rewrite <- !app_assoc in Hb. cbn [app] in Hb.
  destruct (stdin_eof env).
  - exact (script_main_body_quit env w _ 0 Hb).
  - exact (script_main_body_halt env w _ Hb).
Qed.

Lemma script_hangs_on_cut_body_witness :
  script Scenario.cut (Scenario.start Scenario.fresh) =
  (Waiting,
   mkWorld
     (Scenario.fresh ++ [("ffmpeg-download.zip", File "P")])
     [L_Title; L_Rule; L_Intro; L_NotInPath; L_WouldYouLike; L_PressEnter;
      L_Downloading]
     [C_checkFfmpeg; C_localCacheProbe; C_awaitConfirmation;
      C_downloadFfmpeg]).
Proof.
  assert (Hc : exec_ffmpeg_version Scenario.cut <> Exited 0) by discriminate.
  assert (Hfree : forall sub,
            lookup (Dir (files (Scenario.start Scenario.fresh))) downloadPath
            <> Some (Dir sub))
    by (intros sub; vm_compute; discriminate).
  exact (script_hangs_on_cut_body Scenario.cut (Scenario.start Scenario.fresh)
           "P" Hc eq_refl eq_refl Hfree eq_refl).
Defined.
